(** * Offline rate cache and connectivity mode of the currency converter

    A shallow embedding of [src/utils/cacheManager.js] (class [CacheManager])
    and [src/utils/networkStatus.js] (hook [useNetworkStatus],
    [NetworkUtils]), of the conversion history of [App.jsx], and of the
    components [ConverterForm], [OfflineIndicator] and [CurrencySelect] as
    far as their state and handlers go, followed by their properties.

    Layout:
    - [JS]: the fragment of the JavaScript runtime the files rely on
      (JSON values, truthiness, [JSON.parse], [JSON.stringify], [parseInt],
      numeric coercion, [Date.prototype.toISOString]);
    - [Browser]: [localStorage], the clock, the console, and the monad in
      which the program's statements run (state plus exceptions);
    - [CacheManager], [NetworkStatus]: the program, function by function;
    - [Spec]: the vocabulary of the properties and the sample worlds;
    - [Controller]: runs of events and actions on one use of the hook;
    - [Page]: the window together with what a component sends out
      (requests, speech, entries for the history), and
      [Number.prototype.toFixed];
    - [RatesFetch], [App], [CurrencySelect], [ConverterForm],
      [NetworkUtils], [OfflineIndicator], [Mounted]: the rest of the
      program; an [async] function is two definitions, what a call does up
      to its first [await] and what runs when the request has settled;
    - [Scene]: vocabulary and samples for the page;
    - the theorems.

    Outside the embedding: the markup of the components,
    [DateTimeDisplay] (its texts depend on the locale and the time zone of
    the host), the list of [ConversionHistory] (what it shows of a value is
    React's rendering of children), and
    [NetworkUtils.checkNetworkConnection]. *)

From Stdlib Require Import ZArith List String Ascii Bool Lia.
From Stdlib Require Import PrimFloat SpecFloat FloatOps FloatAxioms.
From stdpp Require Import base option list strings gmap.

#[local] Set Warnings "-register-all,-inexact-float".

Local Open Scope string_scope.
Local Open Scope Z_scope.

(* ===================================================================== *)
(** * The JavaScript runtime fragment *)
(* ===================================================================== *)

Module JS.

(** ** Values

    The values that can sit in [localStorage] after [JSON.parse], plus
    [undefined] (the result of reading a missing property).  Numbers are
    IEEE 754 binary64, as in JavaScript.  Strings are byte strings: the
    model is exact on ASCII text, which is what currency codes, JSON
    punctuation and timestamps are made of.  An object is its list of own
    properties, without repeated keys when it comes from [parse]. *)
Inductive value : Type :=
  | Undefined
  | Null
  | Bool (b : bool)
  | Number (x : float)
  | Str (s : string)
  | Array (xs : list value)
  | Object (fields : list (string * value)).

(** Exceptions the program can meet.  [SecurityError] and
    [QuotaExceededError] come from [localStorage], [SyntaxError] from
    [JSON.parse], [TypeError] from a failed numeric coercion and
    [RangeError] from formatting an invalid date. *)
Inductive exn : Type :=
  | SecurityError
  | QuotaExceededError
  | SyntaxError
  | TypeError
  | RangeError.

(** ToBoolean. *)
Definition falsy_number (x : float) : bool := is_zero x || is_nan x.

Definition truthy (v : value) : bool :=
  match v with
  | Undefined | Null => false
  | Bool b => b
  | Number x => negb (falsy_number x)
  | Str s => negb (String.eqb s "")
  | Array _ | Object _ => true
  end.

(** [v === s] for a string [s]. *)
Definition strict_eq_string (v : value) (s : string) : bool :=
  match v with
  | Str t => String.eqb t s
  | _ => false
  end.

(** ** Own properties *)

Fixpoint assoc (k : string) (fields : list (string * value)) : option value :=
  match fields with
  | [] => None
  | (k', v) :: rest => if String.eqb k' k then Some v else assoc k rest
  end.

(** [CreateDataProperty]: a repeated key keeps its place and takes the new
    value. *)
Fixpoint assoc_set (k : string) (v : value) (fields : list (string * value))
  : list (string * value) :=
  match fields with
  | [] => [(k, v)]
  | (k', v') :: rest =>
      if String.eqb k' k then (k, v) :: rest else (k', v') :: assoc_set k v rest
  end.

(** The names the program reads are the fixed names [rates] and
    [baseCurrency] and currency codes.  No built-in prototype (of objects,
    arrays, strings, numbers or booleans) has a member under such a name, so
    reading one yields the own property of an object and [undefined] on any
    other receiver.  Every read of the program sits behind a truthiness
    guard or [?.], so the receiver is never [null] or [undefined]. *)
Definition get (v : value) (k : string) : value :=
  match v with
  | Object fields => default Undefined (assoc k fields)
  | _ => Undefined
  end.

(** A currency code as the converter's dropdown offers them: a non-empty
    string of upper-case ASCII letters.  The built-in prototype members all
    carry a lower-case letter or an underscore, and array indices are
    digits, so [get] is exact on every code. *)
Definition is_upper (c : ascii) : bool :=
  let n := Z.of_nat (nat_of_ascii c) in (65 <=? n) && (n <=? 90).

Fixpoint all_upper (s : string) : bool :=
  match s with
  | EmptyString => true
  | String c rest => is_upper c && all_upper rest
  end.

Definition currency_code (s : string) : bool :=
  negb (String.eqb s "") && all_upper s.

(** ** Characters *)

Definition code (c : ascii) : Z := Z.of_nat (nat_of_ascii c).

Definition chr (n : Z) : ascii := ascii_of_nat (Z.to_nat n).

Definition is_digit (c : ascii) : bool := (48 <=? code c) && (code c <=? 57).

Definition digit_value (c : ascii) : Z := code c - 48.

Definition hex_value (c : ascii) : option Z :=
  let n := code c in
  if (48 <=? n) && (n <=? 57) then Some (n - 48)
  else if (97 <=? n) && (n <=? 102) then Some (n - 87)
  else if (65 <=? n) && (n <=? 70) then Some (n - 55)
  else None.

(** JSON white space: space, tab, line feed, carriage return. *)
Definition is_json_space (c : ascii) : bool :=
  let n := code c in (n =? 32) || (n =? 9) || (n =? 10) || (n =? 13).

(** White space and line terminators of the language, within ASCII. *)
Definition is_js_space (c : ascii) : bool :=
  let n := code c in
  (n =? 32) || (n =? 9) || (n =? 10) || (n =? 11) || (n =? 12) || (n =? 13).

Fixpoint skip_js_space (s : string) : string :=
  match s with
  | String c rest => if is_js_space c then skip_js_space rest else s
  | EmptyString => s
  end.

Fixpoint string_rev_onto (s acc : string) : string :=
  match s with
  | EmptyString => acc
  | String c rest => string_rev_onto rest (String c acc)
  end.

Definition string_rev (s : string) : string := string_rev_onto s "".

Definition trim (s : string) : string :=
  string_rev (skip_js_space (string_rev (skip_js_space s))).

(** ** Decimal literals to binary64

    [decimal_to_number neg m e] is the double nearest to [± m * 10^e]
    (ties to even), computed with exact integer arithmetic: an integer is
    rounded by [binary_normalize], a proper fraction by [SFdiv] on the
    exact numerator and denominator.  Exponents far outside the range of
    binary64 are cut short first, so that no huge power is built. *)
Definition prec : Z := 53.
Definition emax : Z := 1024.

Fixpoint count_digits_pos (fuel : nat) (m : Z) : Z :=
  match fuel with
  | O => 0
  | S fuel' => if m <=? 0 then 0 else 1 + count_digits_pos fuel' (m / 10)
  end.

(** Number of decimal digits of [m >= 0] (0 for 0). *)
Definition count_digits (m : Z) : Z :=
  count_digits_pos (S (Z.to_nat (Z.log2 m))) m.

Definition signed_zero (neg : bool) : float := if neg then neg_zero else zero.

Definition signed_infinity (neg : bool) : float :=
  if neg then neg_infinity else infinity.

Definition decimal_to_number (neg : bool) (m e : Z) : float :=
  match m with
  | Zpos p =>
      let magnitude := count_digits m + e in
      if 400 <? magnitude then signed_infinity neg
      else if magnitude <? -400 then signed_zero neg
      else if 0 <=? e then
        SF2Prim (binary_normalize prec emax
                   (if neg then - (m * 10 ^ e) else m * 10 ^ e) 0 neg)
      else
        match 10 ^ (- e) with
        | Zpos d => SF2Prim (SFdiv prec emax (S754_finite neg p 0)
                                             (S754_finite false d 0))
        | _ => nan
        end
  | _ => signed_zero neg
  end.

(** The double nearest to an integer. *)
Definition number_of_Z (n : Z) : float :=
  decimal_to_number (n <? 0) (Z.abs n) 0.

(** ** [JSON.parse]

    A lexer and a parser of JSON text, both by structural recursion (one
    step per character, one step per token); [None] stands for the
    [SyntaxError] that [JSON.parse] throws. *)

Inductive token : Type :=
  | TLBrace | TRBrace | TLBracket | TRBracket | TColon | TComma
  | TString (s : string)
  | TNumber (x : float)
  | TLiteral (v : value).

(** [take_digits s acc n]: read the leading decimal digits of [s] onto the
    value [acc], counting them from [n]. *)
Fixpoint take_digits (s : string) (acc n : Z) : Z * Z * string :=
  match s with
  | String c rest =>
      if is_digit c then take_digits rest (10 * acc + digit_value c) (n + 1)
      else (acc, n, s)
  | EmptyString => (acc, n, s)
  end.

Definition starts_with_zero (s : string) : bool :=
  match s with
  | String c _ => code c =? 48
  | EmptyString => false
  end.

(** The exponent part [e+12] of a decimal literal, if [s] starts with one;
    [None] on a malformed exponent. *)
Definition take_exponent (s : string) : option (Z * string) :=
  match s with
  | String c rest =>
      if (code c =? 101) || (code c =? 69) then
        let '(neg, rest') :=
          match rest with
          | String d r =>
              if code d =? 45 then (true, r)
              else if code d =? 43 then (false, r)
              else (false, rest)
          | EmptyString => (false, rest)
          end in
        let '(e, n, rest'') := take_digits rest' 0 0 in
        if n =? 0 then None else Some (if neg then - e else e, rest'')
      else Some (0, s)
  | EmptyString => Some (0, s)
  end.

(** A JSON number: an optional minus sign, an integer part without a
    superfluous leading zero, an optional fraction (a point and at least one
    digit) and an optional exponent. *)
Definition json_number (s : string) : option float :=
  let '(neg, s1) :=
    match s with
    | String c rest => if code c =? 45 then (true, rest) else (false, s)
    | EmptyString => (false, s)
    end in
  let '(i, ni, s2) := take_digits s1 0 0 in
  if (ni =? 0) || ((1 <? ni) && starts_with_zero s1) then None
  else
    let frac :=
      match s2 with
      | String c rest =>
          if code c =? 46 then
            let '(m, nf, rest') := take_digits rest i 0 in
            if nf =? 0 then None else Some (m, nf, rest')
          else Some (i, 0, s2)
      | EmptyString => Some (i, 0, s2)
      end in
    match frac with
    | None => None
    | Some (m, nf, s3) =>
        match take_exponent s3 with
        | Some (e, EmptyString) => Some (decimal_to_number neg m (e - nf))
        | _ => None
        end
    end.

Definition json_literal (s : string) : option value :=
  if String.eqb s "true" then Some (Bool true)
  else if String.eqb s "false" then Some (Bool false)
  else if String.eqb s "null" then Some Null
  else None.

(** The UTF-8 bytes of a code unit, pushed onto a reversed string. *)
Definition push_utf8 (n : Z) (acc : string) : string :=
  if n <? 128 then String (chr n) acc
  else if n <? 2048 then
    String (chr (128 + n mod 64)) (String (chr (192 + n / 64)) acc)
  else
    String (chr (128 + n mod 64))
      (String (chr (128 + (n / 64) mod 64)) (String (chr (224 + n / 4096)) acc)).

(** Lexer states; the strings are accumulated in reverse. *)
Inductive lex_mode : Type :=
  | Idle
  | InString (acc : string)
  | InEscape (acc : string)
  | InUnicode (acc : string) (seen : nat) (n : Z)
  | InNumber (acc : string)
  | InLiteral (acc : string).

Definition is_number_char (c : ascii) : bool :=
  let n := code c in
  is_digit c || (n =? 43) || (n =? 45) || (n =? 46) || (n =? 101) || (n =? 69).

Definition is_lower (c : ascii) : bool := (97 <=? code c) && (code c <=? 122).

Definition idle_step (c : ascii) (toks : list token)
  : option (lex_mode * list token) :=
  let n := code c in
  if is_json_space c then Some (Idle, toks)
  else if n =? 123 then Some (Idle, TLBrace :: toks)
  else if n =? 125 then Some (Idle, TRBrace :: toks)
  else if n =? 91 then Some (Idle, TLBracket :: toks)
  else if n =? 93 then Some (Idle, TRBracket :: toks)
  else if n =? 58 then Some (Idle, TColon :: toks)
  else if n =? 44 then Some (Idle, TComma :: toks)
  else if n =? 34 then Some (InString "", toks)
  else if (n =? 45) || is_digit c then Some (InNumber (String c ""), toks)
  else if is_lower c then Some (InLiteral (String c ""), toks)
  else None.

Definition escape_char (c : ascii) : option ascii :=
  let n := code c in
  if (n =? 34) || (n =? 92) || (n =? 47) then Some c
  else if n =? 98 then Some (chr 8)
  else if n =? 102 then Some (chr 12)
  else if n =? 110 then Some (chr 10)
  else if n =? 114 then Some (chr 13)
  else if n =? 116 then Some (chr 9)
  else None.

Definition lex_step (mode : lex_mode) (toks : list token) (c : ascii)
  : option (lex_mode * list token) :=
  match mode with
  | Idle => idle_step c toks
  | InString acc =>
      if code c =? 34 then Some (Idle, TString (string_rev acc) :: toks)
      else if code c =? 92 then Some (InEscape acc, toks)
      else if code c <? 32 then None
      else Some (InString (String c acc), toks)
  | InEscape acc =>
      if code c =? 117 then Some (InUnicode acc 0 0, toks)
      else
        match escape_char c with
        | Some c' => Some (InString (String c' acc), toks)
        | None => None
        end
  | InUnicode acc seen n =>
      match hex_value c with
      | Some d =>
          if Nat.eqb seen 3 then Some (InString (push_utf8 (16 * n + d) acc), toks)
          else Some (InUnicode acc (S seen) (16 * n + d), toks)
      | None => None
      end
  | InNumber acc =>
      if is_number_char c then Some (InNumber (String c acc), toks)
      else
        match json_number (string_rev acc) with
        | Some x => idle_step c (TNumber x :: toks)
        | None => None
        end
  | InLiteral acc =>
      if is_lower c then Some (InLiteral (String c acc), toks)
      else
        match json_literal (string_rev acc) with
        | Some v => idle_step c (TLiteral v :: toks)
        | None => None
        end
  end.

Definition lex_end (mode : lex_mode) (toks : list token) : option (list token) :=
  match mode with
  | Idle => Some (rev toks)
  | InNumber acc =>
      match json_number (string_rev acc) with
      | Some x => Some (rev (TNumber x :: toks))
      | None => None
      end
  | InLiteral acc =>
      match json_literal (string_rev acc) with
      | Some v => Some (rev (TLiteral v :: toks))
      | None => None
      end
  | InString _ | InEscape _ | InUnicode _ _ _ => None
  end.

Fixpoint lex (mode : lex_mode) (toks : list token) (s : string)
  : option (list token) :=
  match s with
  | EmptyString => lex_end mode toks
  | String c rest =>
      match lex_step mode toks c with
      | Some (mode', toks') => lex mode' toks' rest
      | None => None
      end
  end.

(** The parser keeps the open containers on a stack and knows what may
    come next. *)
Inductive frame : Type :=
  | InArray (elems : list value)                      (* reversed *)
  | InObject (fields : list (string * value)) (key : string).

Inductive expect : Type :=
  | Value            (* a value *)
  | ValueOrEnd       (* a value or the bracket closing an empty array *)
  | KeyOrEnd         (* a key or the brace closing an empty object *)
  | Key              (* a key *)
  | Colon
  | CommaOrEnd
  | Done (v : value).

Definition parser_state : Type := list frame * expect.

(** A value is complete: it is the result, or goes into the container on
    top of the stack. *)
Definition complete (v : value) (stack : list frame) : parser_state :=
  match stack with
  | [] => ([], Done v)
  | InArray elems :: rest => (InArray (v :: elems) :: rest, CommaOrEnd)
  | InObject fields key :: rest =>
      (InObject (assoc_set key v fields) key :: rest, CommaOrEnd)
  end.

Definition start_value (t : token) (stack : list frame) : option parser_state :=
  match t with
  | TString s => Some (complete (Str s) stack)
  | TNumber x => Some (complete (Number x) stack)
  | TLiteral v => Some (complete v stack)
  | TLBracket => Some (InArray [] :: stack, ValueOrEnd)
  | TLBrace => Some (InObject [] "" :: stack, KeyOrEnd)
  | _ => None
  end.

Definition close_array (stack : list frame) : option parser_state :=
  match stack with
  | InArray elems :: rest => Some (complete (Array (rev elems)) rest)
  | _ => None
  end.

Definition close_object (stack : list frame) : option parser_state :=
  match stack with
  | InObject fields _ :: rest => Some (complete (Object fields) rest)
  | _ => None
  end.

Definition set_key (k : string) (stack : list frame) : option parser_state :=
  match stack with
  | InObject fields _ :: rest => Some (InObject fields k :: rest, Colon)
  | _ => None
  end.

Definition parse_step (st : parser_state) (t : token) : option parser_state :=
  let '(stack, e) := st in
  match e, t with
  | Value, _ => start_value t stack
  | ValueOrEnd, TRBracket => close_array stack
  | ValueOrEnd, _ => start_value t stack
  | KeyOrEnd, TRBrace => close_object stack
  | KeyOrEnd, TString k => set_key k stack
  | Key, TString k => set_key k stack
  | Colon, TColon => Some (stack, Value)
  | CommaOrEnd, TComma =>
      match stack with
      | InArray _ :: _ => Some (stack, Value)
      | InObject _ _ :: _ => Some (stack, Key)
      | [] => None
      end
  | CommaOrEnd, TRBracket => close_array stack
  | CommaOrEnd, TRBrace => close_object stack
  | _, _ => None
  end.

Fixpoint parse_tokens (st : parser_state) (toks : list token) : option value :=
  match toks with
  | [] => match st with ([], Done v) => Some v | _ => None end
  | t :: rest =>
      match parse_step st t with
      | Some st' => parse_tokens st' rest
      | None => None
      end
  end.

(** [JSON.parse(text)]; [None] is the thrown [SyntaxError]. *)
Definition parse (text : string) : option value :=
  match lex Idle [] text with
  | Some toks => parse_tokens ([], Value) toks
  | None => None
  end.

(** ** Numbers to strings

    [Number::toString]: the shortest decimal digits [s] (there are [k] of
    them) and the exponent [n] such that [s * 10^(n-k)] reads back as the
    same double, the closest to it when several do, laid out as the
    language prescribes. *)

Fixpoint digits_onto (fuel : nat) (n : Z) (acc : string) : string :=
  match fuel with
  | O => acc
  | S fuel' =>
      let acc' := String (chr (48 + n mod 10)) acc in
      if n <? 10 then acc' else digits_onto fuel' (n / 10) acc'
  end.

(** The decimal digits of [n >= 0]. *)
Definition digits (n : Z) : string :=
  digits_onto (S (Z.to_nat (Z.log2 n))) n "".

Fixpoint zeros (n : nat) : string :=
  match n with
  | O => ""
  | S n' => String "0" (zeros n')
  end.

(** Left-pad the digits of [n] with zeros to [width] characters. *)
Definition padded (width : nat) (n : Z) : string :=
  let d := digits n in zeros (width - String.length d) ++ d.

Fixpoint take_string (n : nat) (s : string) : string :=
  match n, s with
  | S n', String c rest => String c (take_string n' rest)
  | _, _ => ""
  end.

Fixpoint drop_string (n : nat) (s : string) : string :=
  match n, s with
  | S n', String _ rest => drop_string n' rest
  | _, _ => s
  end.

(** [num / den] scaled by [10^e], as a quotient and a remainder. *)
Definition scaled_div (num den e : Z) : Z * Z * Z :=
  let '(a, b) := if 0 <=? e then (num * 10 ^ e, den) else (num, den * 10 ^ (- e)) in
  (a / b, a mod b, b).

(** [n] with [10^(n-1) <= num/den < 10^n], for positive [num] and [den]. *)
Definition decimal_exponent (num den : Z) : Z :=
  let est := count_digits num - count_digits den in
  let '(q, _, _) := scaled_div num den (- est) in
  if 1 <=? q then est + 1 else est.

(** The candidate with [k] digits, if one reads back as [x]. *)
Definition shortest_candidate (x : float) (num den n k : Z) : option (Z * Z) :=
  let '(lo, r, b) := scaled_div num den (k - n) in
  let reads_back s := PrimFloat.Leibniz.eqb (decimal_to_number false s (n - k)) x in
  let ok_lo := (10 ^ (k - 1) <=? lo) && reads_back lo in
  let ok_hi := reads_back (lo + 1) in
  let hi := if lo + 1 =? 10 ^ k then (10 ^ (k - 1), n + 1) else (lo + 1, n) in
  match ok_lo, ok_hi with
  | true, true =>
      match 2 * r ?= b with
      | Lt => Some (lo, n)
      | Gt => Some hi
      | Eq => if Z.even lo then Some (lo, n) else Some hi
      end
  | true, false => Some (lo, n)
  | false, true => Some hi
  | false, false => None
  end.

Fixpoint shortest_from (fuel : nat) (x : float) (num den n k : Z) : Z * Z * Z :=
  match fuel with
  | O => (0, 1, 1)
  | S fuel' =>
      match shortest_candidate x num den n k with
      | Some (s, n') => (s, k, n')
      | None => shortest_from fuel' x num den n (k + 1)
      end
  end.

(** The triple [(s, k, n)] of a positive finite double. *)
Definition shortest_digits (x : float) : Z * Z * Z :=
  match Prim2SF x with
  | S754_finite _ m e =>
      let '(num, den) := if 0 <=? e then (Zpos m * 2 ^ e, 1) else (Zpos m, 2 ^ (- e)) in
      shortest_from 17 x num den (decimal_exponent num den) 1
  | _ => (0, 1, 1)
  end.

Definition exponent_suffix (e : Z) : string :=
  "e" ++ (if e <? 0 then "-" else "+") ++ digits (Z.abs e).

Definition layout_digits (s k n : Z) : string :=
  let d := digits s in
  if (k <=? n) && (n <=? 21) then d ++ zeros (Z.to_nat (n - k))
  else if (0 <? n) && (n <=? 21) then
    take_string (Z.to_nat n) d ++ "." ++ drop_string (Z.to_nat n) d
  else if (-6 <? n) && (n <=? 0) then "0." ++ zeros (Z.to_nat (- n)) ++ d
  else if k =? 1 then d ++ exponent_suffix (n - 1)
  else take_string 1 d ++ "." ++ drop_string 1 d ++ exponent_suffix (n - 1).

Definition number_to_string (x : float) : string :=
  if is_nan x then "NaN"
  else if is_zero x then "0"
  else if is_infinity x then (if PrimFloat.ltb x zero then "-Infinity" else "Infinity")
  else
    let '(s, k, n) := shortest_digits (abs x) in
    (if PrimFloat.ltb x zero then "-" else "") ++ layout_digits s k n.

(** ** [JSON.stringify] *)

Definition hex_digit (n : Z) : ascii :=
  if n <? 10 then chr (48 + n) else chr (87 + n).

(** The string made of one double quote. *)
Definition dquote : string := String (chr 34) "".

Definition quote_char (c : ascii) : string :=
  let n := code c in
  if n =? 34 then "\" ++ dquote
  else if n =? 92 then "\\"
  else if n =? 8 then "\b"
  else if n =? 12 then "\f"
  else if n =? 10 then "\n"
  else if n =? 13 then "\r"
  else if n =? 9 then "\t"
  else if n <? 32 then
    "\u00" ++ String (hex_digit (n / 16)) (String (hex_digit (n mod 16)) "")
  else String c "".

Fixpoint quote_body (s : string) : string :=
  match s with
  | EmptyString => ""
  | String c rest => quote_char c ++ quote_body rest
  end.

Definition quote (s : string) : string := dquote ++ quote_body s ++ dquote.

Fixpoint join (sep : string) (parts : list string) : string :=
  match parts with
  | [] => ""
  | [p] => p
  | p :: rest => p ++ sep ++ join sep rest
  end.

(** [SerializeJSONProperty]; [None] is [undefined] (the value is left out
    of an object and printed as [null] in an array). *)
Fixpoint serialize (v : value) : option string :=
  match v with
  | Undefined => None
  | Null => Some "null"
  | Bool true => Some "true"
  | Bool false => Some "false"
  | Number x => Some (if is_finite x then number_to_string x else "null")
  | Str s => Some (quote s)
  | Array xs =>
      Some ("[" ++ join "," (map (fun x => default "null" (serialize x)) xs) ++ "]")
  | Object fields =>
      let member :=
        fix member (fs : list (string * value)) : list string :=
          match fs with
          | [] => []
          | (k, x) :: rest =>
              match serialize x with
              | Some text => (quote k ++ ":" ++ text) :: member rest
              | None => member rest
              end
          end in
      Some ("{" ++ join "," (member fields) ++ "}")
  end.

(** [JSON.stringify(v)] where a string is wanted ([undefined] prints as
    itself when coerced). *)
Definition stringify (v : value) : string := default "undefined" (serialize v).

(** ** [parseInt]

    [parseInt(s)] without a radix: leading white space, a sign, an optional
    [0x] prefix, then the longest run of digits; [None] is [NaN].  The
    result is kept as the exact integer.  The program only subtracts it
    from the clock and compares the difference with the expiry window; for
    a clock within the range of time values (at most 8.64e15 in magnitude,
    below 2^53) the comparison of the rounded doubles agrees with the
    comparison of the exact integers, rounding being monotone. *)
Fixpoint take_radix_digits (radix : Z) (s : string) (acc n : Z) : Z * Z * string :=
  match s with
  | String c rest =>
      match hex_value c with
      | Some d =>
          if d <? radix then take_radix_digits radix rest (radix * acc + d) (n + 1)
          else (acc, n, s)
      | None => (acc, n, s)
      end
  | EmptyString => (acc, n, s)
  end.

Definition take_sign (s : string) : bool * string :=
  match s with
  | String c rest =>
      if code c =? 45 then (true, rest)
      else if code c =? 43 then (false, rest)
      else (false, s)
  | EmptyString => (false, s)
  end.

Definition has_prefix_ci (lower : ascii) (s : string) : option string :=
  match s with
  | String z (String c rest) =>
      if (code z =? 48) && ((code c =? code lower) || (code c =? code lower - 32))
      then Some rest else None
  | _ => None
  end.

Definition parseInt (s : string) : option Z :=
  let '(neg, s1) := take_sign (skip_js_space s) in
  let '(radix, s2) :=
    match has_prefix_ci "x" s1 with
    | Some rest => (16, rest)
    | None => (10, s1)
    end in
  let '(v, n, _) := take_radix_digits radix s2 0 0 in
  if n =? 0 then None else Some (if neg then - v else v).

(** ** Numeric coercion and division *)

(** [StringToNumber]. *)
Definition radix_literal (radix : Z) (s : string) : float :=
  match take_radix_digits radix s 0 0 with
  | (v, n, EmptyString) => if n =? 0 then nan else number_of_Z v
  | _ => nan
  end.

Definition decimal_literal (s : string) : float :=
  let '(neg, s1) := take_sign s in
  if String.eqb s1 "Infinity" then signed_infinity neg
  else
    let '(i, ni, s2) := take_digits s1 0 0 in
    let '(m, nf, s3) :=
      match s2 with
      | String c rest => if code c =? 46 then take_digits rest i 0 else (i, 0, s2)
      | EmptyString => (i, 0, s2)
      end in
    if ni + nf =? 0 then nan
    else
      match take_exponent s3 with
      | Some (e, EmptyString) => decimal_to_number neg m (e - nf)
      | _ => nan
      end.

Definition string_to_number (s : string) : float :=
  let t := trim s in
  if String.eqb t "" then zero
  else
    match has_prefix_ci "x" t, has_prefix_ci "o" t, has_prefix_ci "b" t with
    | Some rest, _, _ => radix_literal 16 rest
    | _, Some rest, _ => radix_literal 8 rest
    | _, _, Some rest => radix_literal 2 rest
    | _, _, _ => decimal_literal t
    end.

(** [ToString] of a JSON value; [None] is the [TypeError] of an object
    whose own [toString] property hides the inherited method (a JSON value
    is never callable). *)
Fixpoint to_string (v : value) : option string :=
  match v with
  | Undefined => Some "undefined"
  | Null => Some "null"
  | Bool true => Some "true"
  | Bool false => Some "false"
  | Number x => Some (number_to_string x)
  | Str s => Some s
  | Array xs =>
      let element x :=
        match x with
        | Undefined | Null => Some ""
        | _ => to_string x
        end in
      let each :=
        fix each (l : list value) : option (list string) :=
          match l with
          | [] => Some []
          | x :: rest =>
              match element x, each rest with
              | Some t, Some ts => Some (t :: ts)
              | _, _ => None
              end
          end in
      option_map (join ",") (each xs)
  | Object fields =>
      match assoc "toString" fields with
      | Some _ => None
      | None => Some "[object Object]"
      end
  end.

(** [ToNumber]; [None] is a [TypeError]. *)
Definition to_number (v : value) : option float :=
  match v with
  | Undefined => Some nan
  | Null => Some zero
  | Bool true => Some one
  | Bool false => Some zero
  | Number x => Some x
  | Str s => Some (string_to_number s)
  | Array _ | Object _ => option_map string_to_number (to_string v)
  end.

(** ** Dates *)

(** The largest time value, in milliseconds either side of the epoch. *)
Definition max_time : Z := 8640000000000000.

(** Year, month and day of a day number counted from 1970-01-01. *)
Definition civil_from_days (days : Z) : Z * Z * Z :=
  let z := days + 719468 in
  let era := z / 146097 in
  let doe := z - era * 146097 in
  let yoe := (doe - doe / 1460 + doe / 36524 - doe / 146096) / 365 in
  let doy := doe - (365 * yoe + yoe / 4 - yoe / 100) in
  let mp := (5 * doy + 2) / 153 in
  let d := doy - (153 * mp + 2) / 5 + 1 in
  let m := if mp <? 10 then mp + 3 else mp - 9 in
  (yoe + era * 400 + (if m <=? 2 then 1 else 0), m, d).

(** [new Date(t).toISOString()]; [None] is the [RangeError] of an invalid
    date. *)
Definition toISOString (t : Z) : option string :=
  if max_time <? Z.abs t then None
  else
    let ms := t mod 86400000 in
    let '(y, m, d) := civil_from_days (t / 86400000) in
    let year :=
      if (0 <=? y) && (y <=? 9999) then padded 4 y
      else (if y <? 0 then "-" else "+") ++ padded 6 (Z.abs y) in
    Some (year ++ "-" ++ padded 2 m ++ "-" ++ padded 2 d
          ++ "T" ++ padded 2 (ms / 3600000)
          ++ ":" ++ padded 2 (ms / 60000 mod 60)
          ++ ":" ++ padded 2 (ms / 1000 mod 60)
          ++ "." ++ padded 3 (ms mod 1000) ++ "Z").

End JS.

(* ===================================================================== *)
(** * The browser: storage, clock, console *)
(* ===================================================================== *)

Module Browser.

(** [localStorage]: a map from keys to strings.  Access can be refused
    altogether (every call throws [SecurityError], as when site data is
    blocked), and a write throws [QuotaExceededError] when it would take
    the stored keys and values beyond the quota. *)
Record storage : Type := {
  items : gmap string string;
  denied : bool;
  quota : option nat;
}.

(** What the program leaves behind besides storage: the console lines, and
    each division it performed (numerator, divisor). *)
Inductive event : Type :=
  | ConsoleLog (text : string)
  | ConsoleError (text : string) (e : JS.exn)
  | Divide (n d : float).

Record world : Type := {
  localStorage : storage;
  clock : Z;                 (* what [Date.now()] returns *)
  onLine : bool;             (* [navigator.onLine] *)
  trace : list event;        (* oldest first *)
}.

Definition with_items (m : gmap string string) (w : world) : world :=
  {| localStorage := {| items := m;
                        denied := denied (localStorage w);
                        quota := quota (localStorage w) |};
     clock := clock w; onLine := onLine w; trace := trace w |}.

Definition with_event (e : event) (w : world) : world :=
  {| localStorage := localStorage w; clock := clock w; onLine := onLine w;
     trace := trace w ++ [e] |}.

(** A later moment: the clock and the connectivity may have changed. *)
Definition later (t : Z) (connected : bool) (w : world) : world :=
  {| localStorage := localStorage w; clock := t; onLine := connected;
     trace := trace w |}.

(** ** Statements: state and exceptions *)

Inductive result (A : Type) : Type :=
  | Ok (a : A)
  | Throw (e : JS.exn).
Arguments Ok {A} a.
Arguments Throw {A} e.

Definition M (A : Type) : Type := world -> result A * world.

#[global] Instance M_ret : MRet M := fun A a w => (Ok a, w).

#[global] Instance M_bind : MBind M := fun A B f m w =>
  match m w with
  | (Ok a, w') => f a w'
  | (Throw e, w') => (Throw e, w')
  end.

Definition throw {A : Type} (e : JS.exn) : M A := fun w => (Throw e, w).

(** [try { body } catch (e) { handler }] *)
Definition try_catch {A : Type} (body : M A) (handler : JS.exn -> M A) : M A :=
  fun w =>
    match body w with
    | (Ok a, w') => (Ok a, w')
    | (Throw e, w') => handler e w'
    end.

(** ** The built-ins with effects *)

Definition used (m : gmap string string) : nat :=
  map_fold (fun k v n => (String.length k + String.length v + n)%nat) 0%nat m.

Definition within (q : option nat) (m : gmap string string) : bool :=
  match q with
  | Some limit => (used m <=? limit)%nat
  | None => true
  end.

(** [localStorage.getItem(key)]; [None] is [null]. *)
Definition getItem (key : string) : M (option string) := fun w =>
  if denied (localStorage w) then (Throw JS.SecurityError, w)
  else (Ok (items (localStorage w) !! key), w).

Definition setItem (key text : string) : M unit := fun w =>
  if denied (localStorage w) then (Throw JS.SecurityError, w)
  else
    let m := <[key := text]> (items (localStorage w)) in
    if within (quota (localStorage w)) m then (Ok tt, with_items m w)
    else (Throw JS.QuotaExceededError, w).

Definition removeItem (key : string) : M unit := fun w =>
  if denied (localStorage w) then (Throw JS.SecurityError, w)
  else (Ok tt, with_items (delete key (items (localStorage w))) w).

Definition Date_now : M Z := fun w => (Ok (clock w), w).

(** [new Date().toISOString()] *)
Definition Date_toISOString : M string := fun w =>
  match JS.toISOString (clock w) with
  | Some text => (Ok text, w)
  | None => (Throw JS.RangeError, w)
  end.

Definition JSON_parse (text : string) : M JS.value := fun w =>
  match JS.parse text with
  | Some v => (Ok v, w)
  | None => (Throw JS.SyntaxError, w)
  end.

Definition console_log (text : string) : M unit := fun w =>
  (Ok tt, with_event (ConsoleLog text) w).

Definition console_error (text : string) (e : JS.exn) : M unit := fun w =>
  (Ok tt, with_event (ConsoleError text e) w).

(** [a / b]: both operands are coerced to numbers, which can throw; the
    division itself is recorded in the trace. *)
Definition divide (a b : JS.value) : M JS.value := fun w =>
  match JS.to_number a, JS.to_number b with
  | Some x, Some y => (Ok (JS.Number (x / y)%float), with_event (Divide x y) w)
  | _, _ => (Throw JS.TypeError, w)
  end.

(** Truthiness of what [getItem] returned. *)
Definition truthy_item (o : option string) : bool :=
  match o with
  | Some text => negb (String.eqb text "")
  | None => false
  end.

(** [parseInt(item)]; [null] is coerced to the string [null] first. *)
Definition parseInt_item (o : option string) : option Z :=
  JS.parseInt (default "null" o).

End Browser.

(* ===================================================================== *)
(** * [cacheManager.js] *)
(* ===================================================================== *)

Module CacheManager.
Import Browser.

(** [CACHE_CONFIG] *)
Definition CACHE_KEY : string := "currencyRatesCache".
Definition CACHE_EXPIRY_HOURS : Z := 24.
Definition LAST_UPDATE_KEY : string := "lastCacheUpdate".
Definition OFFLINE_STATUS_KEY : string := "isOfflineMode".

(** [CACHE_EXPIRY_HOURS * 60 * 60 * 1000] *)
Definition maxAge : Z := CACHE_EXPIRY_HOURS * 60 * 60 * 1000.

(** [Date.now() - parseInt(lastUpdate)]; [None] is [NaN]. *)
Definition age (now : Z) (lastUpdate : option string) : option Z :=
  match parseInt_item lastUpdate with
  | Some t => Some (now - t)
  | None => None
  end.

(** [cacheAge > maxAge]; a comparison with [NaN] is false. *)
Definition exceeds (cacheAge : option Z) (limit : Z) : bool :=
  match cacheAge with
  | Some a => limit <? a
  | None => false
  end.

(** The template literal logged after a save; the locale-dependent
    rendering of the current time is left out of the text. *)
Definition cached_message (baseCurrency : string) : string :=
  "Exchange rates cached for " ++ baseCurrency.

Definition saveRatesToCache (ratesData : JS.value) (baseCurrency : string) : M unit :=
  try_catch
    (timestamp ← Date_now;
     lastUpdate ← Date_toISOString;
     let cacheData :=
       JS.Object [("rates", ratesData);
                  ("baseCurrency", JS.Str baseCurrency);
                  ("timestamp", JS.Number (JS.number_of_Z timestamp));
                  ("lastUpdate", JS.Str lastUpdate)] in
     setItem CACHE_KEY (JS.stringify cacheData);;
     now ← Date_now;
     setItem LAST_UPDATE_KEY (JS.number_to_string (JS.number_of_Z now));;
     console_log (cached_message baseCurrency))
    (fun error => console_error "Error saving rates to cache:" error).

Definition clearCache : M unit :=
  try_catch
    (removeItem CACHE_KEY;;
     removeItem LAST_UPDATE_KEY;;
     removeItem OFFLINE_STATUS_KEY;;
     console_log "Currency cache cleared")
    (fun error => console_error "Error clearing cache:" error).

(** Returns the cached record, or [null]. *)
Definition getCachedRates : M JS.value :=
  try_catch
    (cachedData ← getItem CACHE_KEY;
     lastUpdate ← getItem LAST_UPDATE_KEY;
     if negb (truthy_item cachedData) || negb (truthy_item lastUpdate)
     then mret JS.Null
     else
       cache ← JSON_parse (default "" cachedData);
       now ← Date_now;
       let cacheAge := age now lastUpdate in
       if exceeds cacheAge maxAge then
         console_log "Cache expired, removing old data";;
         clearCache;;
         mret JS.Null
       else
         console_log "Using cached exchange rates";;
         mret cache)
    (fun error => console_error "Error reading cache:" error;; mret JS.Null).

Definition getCachedRate (fromCurrency toCurrency : string) : M JS.value :=
  cache ← getCachedRates;
  if negb (JS.truthy cache) || negb (JS.truthy (JS.get cache "rates"))
  then mret JS.Null
  else
    let rates := JS.get cache "rates" in
    let baseCurrency := JS.get cache "baseCurrency" in
    (* direct rate (from base currency) *)
    if JS.strict_eq_string baseCurrency fromCurrency
       && JS.truthy (JS.get rates toCurrency)
    then mret (JS.get rates toCurrency)
    (* reverse rate (to base currency) *)
    else if JS.strict_eq_string baseCurrency toCurrency
            && JS.truthy (JS.get rates fromCurrency)
    then divide (JS.Number 1) (JS.get rates fromCurrency)
    (* cross-currency calculation (both currencies in cache) *)
    else if JS.truthy (JS.get rates fromCurrency)
            && JS.truthy (JS.get rates toCurrency)
    then divide (JS.get rates toCurrency) (JS.get rates fromCurrency)
    else mret JS.Null.

(** [getCachedRate(...) !== null] *)
Definition hasRate (fromCurrency toCurrency : string) : M bool :=
  rate ← getCachedRate fromCurrency toCurrency;
  mret (match rate with JS.Null => false | _ => true end).

(** What [getCacheInfo] returns.  [lastUpdate] stands for the
    locale-dependent text of [new Date(parseInt(lastUpdate))]: it keeps the
    time value being rendered ([Some None] for an invalid date), and
    [None] is [null]. *)
Record cacheInfo : Type := {
  hasCache : bool;
  lastUpdate : option (option Z);
  baseCurrency : JS.value;
  rateCount : nat;
  isExpired : bool;
}.

(** The time value of [new Date(n)]: [None] for [NaN] and beyond the range
    of time values. *)
Definition time_value (n : option Z) : option Z :=
  match n with
  | Some t => if JS.max_time <? Z.abs t then None else Some t
  | None => None
  end.

(** [Object.keys(v).length] for a truthy [v]. *)
Definition keys_length (v : JS.value) : nat :=
  match v with
  | JS.Object fields => length (remove_dups (map fst fields))
  | JS.Array xs => length xs
  | JS.Str text => String.length text
  | _ => 0%nat
  end.

Definition getCacheInfo : M cacheInfo :=
  lastUpdate ← getItem LAST_UPDATE_KEY;
  cache ← getCachedRates;
  now ← Date_now;
  mret {|
    hasCache := JS.truthy cache;
    lastUpdate :=
      if truthy_item lastUpdate then Some (time_value (parseInt_item lastUpdate))
      else None;
    baseCurrency :=
      if JS.truthy (JS.get cache "baseCurrency") then JS.get cache "baseCurrency"
      else JS.Null;
    rateCount :=
      if JS.truthy (JS.get cache "rates") then keys_length (JS.get cache "rates")
      else 0%nat;
    isExpired :=
      if JS.truthy cache then exceeds (age now lastUpdate) maxAge else true;
  |}.

Definition setOfflineStatus (isOffline : bool) : M unit :=
  try_catch
    (setItem OFFLINE_STATUS_KEY (if isOffline then "true" else "false"))
    (fun error => console_error "Error setting offline status:" error).

Definition getOfflineStatus : M bool :=
  try_catch
    (status ← getItem OFFLINE_STATUS_KEY;
     mret (match status with Some text => String.eqb text "true" | None => false end))
    (fun error => console_error "Error getting offline status:" error;; mret false).

End CacheManager.

(* ===================================================================== *)
(** * [networkStatus.js] *)
(* ===================================================================== *)

Module NetworkStatus.
Import Browser.

(** The two pieces of React state of one use of the hook. *)
Record hook : Type := {
  isOnline : bool;
  isOfflineMode : bool;
}.

Definition setIsOnline (b : bool) (h : hook) : hook :=
  {| isOnline := b; isOfflineMode := isOfflineMode h |}.

Definition setIsOfflineMode (b : bool) (h : hook) : hook :=
  {| isOnline := isOnline h; isOfflineMode := b |}.

(** The initial state: [useState(navigator.onLine)] and
    [useState(CacheManager.getOfflineStatus())]. *)
Definition useNetworkStatus : M hook := fun w =>
  (offline ← CacheManager.getOfflineStatus;
   mret {| isOnline := onLine w; isOfflineMode := offline |}) w.

(** Listener of the window's [online] event. *)
Definition handleOnline (h : hook) : M hook :=
  let h := setIsOnline true h in
  console_log "Network connection restored";;
  (* If user didn't manually enable offline mode, exit offline mode *)
  offline ← CacheManager.getOfflineStatus;
  if negb offline then mret (setIsOfflineMode false h) else mret h.

(** Listener of the window's [offline] event. *)
Definition handleOffline (h : hook) : M hook :=
  let h := setIsOnline false h in
  let h := setIsOfflineMode true h in
  CacheManager.setOfflineStatus true;;
  console_log "Network connection lost - switching to offline mode";;
  mret h.

Definition toggleOfflineMode (h : hook) : M (JS.value * hook) :=
  let newOfflineMode := negb (isOfflineMode h) in
  let h' := setIsOfflineMode newOfflineMode h in
  CacheManager.setOfflineStatus newOfflineMode;;
  console_log ("Offline mode " ++ (if newOfflineMode then "enabled" else "disabled")
               ++ " manually");;
  mret (JS.Undefined, h').

(** The function has no [return]: the caller gets [undefined] on either
    path. *)
Definition exitOfflineMode (h : hook) : M (JS.value * hook) :=
  if isOnline h then
    let h' := setIsOfflineMode false h in
    CacheManager.setOfflineStatus false;;
    console_log "Exited offline mode";;
    mret (JS.Undefined, h')
  else
    console_log "Cannot exit offline mode - no network connection";;
    mret (JS.Undefined, h).

(** The controller's states as the specification names them. *)
Inductive mode : Type := Online | OfflineAuto | OfflineManual.

Definition mode_of (h : hook) : mode :=
  if isOfflineMode h then (if isOnline h then OfflineManual else OfflineAuto)
  else Online.

End NetworkStatus.

(* ===================================================================== *)
(** * Vocabulary of the properties *)
(* ===================================================================== *)

Module Spec.
Import Browser CacheManager NetworkStatus.

(** The three persisted keys removed. *)
Definition purge (m : gmap string string) : gmap string string :=
  delete OFFLINE_STATUS_KEY (delete LAST_UPDATE_KEY (delete CACHE_KEY m)).

(** Storage that answers every call: access is granted and there is no
    quota to hit. *)
Definition healthy (st : storage) : Prop := denied st = false /\ quota st = None.

(** [holds w text lastUpdate]: storage can be read and has a snapshot
    record [text] under the cache key and [lastUpdate] under the
    last-update key, both non-empty. *)
Definition holds (w : world) (text lastUpdate : string) : Prop :=
  denied (localStorage w) = false
  /\ items (localStorage w) !! CACHE_KEY = Some text /\ text <> ""
  /\ items (localStorage w) !! LAST_UPDATE_KEY = Some lastUpdate /\ lastUpdate <> "".

(** Stored longer ago than the expiry window, going by the last-update
    key. *)
Definition expired (now : Z) (lastUpdate : string) : bool :=
  exceeds (age now (Some lastUpdate)) maxAge.

(** [fresh w cache]: a stored, unexpired snapshot that parses to [cache]. *)
Definition fresh (w : world) (cache : JS.value) : Prop :=
  exists text lastUpdate,
    holds w text lastUpdate
    /\ JS.parse text = Some cache
    /\ expired (clock w) lastUpdate = false.

(** [stale w]: storage holds a snapshot that parses and is expired. *)
Definition stale (w : world) : bool :=
  negb (denied (localStorage w))
  && match items (localStorage w) !! CACHE_KEY,
           items (localStorage w) !! LAST_UPDATE_KEY with
     | Some text, Some lastUpdate =>
         negb (String.eqb text "") && negb (String.eqb lastUpdate "")
         && match JS.parse text with Some _ => true | None => false end
         && expired (clock w) lastUpdate
     | _, _ => false
     end.

(** The ways a read of the cache can go, by what storage holds. *)
Inductive reading (w : world) : Prop :=
  | ReadDenied :
      denied (localStorage w) = true -> reading w
  | ReadMissing :
      denied (localStorage w) = false ->
      truthy_item (items (localStorage w) !! CACHE_KEY) = false
      \/ truthy_item (items (localStorage w) !! LAST_UPDATE_KEY) = false ->
      reading w
  | ReadCorrupt text lastUpdate :
      holds w text lastUpdate -> JS.parse text = None -> reading w
  | ReadFresh cache :
      fresh w cache -> reading w
  | ReadExpired text lastUpdate cache :
      holds w text lastUpdate -> JS.parse text = Some cache ->
      expired (clock w) lastUpdate = true -> reading w.

(** A rate table with numeric entries, and the object it is cached as. *)
Definition table : Type := list (string * float).

Definition table_value (rs : table) : JS.value :=
  JS.Object (map (fun kv => (kv.1, JS.Number kv.2)) rs).

Fixpoint rate_of (rs : table) (k : string) : option float :=
  match rs with
  | [] => None
  | (k', x) :: rest => if String.eqb k' k then Some x else rate_of rest k
  end.

Definition cached (rs : table) (k : string) : bool :=
  match rate_of rs k with Some _ => true | None => false end.

(** An entry that passes the reader's truthiness test: present, and
    neither zero nor [NaN]. *)
Definition usable (rs : table) (k : string) : bool :=
  match rate_of rs k with Some x => negb (JS.falsy_number x) | None => false end.

Definition rate (rs : table) (k : string) : float := default nan (rate_of rs k).

(** The invariant of a snapshot: every rate is strictly positive. *)
Definition positive_rates (rs : table) : bool :=
  forallb (fun kv => PrimFloat.ltb 0 kv.2) rs.

(** The resolution order in the specification's words: a code counts as
    soon as it is a key of the table. *)
Definition getRate_spec (B : string) (rs : table) (from to : string) : option float :=
  if String.eqb B from && cached rs to then Some (rate rs to)
  else if String.eqb B to && cached rs from then Some (1 / rate rs from)%float
  else if cached rs from && cached rs to then Some (rate rs to / rate rs from)%float
  else None.

(** The same order with the reader's test: a code counts when its entry
    is [usable]. *)
Definition getRate_reader (B : string) (rs : table) (from to : string) : option float :=
  if String.eqb B from && usable rs to then Some (rate rs to)
  else if String.eqb B to && usable rs from then Some (1 / rate rs from)%float
  else if usable rs from && usable rs to then Some (rate rs to / rate rs from)%float
  else None.

(** The division the reader performs, if any: numerator and divisor. *)
Definition division_of (B : string) (rs : table) (from to : string)
  : option (float * float) :=
  if String.eqb B from && usable rs to then None
  else if String.eqb B to && usable rs from then Some (1%float, rate rs from)
  else if usable rs from && usable rs to then Some (rate rs to, rate rs from)
  else None.

(** A rate or [null]. *)
Definition rate_value (r : option float) : JS.value :=
  match r with Some x => JS.Number x | None => JS.Null end.

(** The network is lost, then restored, with nothing in between. *)
Definition loss_then_restore (h : hook) : M hook :=
  h1 ← handleOffline h; handleOnline h1.

(** ** Sample worlds *)

Definition empty_world (t : Z) : world :=
  {| localStorage := {| items := ∅; denied := false; quota := None |};
     clock := t; onLine := true; trace := [] |}.

(** The scenario of the specification: rates for USD cached at some
    moment. *)
Definition sample_time : Z := 1700000000000.

Definition sample_rates : table := [("INR", 83%float); ("EUR", 0.92%float)].

Definition sample_world : world :=
  (saveRatesToCache (table_value sample_rates) "USD" (empty_world sample_time)).2.

Definition sample_cache : JS.value :=
  JS.Object [("rates", table_value sample_rates);
             ("baseCurrency", JS.Str "USD");
             ("timestamp", JS.Number 1700000000000);
             ("lastUpdate", JS.Str "2023-11-14T22:13:20.000Z")].

(** The same storage one millisecond past the expiry window. *)
Definition day_later_world : world :=
  later (sample_time + maxAge + 1) true sample_world.

(** A table with a zero entry, and one with a negative entry. *)
Definition zero_world : world :=
  (saveRatesToCache (table_value [("EUR", 0%float)]) "USD" (empty_world sample_time)).2.

Definition negative_world : world :=
  (saveRatesToCache (table_value [("EUR", (-0.5)%float)]) "USD"
     (empty_world sample_time)).2.

(** A snapshot record that is not JSON. *)
Definition corrupt_world : world :=
  with_items (<[CACHE_KEY := "{oops"]> (<[LAST_UPDATE_KEY := "1700000000000"]> ∅))
    (empty_world sample_time).

(** A snapshot record without the last-update key. *)
Definition orphan_world : world :=
  with_items (delete LAST_UPDATE_KEY (items (localStorage sample_world))) sample_world.

(** The sample record two days on, with the last-update key rewritten to
    one hour before the clock: the [timestamp] inside the record is two
    days old, the key is not. *)
Definition restamped_world : world :=
  later (sample_time + 2 * maxAge) true
    (with_items (<[LAST_UPDATE_KEY := "1700169200000"]>
                   (items (localStorage sample_world))) sample_world).

(** Storage that refuses every access. *)
Definition blocked_world : world :=
  {| localStorage := {| items := ∅; denied := true; quota := None |};
     clock := sample_time; onLine := true; trace := [] |}.

End Spec.

(* ===================================================================== *)
(** * Sequences of controller events *)
(* ===================================================================== *)

Module Controller.
Import Browser CacheManager NetworkStatus.

(** What can happen to one use of the hook: the two window events and the
    two actions it hands to its component. *)
Inductive signal : Type :=
  | networkLost
  | networkRestored
  | userToggle
  | userExitOffline.

Definition step (s : signal) (h : hook) : M hook :=
  match s with
  | networkLost => handleOffline h
  | networkRestored => handleOnline h
  | userToggle => r ← toggleOfflineMode h; mret r.2
  | userExitOffline => r ← exitOfflineMode h; mret r.2
  end.

Fixpoint run (ss : list signal) (h : hook) : M hook :=
  match ss with
  | [] => mret h
  | s :: rest => h' ← step s h; run rest h'
  end.

(** The persisted flag as [getOfflineStatus] reads it. *)
Definition persisted (w : world) : bool :=
  match items (localStorage w) !! OFFLINE_STATUS_KEY with
  | Some text => String.eqb text "true"
  | None => false
  end.

(** The hook's offline mode and the persisted flag agree, on storage that
    answers every call. *)
Definition in_step (h : hook) (w : world) : Prop :=
  Spec.healthy (localStorage w) /\ persisted w = isOfflineMode h.

(** The record [saveRatesToCache] builds, and the text it stores under
    the last-update key. *)
Definition record (ratesData : JS.value) (base : string) (now : Z) (iso : string)
  : JS.value :=
  JS.Object [("rates", ratesData);
             ("baseCurrency", JS.Str base);
             ("timestamp", JS.Number (JS.number_of_Z now));
             ("lastUpdate", JS.Str iso)].

Definition stamp (now : Z) : string := JS.number_to_string (JS.number_of_Z now).

(** Storage almost at its quota: besides the saved history there is room
    for the sample rate record, but not for the last-update stamp after
    it. *)
Definition crowded_world : world :=
  {| localStorage :=
       {| items := {[ "conversionHistory" := "[]" ]};
          denied := false; quota := Some 160%nat |};
     clock := Spec.sample_time; onLine := true; trace := [] |}.

End Controller.

(* ===================================================================== *)
(** * The page around the cache: requests, errors, outputs *)
(* ===================================================================== *)

Module Page.
Import Browser.

(** What [throw] can carry here: an exception of the runtime, or an
    [Error] object made with a message. *)
Inductive thrown : Type :=
  | Native (e : JS.exn)
  | Error (message : string).

(** What a request settles with: the [fetch] promise rejects; or the
    response is there with [ok] false; or reading its body as JSON
    rejects; or the body is there. *)
Inductive settled : Type :=
  | FetchRejected (error : thrown)
  | NotOk
  | JsonRejected (error : thrown)
  | Json (data : JS.value).

(** [conversionData], the object the form hands to [addToHistory].  Its
    [timestamp] is the locale-dependent text of the current time; the
    record keeps the time value being rendered. *)
Record conversion : Type := {
  id : Z;
  amount : string;
  fromCurrency : string;
  toCurrency : string;
  result : string;
  timestamp : Z;
  fullText : string;
  isFromCache : bool;
}.

(** What leaves the page besides what [Browser.event] records. *)
Inductive output : Type :=
  | Request (url : string)                            (* [fetch(url)] *)
  | ConsoleErrorWith (text : string) (error : thrown) (* [console.error] *)
  | CancelSpeech                                      (* [speechSynthesis.cancel()] *)
  | Speak (text : string)                             (* [speechSynthesis.speak] *)
  | AddToHistory (c : conversion).                    (* the [addToHistory] prop *)

Record page : Type := {
  window : world;
  outputs : list output;       (* oldest first *)
}.

Inductive outcome (A : Type) : Type :=
  | Done (a : A)
  | Raised (error : thrown).
Arguments Done {A} a.
Arguments Raised {A} error.

Definition P (A : Type) : Type := page -> outcome A * page.

#[global] Instance P_ret : MRet P := fun A a p => (Done a, p).

#[global] Instance P_bind : MBind P := fun A B f m p =>
  match m p with
  | (Done a, p') => f a p'
  | (Raised e, p') => (Raised e, p')
  end.

Definition raise {A : Type} (error : thrown) : P A := fun p => (Raised error, p).

(** [try { body } catch (error) { handler }] *)
Definition attempt {A : Type} (body : P A) (handler : thrown -> P A) : P A :=
  fun p =>
    match body p with
    | (Done a, p') => (Done a, p')
    | (Raised e, p') => handler e p'
    end.

(** A statement of [Browser.M] run on the page's window. *)
Definition lift {A : Type} (m : M A) : P A := fun p =>
  match m (window p) with
  | (Ok a, w') => (Done a, {| window := w'; outputs := outputs p |})
  | (Throw e, w') => (Raised (Native e), {| window := w'; outputs := outputs p |})
  end.

Definition emit (o : output) : P unit := fun p =>
  (Done tt, {| window := window p; outputs := outputs p ++ [o] |}).

(** [v.k] where a [null] or [undefined] receiver throws. *)
Definition member (v : JS.value) (k : string) : P JS.value :=
  match v with
  | JS.Null | JS.Undefined => raise (Native JS.TypeError)
  | _ => mret (JS.get v k)
  end.

(** ** [Number.prototype.toFixed] and the product it is applied to *)

(** The integer nearest to [x * 10^f] for a finite [x >= 0], the larger one
    on a tie, from the exact value of the double. *)
Definition scaled_round (x : float) (f : Z) : Z :=
  match Prim2SF x with
  | S754_finite _ m e =>
      if 0 <=? e then Zpos m * 2 ^ e * 10 ^ f
      else (2 * Zpos m * 10 ^ f + 2 ^ (- e)) / (2 * 2 ^ (- e))
  | _ => 0
  end.

Definition toFixed (x : float) (f : nat) : string :=
  if is_nan x then "NaN"
  else if PrimFloat.leb 1e21 (abs x) then JS.number_to_string x
  else
    let m := JS.digits (scaled_round (abs x) (Z.of_nat f)) in
    let m := JS.zeros (S f - String.length m) ++ m in
    let k := String.length m in
    (if PrimFloat.ltb x 0 then "-" else "")
    ++ (if Nat.eqb f 0 then m
        else JS.take_string (k - f) m ++ "." ++ JS.drop_string (k - f) m).

(** [(a * b).toFixed(2)]: both operands are coerced to numbers, which can
    throw. *)
Definition product_toFixed (a b : JS.value) : P string :=
  match JS.to_number a, JS.to_number b with
  | Some x, Some y => mret (toFixed (x * y)%float 2)
  | _, _ => raise (Native JS.TypeError)
  end.

End Page.

(* ===================================================================== *)
(** * [CacheManager.fetchAndCacheAllRates] *)
(* ===================================================================== *)

Module RatesFetch.
Import Browser Page.

(** The address of the full table for a base currency. *)
Definition latest_url (apiKey baseCurrency : string) : string :=
  "https://v6.exchangerate-api.com/v6/" ++ apiKey ++ "/latest/" ++ baseCurrency.

(** The function is [async]: a call only issues the request
    ([fetchAndCacheAllRates_call]); the rest runs when the request has
    settled ([fetchAndCacheAllRates_settle]), on the page as it is then.
    Whatever the function does to storage or the console happens in that
    one later step: a rejected [fetch] or a response that is not [ok] end
    in the [catch] at once, and reading the body touches nothing. *)
Definition fetchAndCacheAllRates_call (baseCurrency apiKey : string) : P unit :=
  emit (Request (latest_url apiKey baseCurrency)).

Definition fetchAndCacheAllRates_settle (baseCurrency : string) (reply : settled)
  : P bool :=
  attempt
    (match reply with
     | FetchRejected error => raise error
     | NotOk => raise (Error "Failed to fetch exchange rates")
     | JsonRejected error => raise error
     | Json data =>
         result ← member data "result";
         if JS.strict_eq_string result "success"
            && JS.truthy (JS.get data "conversion_rates")
         then
           lift (CacheManager.saveRatesToCache (JS.get data "conversion_rates")
                   baseCurrency);;
           lift (console_log
                   ("Cached "
                    ++ JS.digits (Z.of_nat (CacheManager.keys_length
                                              (JS.get data "conversion_rates")))
                    ++ " exchange rates for " ++ baseCurrency));;
           mret true
         else raise (Error "Invalid API response")
     end)
    (fun error =>
       emit (ConsoleErrorWith "Error fetching rates for cache:" error);;
       mret false).

End RatesFetch.

(* ===================================================================== *)
(** * [App.jsx]: the conversion history *)
(* ===================================================================== *)

Module App.
Import Browser.

Definition HISTORY_KEY : string := "conversionHistory".

(** The component's state, with the session storage its [clearHistory]
    also empties.  The history is whatever value was last set: an array of
    conversions in normal use, any JSON value after a load. *)
Record app : Type := {
  conversionHistory : JS.value;
  sessionStorage : storage;
}.

Definition setConversionHistory (v : JS.value) (a : app) : app :=
  {| conversionHistory := v; sessionStorage := sessionStorage a |}.

(** The first effect, run once when the component mounts. *)
Definition loadHistory (a : app) : M app :=
  savedHistory ← getItem HISTORY_KEY;
  if truthy_item savedHistory then
    try_catch
      (parsedHistory ← JSON_parse (default "" savedHistory);
       mret (setConversionHistory parsedHistory a))
      (fun error =>
         console_error "Error parsing saved history:" error;;
         removeItem HISTORY_KEY;;
         mret a)
  else mret a.

(** The second effect, run whenever the history has changed. *)
Definition saveHistory (a : app) : M unit :=
  setItem HISTORY_KEY (JS.stringify (conversionHistory a)).



(** [storage.clear()] *)
Definition clear (st : storage) : result storage :=
  if denied st then Throw JS.SecurityError
  else Ok {| items := ∅; denied := denied st; quota := quota st |}.

Definition with_storage (st : storage) (w : world) : world :=
  {| localStorage := st; clock := clock w; onLine := onLine w; trace := trace w |}.

(** The state is reset first; an exception from either [clear()] leaves
    what was done before it. *)
Definition clearHistory (a : app) (w : world) : result unit * app * world :=
  let a := setConversionHistory (JS.Array []) a in
  match clear (localStorage w) with
  | Throw e => (Throw e, a, w)
  | Ok st =>
      let w := with_storage st w in
      match clear (sessionStorage a) with
      | Throw e => (Throw e, a, w)
      | Ok session =>
          (Ok tt, {| conversionHistory := conversionHistory a;
                     sessionStorage := session |}, w)
      end
  end.

End App.

(* ===================================================================== *)
(** * [CurrencySelect.jsx] *)
(* ===================================================================== *)

Module CurrencySelect.

(** The options of the dropdown. *)
Definition currencyCodes : list string :=
  ["AED"; "AFN"; "ALL"; "AMD"; "ANG"; "AOA"; "ARS"; "AUD"; "AWG"; "AZN";
   "BAM"; "BBD"; "BDT"; "BGN"; "BHD"; "BIF"; "BMD"; "BND"; "BOB"; "BRL";
   "BSD"; "BTN"; "BWP"; "BYN"; "BZD"; "CAD"; "CDF"; "CHF"; "CLP"; "CNY";
   "COP"; "CRC"; "CUP"; "CVE"; "CZK"; "DJF"; "DKK"; "DOP"; "DZD"; "EGP";
   "ERN"; "ETB"; "EUR"; "FJD"; "FKP"; "FOK"; "GBP"; "GEL"; "GGP"; "GHS";
   "GIP"; "GMD"; "GNF"; "GTQ"; "GYD"; "HKD"; "HNL"; "HRK"; "HTG"; "HUF";
   "IDR"; "ILS"; "IMP"; "INR"; "IQD"; "IRR"; "ISK"; "JEP"; "JMD"; "JOD";
   "JPY"; "KES"; "KGS"; "KHR"; "KID"; "KMF"; "KRW"; "KWD"; "KYD"; "KZT";
   "LAK"; "LBP"; "LKR"; "LRD"; "LSL"; "LYD"; "MAD"; "MDL"; "MGA"; "MKD";
   "MMK"; "MNT"; "MOP"; "MRU"; "MUR"; "MVR"; "MWK"; "MXN"; "MYR"; "MZN";
   "NAD"; "NGN"; "NIO"; "NOK"; "NPR"; "NZD"; "OMR"; "PAB"; "PEN"; "PGK";
   "PHP"; "PKR"; "PLN"; "PYG"; "QAR"; "RON"; "RSD"; "RUB"; "RWF"; "SAR";
   "SBD"; "SCR"; "SDG"; "SEK"; "SGD"; "SHP"; "SLE"; "SLL"; "SOS"; "SRD";
   "SSP"; "STN"; "SYP"; "SZL"; "THB"; "TJS"; "TMT"; "TND"; "TOP"; "TRY";
   "TTD"; "TVD"; "TWD"; "TZS"; "UAH"; "UGX"; "USD"; "UYU"; "UZS"; "VES";
   "VND"; "VUV"; "WST"; "XAF"; "XCD"; "XOF"; "XPF"; "YER"; "ZAR"; "ZMW";
   "ZWL"].

(** [selectedCurrency.substring(0, 2)], and the address of the flag. *)
Definition countryCode (selectedCurrency : string) : string :=
  JS.take_string 2 selectedCurrency.

Definition flag_url (selectedCurrency : string) : string :=
  "https://flagsapi.com/" ++ countryCode selectedCurrency ++ "/flat/64.png".

End CurrencySelect.

(* ===================================================================== *)
(** * [ConverterForm.jsx]: the conversion itself *)
(* ===================================================================== *)

Module ConverterForm.
Import Browser Page.

(** The component's state. *)
Record form : Type := {
  amount : string;
  fromCurrency : string;
  toCurrency : string;
  result : string;
  isLoading : bool;
}.

Definition setAmount (v : string) (f : form) : form :=
  {| amount := v; fromCurrency := fromCurrency f; toCurrency := toCurrency f;
     result := result f; isLoading := isLoading f |}.

Definition setResult (v : string) (f : form) : form :=
  {| amount := amount f; fromCurrency := fromCurrency f; toCurrency := toCurrency f;
     result := v; isLoading := isLoading f |}.

Definition setIsLoading (b : bool) (f : form) : form :=
  {| amount := amount f; fromCurrency := fromCurrency f; toCurrency := toCurrency f;
     result := result f; isLoading := b |}.

(** What the component reads from around it: the hook's [isOfflineMode]
    and whether the window has [speechSynthesis]. *)
Record surroundings : Type := {
  isOfflineMode : bool;
  speechSynthesis : bool;
}.

Definition API_KEY : string := "03c2100d937c820d564590fe".

Definition pair_url (apiKey from to : string) : string :=
  "https://v6.exchangerate-api.com/v6/" ++ apiKey ++ "/pair/" ++ from ++ "/" ++ to.

Definition speakResult (env : surroundings) (text : string) : P unit :=
  if speechSynthesis env then emit CancelSpeech;; emit (Speak text)
  else lift (console_log "Text-to-speech not supported in this browser").

Definition handleSwapCurrencies (f : form) : form :=
  {| amount := amount f; fromCurrency := toCurrency f; toCurrency := fromCurrency f;
     result := result f; isLoading := isLoading f |}.

(** The text shown for a conversion. *)
Definition result_text (c : form) (convertedAmount : string) (cached : bool) : string :=
  amount c ++ " " ++ fromCurrency c ++ " = " ++ convertedAmount ++ " "
  ++ toCurrency c ++ (if cached then " (Cached)" else "").

(** The cached rate for the pair, or the given error. *)
Definition from_cache (c : form) (message : string)
  : P (JS.value * string * bool) :=
  rate ← lift (CacheManager.getCachedRate (fromCurrency c) (toCurrency c));
  if JS.truthy rate then
    convertedAmount ← product_toFixed rate (JS.Str (amount c));
    mret (rate, result_text c convertedAmount true, true)
  else raise (Error message).

(** The end of the [try] block: show the result and, for a conversion the
    user asked for, record it and speak it. *)
Definition conclude (addToHistoryFlag : bool) (env : surroundings) (c : form)
    (found : JS.value * string * bool) (f : form) : P form :=
  let '(rate, resultText, isFromCache) := found in
  let f := setResult resultText f in
  if addToHistoryFlag then
    now ← lift Date_now;
    converted ← product_toFixed rate (JS.Str (amount c));
    emit (AddToHistory
            {| id := now; Page.amount := amount c;
               Page.fromCurrency := fromCurrency c;
               Page.toCurrency := toCurrency c;
               Page.result := converted; timestamp := now;
               fullText := resultText; isFromCache := isFromCache |});;
    speakResult env resultText;;
    mret f
  else mret f.

(** The outer [catch]: the error itself is not looked at. *)
Definition explain (addToHistoryFlag : bool) (env : surroundings) (f : form) : P form :=
  let errorText :=
    if isOfflineMode env then "No cached rate available for this currency pair"
    else "Something went wrong! Check your internet connection." in
  (if addToHistoryFlag then speakResult env errorText else mret tt);;
  mret (setResult errorText f).

(** [getExchangeRate] is [async].  A call runs up to its first [await]:
    in offline mode that is the whole function; otherwise it sets the
    loading flag, issues the request for the pair and stops
    ([Some] is the form as the closure captured it).  The captured form [c]
    gives the amount and the codes; the setters act on the current form. *)
Definition getExchangeRate_call (addToHistoryFlag : bool) (env : surroundings)
    (f : form) : P (form * option form) :=
  if isLoading f then mret (f, None)
  else
    let c := f in
    let f := setIsLoading true f in
    if isOfflineMode env then
      f' ← attempt
             (found ← from_cache c "No cached rate available for this currency pair";
              conclude addToHistoryFlag env c found f)
             (fun error => explain addToHistoryFlag env f);
      mret (setIsLoading false f', None)
    else
      emit (Request (pair_url API_KEY (fromCurrency c) (toCurrency c)));;
      mret (f, Some c).

(** The inner [try]: the rate of the reply, and the request that refreshes
    the cache. *)
Definition from_reply (c : form) (reply : settled) : P (JS.value * string * bool) :=
  match reply with
  | FetchRejected error => raise error
  | NotOk => raise (Error "API request failed")
  | JsonRejected error => raise error
  | Json data =>
      rate ← member data "conversion_rate";
      RatesFetch.fetchAndCacheAllRates_call (fromCurrency c) API_KEY;;
      convertedAmount ← product_toFixed rate (JS.Str (amount c));
      mret (rate, result_text c convertedAmount false, false)
  end.

(** The rest of [getExchangeRate], run when the request has settled. *)
Definition getExchangeRate_settle (addToHistoryFlag : bool) (env : surroundings)
    (c : form) (reply : settled) (f : form) : P form :=
  f' ← attempt
         (found ← attempt (from_reply c reply)
                    (fun onlineError =>
                       lift (console_log "Online request failed, trying cache...");;
                       from_cache c
                         "No internet connection and no cached rate available");
          conclude addToHistoryFlag env c found f)
         (fun error => explain addToHistoryFlag env f);
  mret (setIsLoading false f').

(** [handleFormSubmit]: convert, then empty the amount field. *)
Definition handleFormSubmit (env : surroundings) (f : form) : P (form * option form) :=
  r ← getExchangeRate_call true env f;
  mret (setAmount "" r.1, r.2).

(** The state the component is mounted with. *)
Definition initial : form :=
  {| amount := ""; fromCurrency := "USD"; toCurrency := "INR";
     result := ""; isLoading := false |}.

Definition setFromCurrency (v : string) (f : form) : form :=
  {| amount := amount f; fromCurrency := v; toCurrency := toCurrency f;
     result := result f; isLoading := isLoading f |}.

Definition setToCurrency (v : string) (f : form) : form :=
  {| amount := amount f; fromCurrency := fromCurrency f; toCurrency := v;
     result := result f; isLoading := isLoading f |}.

(** What the user can do to the fields: type an amount, pick a code in
    either dropdown, click the swap icon. *)
Inductive edit : Type :=
  | amountTyped (value : string)
  | fromPicked (value : string)
  | toPicked (value : string)
  | swapClicked.

Definition change (e : edit) (f : form) : form :=
  match e with
  | amountTyped value => setAmount value f
  | fromPicked value => setFromCurrency value f
  | toPicked value => setToCurrency value f
  | swapClicked => handleSwapCurrencies f
  end.

(** A dropdown yields one of its options. *)
Definition from_dropdown (e : edit) : Prop :=
  match e with
  | fromPicked value | toPicked value => In value CurrencySelect.currencyCodes
  | _ => True
  end.

End ConverterForm.

(* ===================================================================== *)
(** * [networkStatus.js]: [NetworkUtils] *)
(* ===================================================================== *)

Module NetworkUtils.
Import Browser.

(** What the two synchronous utilities read: [None] when the navigator has
    no [connection], else the value of [connection.effectiveType].  Where
    the property exists it is taken to be an object. *)
Definition navigator : Type := option JS.value.

Definition getConnectionSpeed (nav : navigator) : JS.value :=
  match nav with
  | Some effectiveType =>
      if JS.truthy effectiveType then effectiveType else JS.Str "unknown"
  | None => JS.Str "unknown"
  end.

Definition isConnectionSuitable (nav : navigator) : bool :=
  match nav with
  | Some effectiveType =>
      negb (JS.strict_eq_string effectiveType "slow-2g")
      && negb (JS.strict_eq_string effectiveType "2g")
  | None => true
  end.

End NetworkUtils.

(* ===================================================================== *)
(** * [OfflineIndicator.jsx] *)
(* ===================================================================== *)

Module OfflineIndicator.
Import Browser CacheManager NetworkStatus.

(** The component's state: its own use of the hook, and whether the
    details are open. *)
Record component : Type := {
  network : hook;
  showCacheDetails : bool;
}.

Definition setNetwork (h : hook) (c : component) : component :=
  {| network := h; showCacheDetails := showCacheDetails c |}.

Definition setShowCacheDetails (b : bool) (c : component) : component :=
  {| network := network c; showCacheDetails := b |}.

Record statusInfo : Type := {
  text : string;
  color : string;
}.

(** The [icon] field, a pictograph per branch, is left out. *)
Definition getStatusInfo (h : hook) (info : cacheInfo) : statusInfo :=
  if isOfflineMode h then
    {| text := if hasCache info then "Offline Mode (Cached Rates)"
               else "Offline Mode (No Cache)";
       color := if hasCache info then "#FFA500" else "#FF6B6B" |}
  else if isOnline h then {| text := "Online"; color := "#4CAF50" |}
  else {| text := "No Connection"; color := "#FF6B6B" |}.

Inductive button : Type := SwitchToOnline | TestOfflineMode | ClearCache.

(** The control buttons of the details, in the order they are rendered. *)
Definition controls (h : hook) (info : cacheInfo) : list button :=
  (if isOnline h && isOfflineMode h then [SwitchToOnline] else [])
  ++ (if isOnline h && negb (isOfflineMode h) then [TestOfflineMode] else [])
  ++ (if hasCache info then [ClearCache] else []).

(** What one rendering shows of the state: the status line, and the
    buttons on offer (none while the details are closed). *)
Record view : Type := {
  status : statusInfo;
  offered : list button;
}.

(** Every rendering reads the cache afresh. *)
Definition render (c : component) : M view :=
  info ← getCacheInfo;
  mret {| status := getStatusInfo (network c) info;
          offered := if showCacheDetails c then controls (network c) info else [] |}.

(** [confirmed] is the answer to [window.confirm]. *)
Definition handleClearCache (confirmed : bool) (c : component) : M component :=
  if confirmed then clearCache;; mret (setShowCacheDetails false c)
  else mret c.

(** The [onClick] of each button. *)
Definition click (b : button) (confirmed : bool) (c : component) : M component :=
  match b with
  | SwitchToOnline => r ← exitOfflineMode (network c); mret (setNetwork r.2 c)
  | TestOfflineMode => r ← toggleOfflineMode (network c); mret (setNetwork r.2 c)
  | ClearCache => handleClearCache confirmed c
  end.

(** What can happen to the mounted component: the two window events its
    hook listens to, a click on the status line, a click on a button (with
    the answer the user would give to [window.confirm]). *)
Inductive happening : Type :=
  | windowOnline
  | windowOffline
  | statusClicked
  | clicked (b : button) (confirmed : bool).

Definition react (e : happening) (c : component) : M component :=
  match e with
  | windowOnline => h ← handleOnline (network c); mret (setNetwork h c)
  | windowOffline => h ← handleOffline (network c); mret (setNetwork h c)
  | statusClicked => mret (setShowCacheDetails (negb (showCacheDetails c)) c)
  | clicked b confirmed => click b confirmed c
  end.

Definition is_window_event (e : happening) : bool :=
  match e with windowOnline | windowOffline => true | _ => false end.

End OfflineIndicator.

(* ===================================================================== *)
(** * [App.jsx]: the two uses of the hook *)
(* ===================================================================== *)

Module Mounted.
Import Browser NetworkStatus OfflineIndicator.

(** [OfflineIndicator] and [ConverterForm] each call [useNetworkStatus]:
    each has its own state and its own pair of listeners, and both share
    the persisted flag. *)
Record hooks : Type := {
  indicator : component;
  converter : hook;
}.

(** Both are mounted with the same page, the details closed. *)
Definition mount : M hooks :=
  i ← useNetworkStatus;
  c ← useNetworkStatus;
  mret {| indicator := {| network := i; showCacheDetails := false |};
          converter := c |}.

(** A window event reaches both listeners, the indicator's first (it is
    rendered first); clicks are on the indicator and act on its use of the
    hook. *)
Definition dispatch (e : happening) (a : hooks) : M hooks :=
  i ← react e (indicator a);
  c ← match e with
      | windowOnline => handleOnline (converter a)
      | windowOffline => handleOffline (converter a)
      | _ => mret (converter a)
      end;
  mret {| indicator := i; converter := c |}.

Fixpoint run_all (es : list happening) (a : hooks) : M hooks :=
  match es with
  | [] => mret a
  | e :: rest => a' ← dispatch e a; run_all rest a'
  end.

(** What the form reads of its hook: [const { isOfflineMode } =
    useNetworkStatus()]. *)
Definition surroundings_of (a : hooks) (speech : bool) : ConverterForm.surroundings :=
  {| ConverterForm.isOfflineMode := isOfflineMode (converter a);
     ConverterForm.speechSynthesis := speech |}.

End Mounted.

(* ===================================================================== *)
(** * Vocabulary and samples for the page *)
(* ===================================================================== *)

Module Scene.
Import Browser Page.

(** A page with nothing sent out yet. *)
Definition page_of (w : world) : page := {| window := w; outputs := [] |}.

(** A reply the cache accepts: a body with [result] at ["success"] and a
    truthy [conversion_rates]. *)
Definition accepted (reply : settled) : bool :=
  match reply with
  | Json JS.Null | Json JS.Undefined => false
  | Json data =>
      JS.strict_eq_string (JS.get data "result") "success"
      && JS.truthy (JS.get data "conversion_rates")
  | _ => false
  end.

(** The rates of a reply. *)
Definition rates_of (reply : settled) : JS.value :=
  match reply with
  | Json data => JS.get data "conversion_rates"
  | _ => JS.Undefined
  end.

(** A request that gave no usable body: it was rejected, or not [ok], or
    its body was not JSON, or the body is [null]. *)
Definition failed (reply : settled) : bool :=
  match reply with
  | Json JS.Null | Json JS.Undefined => true
  | Json _ => false
  | _ => true
  end.

Definition sample_reply : settled :=
  Json (JS.Object [("result", JS.Str "success");
                   ("base_code", JS.Str "USD");
                   ("conversion_rates", Spec.table_value Spec.sample_rates)]).

Definition sample_pair_reply : settled :=
  Json (JS.Object [("result", JS.Str "success");
                   ("conversion_rate", JS.Number 83)]).

Definition sample_form : ConverterForm.form :=
  {| ConverterForm.amount := "5";
     ConverterForm.fromCurrency := "USD";
     ConverterForm.toCurrency := "INR";
     ConverterForm.result := "";
     ConverterForm.isLoading := false |}.

Definition offline_mode : ConverterForm.surroundings :=
  {| ConverterForm.isOfflineMode := true; ConverterForm.speechSynthesis := true |}.

Definition online_mode : ConverterForm.surroundings :=
  {| ConverterForm.isOfflineMode := false; ConverterForm.speechSynthesis := true |}.

(** An application with an empty history and an empty session storage. *)
Definition fresh_app : App.app :=
  {| App.conversionHistory := JS.Array [];
     App.sessionStorage := {| items := ∅; denied := false; quota := None |} |}.

(** The sample storage with a saved history that is not JSON, and with one
    that is an object. *)
Definition broken_history_world : world :=
  with_items (<[App.HISTORY_KEY := "[oops"]> (items (localStorage Spec.sample_world)))
    Spec.sample_world.


(** The history entry of a conversion of the captured form [c]. *)
Definition entry (c : ConverterForm.form) (now : Z) (converted text : string)
    (cached : bool) : conversion :=
  {| id := now;
     amount := ConverterForm.amount c;
     fromCurrency := ConverterForm.fromCurrency c;
     toCurrency := ConverterForm.toCurrency c;
     result := converted;
     timestamp := now;
     fullText := text;
     isFromCache := cached |}.

(** What speaking a text sends out. *)
Definition spoken (env : ConverterForm.surroundings) (text : string) : list output :=
  if ConverterForm.speechSynthesis env then [CancelSpeech; Speak text] else [].

(** The amount as converted: [(rate * amount).toFixed(2)] for a numeric
    rate. *)
Definition converted (rate : float) (c : ConverterForm.form) : string :=
  toFixed (rate * JS.string_to_number (ConverterForm.amount c))%float 2.

(** The form once a conversion is over: the text shown, loading off. *)
Definition shown (text : string) (f : ConverterForm.form) : ConverterForm.form :=
  ConverterForm.setIsLoading false (ConverterForm.setResult text f).

Definition no_rate_message : string :=
  "No cached rate available for this currency pair".

Definition no_connection_message : string :=
  "Something went wrong! Check your internet connection.".

(** No [fetch] among the outputs. *)
Definition is_request (o : output) : bool :=
  match o with Request _ => true | _ => false end.

Definition no_request (os : list output) : bool := forallb (fun o => negb (is_request o)) os.

(** A report of a cache of the sample rates. *)
Definition sample_info : CacheManager.cacheInfo :=
  {| CacheManager.hasCache := true;
     CacheManager.lastUpdate := Some (Some Spec.sample_time);
     CacheManager.baseCurrency := JS.Str "USD";
     CacheManager.rateCount := 2;
     CacheManager.isExpired := false |}.

(** The indicator with its details open. *)
Definition open_panel (h : NetworkStatus.hook) : OfflineIndicator.component :=
  {| OfflineIndicator.network := h; OfflineIndicator.showCacheDetails := true |}.

Definition online_hook : NetworkStatus.hook :=
  {| NetworkStatus.isOnline := true; NetworkStatus.isOfflineMode := false |}.

Definition manual_hook : NetworkStatus.hook :=
  {| NetworkStatus.isOnline := true; NetworkStatus.isOfflineMode := true |}.

Definition disconnected_hook : NetworkStatus.hook :=
  {| NetworkStatus.isOnline := false; NetworkStatus.isOfflineMode := false |}.

(** Both uses of the hook in the same state, the details open. *)
Definition both (h : NetworkStatus.hook) : Mounted.hooks :=
  {| Mounted.indicator := open_panel h; Mounted.converter := h |}.

(** The sample storage after the network was lost and restored. *)
Definition restored_world : world :=
  (Spec.loss_then_restore online_hook Spec.sample_world).2.

End Scene.

(* ===================================================================== *)
(** * Properties *)
(* ===================================================================== *)

Import Browser CacheManager NetworkStatus Spec.

(** ** Running statements *)

Ltac run :=
  cbv beta delta [mbind mret M_bind M_ret try_catch throw getItem setItem
                  removeItem Date_now JSON_parse console_log console_error
                  with_items with_event] iota.

Lemma eqb_empty_false (s : string) : s <> "" -> String.eqb s "" = false.
Proof. intros H. apply String.eqb_neq. exact H. Qed.

(** [clearCache] on readable storage removes the three keys and logs. *)
Lemma clearCache_granted (w : world) :
  denied (localStorage w) = false ->
  clearCache w =
    (Ok tt,
     with_event (ConsoleLog "Currency cache cleared")
       (with_items (purge (items (localStorage w))) w)).
Proof.
  destruct w as [[m d q] c o t]; simpl; intros ->.
  reflexivity.
Qed.

(** The four ways a read of the cache can go. *)
Lemma getCachedRates_missing (w : world) :
  denied (localStorage w) = false ->
  truthy_item (items (localStorage w) !! CACHE_KEY) = false
  \/ truthy_item (items (localStorage w) !! LAST_UPDATE_KEY) = false ->
  getCachedRates w = (Ok JS.Null, w).
Proof.
  destruct w as [[m d q] c o t]; simpl; intros -> H.
  unfold getCachedRates; run; simpl.
  destruct H as [-> | ->]; simpl; [reflexivity |].
  now rewrite orb_true_r.
Qed.

Lemma getCachedRates_corrupt (w : world) (text lastUpdate : string) :
  holds w text lastUpdate ->
  JS.parse text = None ->
  getCachedRates w =
    (Ok JS.Null, with_event (ConsoleError "Error reading cache:" JS.SyntaxError) w).
Proof.
  intros (Hd & Hc & Hc' & Hl & Hl') Hp.
  destruct w as [[m d q] c o t]; simpl in *; subst d.
  unfold getCachedRates; run; simpl.
  rewrite Hc, Hl; simpl.
  rewrite !eqb_empty_false by assumption; simpl.
  now rewrite Hp.
Qed.

Lemma getCachedRates_fresh (w : world) (cache : JS.value) :
  fresh w cache ->
  getCachedRates w =
    (Ok cache, with_event (ConsoleLog "Using cached exchange rates") w).
Proof.
  intros (text & lu & (Hd & Hc & Hc' & Hl & Hl') & Hp & He).
  destruct w as [[m d q] c o t]; simpl in *; subst d.
  unfold getCachedRates; run; simpl.
  rewrite Hc, Hl; simpl.
  rewrite !eqb_empty_false by assumption; simpl.
  rewrite Hp; cbn [clock]. unfold expired in He; cbn [clock] in He.
  now rewrite He.
Qed.

Lemma getCachedRates_expired (w : world) (text lastUpdate : string) (cache : JS.value) :
  holds w text lastUpdate ->
  JS.parse text = Some cache ->
  expired (clock w) lastUpdate = true ->
  getCachedRates w =
    (Ok JS.Null,
     with_event (ConsoleLog "Currency cache cleared")
       (with_items (purge (items (localStorage w)))
          (with_event (ConsoleLog "Cache expired, removing old data") w))).
Proof.
  intros (Hd & Hc & Hc' & Hl & Hl') Hp He.
  destruct w as [[m d q] c o t]; simpl in *; subst d.
  unfold getCachedRates; run; simpl.
  rewrite Hc, Hl; simpl.
  rewrite !eqb_empty_false by assumption; simpl.
  rewrite Hp; cbn [clock]. unfold expired in He; cbn [clock] in He.
  now rewrite He.
Qed.

Lemma getCachedRates_denied (w : world) :
  denied (localStorage w) = true ->
  getCachedRates w =
    (Ok JS.Null, with_event (ConsoleError "Error reading cache:" JS.SecurityError) w).
Proof.
  destruct w as [[m d q] c o t]; simpl; intros ->. reflexivity.
Qed.

Lemma truthy_item_inv (o : option string) :
  truthy_item o = true -> exists s, o = Some s /\ s <> "".
Proof.
  destruct o as [s |]; simpl; [| discriminate].
  intros H. exists s. split; [reflexivity |].
  intros ->. discriminate.
Qed.

(** Every storage state falls under one of the cases of [reading]. *)
Lemma reading_total (w : world) : reading w.
Proof.
  destruct (denied (localStorage w)) eqn:Hd; [now apply ReadDenied |].
  destruct (truthy_item (items (localStorage w) !! CACHE_KEY)) eqn:Hc;
    [| apply ReadMissing; auto].
  destruct (truthy_item (items (localStorage w) !! LAST_UPDATE_KEY)) eqn:Hl;
    [| apply ReadMissing; auto].
  apply truthy_item_inv in Hc as (text & Hc & Hc').
  apply truthy_item_inv in Hl as (lu & Hl & Hl').
  assert (holds w text lu) as Hh by (repeat split; assumption).
  destruct (JS.parse text) as [cache |] eqn:Hp; [| now apply (ReadCorrupt w text lu)].
  destruct (expired (clock w) lu) eqn:He.
  - now apply (ReadExpired w text lu cache).
  - apply (ReadFresh w cache). now exists text, lu.
Qed.

(** [stale] singles out the expired case. *)
Lemma stale_expired (w : world) (text lastUpdate : string) (cache : JS.value) :
  holds w text lastUpdate -> JS.parse text = Some cache ->
  expired (clock w) lastUpdate = true -> stale w = true.
Proof.
  intros (Hd & Hc & Hc' & Hl & Hl') Hp He. unfold stale.
  rewrite Hd, Hc, Hl, Hp, He, !eqb_empty_false by assumption. reflexivity.
Qed.

Lemma stale_fresh (w : world) (cache : JS.value) : fresh w cache -> stale w = false.
Proof.
  intros (text & lu & (Hd & Hc & Hc' & Hl & Hl') & Hp & He). unfold stale.
  rewrite Hd, Hc, Hl, Hp, He, !eqb_empty_false by assumption. reflexivity.
Qed.

Lemma stale_corrupt (w : world) (text lastUpdate : string) :
  holds w text lastUpdate -> JS.parse text = None -> stale w = false.
Proof.
  intros (Hd & Hc & Hc' & Hl & Hl') Hp. unfold stale.
  rewrite Hd, Hc, Hl, Hp, !eqb_empty_false by assumption. reflexivity.
Qed.

Lemma stale_missing (w : world) :
  truthy_item (items (localStorage w) !! CACHE_KEY) = false
  \/ truthy_item (items (localStorage w) !! LAST_UPDATE_KEY) = false ->
  stale w = false.
Proof.
  unfold stale, truthy_item. intros H.
  destruct (denied (localStorage w)); [reflexivity |]. simpl.
  destruct (items (localStorage w) !! CACHE_KEY) as [text |]; [| reflexivity].
  destruct (items (localStorage w) !! LAST_UPDATE_KEY) as [lu |]; [| reflexivity].
  destruct H as [H | H]; apply negb_false_iff in H; rewrite H; simpl;
    [reflexivity |].
  now rewrite andb_false_r.
Qed.

(** A read never throws, and touches storage only to purge a stale
    snapshot. *)
Lemma getCachedRates_effect (w : world) :
  exists cache,
    (getCachedRates w).1 = Ok cache
    /\ clock (getCachedRates w).2 = clock w
    /\ (if stale w
        then cache = JS.Null
             /\ denied (localStorage (getCachedRates w).2) = false
             /\ items (localStorage (getCachedRates w).2)
                = purge (items (localStorage w))
        else localStorage (getCachedRates w).2 = localStorage w)
    /\ (JS.truthy cache = true ->
        exceeds (age (clock w) (items (localStorage w) !! LAST_UPDATE_KEY)) maxAge
        = false).
Proof.
  destruct (reading_total w) as
    [Hd | Hd Hm | text lu Hh Hp | cache Hf | text lu cache Hh Hp He].
  - rewrite (getCachedRates_denied w Hd). exists JS.Null.
    unfold stale. rewrite Hd. simpl. repeat split; try reflexivity. discriminate.
  - rewrite (getCachedRates_missing w Hd Hm), (stale_missing w Hm).
    exists JS.Null. simpl. repeat split; try reflexivity. discriminate.
  - rewrite (getCachedRates_corrupt w text lu Hh Hp), (stale_corrupt w text lu Hh Hp).
    exists JS.Null. simpl. repeat split; try reflexivity. discriminate.
  - rewrite (getCachedRates_fresh w cache Hf), (stale_fresh w cache Hf).
    exists cache. simpl. repeat split; try reflexivity.
    destruct Hf as (text & lu & (_ & _ & _ & -> & _) & _ & He). intros _. exact He.
  - rewrite (getCachedRates_expired w text lu cache Hh Hp He),
            (stale_expired w text lu cache Hh Hp He).
    exists JS.Null. simpl. destruct Hh as (Hd & _).
    repeat split; try reflexivity; try assumption. discriminate.
Qed.

(** ** The runtime on known values *)

Example number_to_string_samples :
  map JS.number_to_string
    [0.92; 83; 0.1; 1e21; 123456789012345680000; 1.5e-7; 0.000001; 5e-324;
     (-0.5); 90.21739130434783; 1700000000000]%float
  = ["0.92"; "83"; "0.1"; "1e+21"; "123456789012345680000"; "1.5e-7";
     "0.000001"; "5e-324"; "-0.5"; "90.21739130434783"; "1700000000000"].
Proof. vm_compute; reflexivity. Qed.

Example parseInt_samples :
  map JS.parseInt ["1700000000000"; "  -42px"; "0x1F"; "12.5"; "abc"; ""]
  = [Some 1700000000000; Some (-42); Some 31; Some 12; None; None].
Proof. vm_compute; reflexivity. Qed.

Example toISOString_samples :
  map JS.toISOString [1700000000000; 0; -1; 951782400000; 8640000000000001]
  = [Some "2023-11-14T22:13:20.000Z"; Some "1970-01-01T00:00:00.000Z";
     Some "1969-12-31T23:59:59.999Z"; Some "2000-02-29T00:00:00.000Z"; None].
Proof. vm_compute; reflexivity. Qed.

Example parse_rejects :
  map JS.parse [""; "{oops"; "01"; "1."; "[1,]"; "nul"; "1 2"; "["]
  = [None; None; None; None; None; None; None; None].
Proof. vm_compute; reflexivity. Qed.

Example parse_accepts :
  map JS.parse ["null"; " [1, -2.5e3, true, [], {}] "; "1e999"]
  = [Some JS.Null;
     Some (JS.Array [JS.Number 1; JS.Number (-2500); JS.Bool true;
                     JS.Array []; JS.Object []]);
     Some (JS.Number infinity)].
Proof. vm_compute; reflexivity. Qed.

(** What [saveRatesToCache] wrote reads back as the record it built. *)
Example sample_round_trip :
  JS.parse <$> items (localStorage sample_world) !! CACHE_KEY
  = Some (Some sample_cache)
  /\ items (localStorage sample_world) !! LAST_UPDATE_KEY = Some "1700000000000"
  /\ JS.parse (JS.stringify sample_cache) = Some sample_cache.
Proof. repeat split; vm_compute; reflexivity. Qed.

(** ** Expiry and purge *)

Lemma maxAge_value : maxAge = 86400000.
Proof. reflexivity. Qed.

Lemma expired_iff (now t : Z) (lastUpdate : string) :
  JS.parseInt lastUpdate = Some t ->
  expired now lastUpdate = true <-> maxAge < now - t.
Proof.
  intros H. unfold expired, age, parseInt_item, exceeds. simpl. rewrite H.
  apply Z.ltb_lt.
Qed.

Lemma purge_lookup (m : gmap string string) :
  purge m !! CACHE_KEY = None
  /\ purge m !! LAST_UPDATE_KEY = None
  /\ purge m !! OFFLINE_STATUS_KEY = None.
Proof.
  unfold purge. repeat split.
  - rewrite lookup_delete_ne by discriminate.
    rewrite lookup_delete_ne by discriminate. apply lookup_delete_eq.
  - rewrite lookup_delete_ne by discriminate. apply lookup_delete_eq.
  - apply lookup_delete_eq.
Qed.

(** With the cache key gone, [getCacheInfo] reports no cache. *)
Lemma getCacheInfo_no_snapshot (w : world) :
  denied (localStorage w) = false ->
  items (localStorage w) !! CACHE_KEY = None ->
  exists info, (getCacheInfo w).1 = Ok info /\ hasCache info = false.
Proof.
  intros Hd Hc.
  assert (getCachedRates w = (Ok JS.Null, w)) as Hr.
  { apply getCachedRates_missing; [exact Hd |]. left. now rewrite Hc. }
  unfold getCacheInfo. run. rewrite Hd, Hr. simpl.
  eexists. split; reflexivity.
Qed.

(** C4. A snapshot stored more than 24 hours ago (its last-update stamp
    [t] lies more than [maxAge] milliseconds before the clock) is answered
    with [null] by [getCachedRates], which removes the three persisted keys
    (snapshot, last update, offline flag) and nothing else; whatever happens
    to the clock afterwards, [getCacheInfo] on that storage reports no
    cache. *)
Theorem C4_expired_snapshot_purged
    (w : world) (text lastUpdate : string) (cache : JS.value) (t : Z) :
  holds w text lastUpdate ->
  JS.parse text = Some cache ->
  JS.parseInt lastUpdate = Some t ->
  maxAge < clock w - t ->
  (getCachedRates w).1 = Ok JS.Null
  /\ items (localStorage (getCachedRates w).2) = purge (items (localStorage w))
  /\ items (localStorage (getCachedRates w).2) !! CACHE_KEY = None
  /\ items (localStorage (getCachedRates w).2) !! LAST_UPDATE_KEY = None
  /\ items (localStorage (getCachedRates w).2) !! OFFLINE_STATUS_KEY = None
  /\ forall w' : world,
       localStorage w' = localStorage (getCachedRates w).2 ->
       exists info, (getCacheInfo w').1 = Ok info /\ hasCache info = false.
Proof.
  intros Hh Hp Ht Hlt.
  assert (expired (clock w) lastUpdate = true) as He
    by (apply (expired_iff _ t); assumption).
  rewrite (getCachedRates_expired w text lastUpdate cache Hh Hp He). simpl.
  destruct (purge_lookup (items (localStorage w))) as (H1 & H2 & H3).
  repeat split; try assumption.
  intros w' Hw'. destruct Hh as (Hd & _).
  apply getCacheInfo_no_snapshot; rewrite Hw'; simpl; assumption.
Qed.

Lemma C4_witness :
  (getCachedRates day_later_world).1 = Ok JS.Null
  /\ items (localStorage (getCachedRates day_later_world).2) !! CACHE_KEY = None.
Proof.
  refine (let H := C4_expired_snapshot_purged day_later_world _ _ sample_cache
                     sample_time _ _ _ _ in
          conj (proj1 H) (proj1 (proj2 (proj2 H)))).
  - split; [vm_compute; reflexivity |].
    split; [vm_compute; reflexivity |].
    split; [discriminate |].
    split; [vm_compute; reflexivity | discriminate].
  - vm_compute; reflexivity.
  - vm_compute; reflexivity.
  - vm_compute; reflexivity.
Defined.

(** C5 (as amended). When the stored snapshot record does not parse,
    [getCachedRates] returns [null] and leaves storage as it is: the
    record, the last-update stamp and the offline flag all stay. *)
Theorem C5_corrupt_snapshot_kept (w : world) (text : string) :
  items (localStorage w) !! CACHE_KEY = Some text ->
  JS.parse text = None ->
  (getCachedRates w).1 = Ok JS.Null
  /\ localStorage (getCachedRates w).2 = localStorage w.
Proof.
  intros Hc Hp.
  destruct (reading_total w) as
    [Hd | Hd Hm | text' lu Hh Hp' | cache Hf | text' lu cache Hh Hp' He].
  - rewrite (getCachedRates_denied w Hd). split; reflexivity.
  - rewrite (getCachedRates_missing w Hd Hm). split; reflexivity.
  - rewrite (getCachedRates_corrupt w text' lu Hh Hp'). split; reflexivity.
  - destruct Hf as (text' & lu & (_ & Hc' & _) & Hp' & _). congruence.
  - destruct Hh as (_ & Hc' & _). congruence.
Qed.

Lemma C5_witness :
  (getCachedRates corrupt_world).1 = Ok JS.Null
  /\ localStorage (getCachedRates corrupt_world).2 = localStorage corrupt_world.
Proof.
  apply (C5_corrupt_snapshot_kept corrupt_world "{oops").
  - vm_compute; reflexivity.
  - vm_compute; reflexivity.
Defined.

(** C5, the claim as stated fails: the record ["{oops"] does not parse,
    the read returns [null], and afterwards the record and the last-update
    stamp are still in storage (a purge would have removed them). *)
Lemma C5_counterexample :
  JS.parse "{oops" = None
  /\ items (localStorage corrupt_world) !! CACHE_KEY = Some "{oops"
  /\ (getCachedRates corrupt_world).1 = Ok JS.Null
  /\ items (localStorage (getCachedRates corrupt_world).2) !! CACHE_KEY = Some "{oops"
  /\ items (localStorage (getCachedRates corrupt_world).2) !! LAST_UPDATE_KEY
     = Some "1700000000000".
Proof. repeat split; vm_compute; reflexivity. Qed.

(** C10. With a snapshot record in storage that parses, [getCachedRates]
    still returns [null] when the last-update key is missing; and when that
    key is there, whether the record is returned depends on that key and
    the clock alone ([expired] reads nothing else), not on the [timestamp]
    inside the record. *)
Theorem C10_expiry_from_last_update_key
    (w : world) (text : string) (cache : JS.value) :
  denied (localStorage w) = false ->
  items (localStorage w) !! CACHE_KEY = Some text ->
  text <> "" ->
  JS.parse text = Some cache ->
  (items (localStorage w) !! LAST_UPDATE_KEY = None ->
   getCachedRates w = (Ok JS.Null, w))
  /\ (forall lastUpdate : string,
        items (localStorage w) !! LAST_UPDATE_KEY = Some lastUpdate ->
        lastUpdate <> "" ->
        (getCachedRates w).1
        = Ok (if expired (clock w) lastUpdate then JS.Null else cache)).
Proof.
  intros Hd Hc Hc' Hp. split.
  - intros Hl. apply getCachedRates_missing; [exact Hd |].
    right. now rewrite Hl.
  - intros lu Hl Hl'.
    assert (holds w text lu) as Hh by (repeat split; assumption).
    destruct (expired (clock w) lu) eqn:He.
    + now rewrite (getCachedRates_expired w text lu cache Hh Hp He).
    + rewrite (getCachedRates_fresh w cache); [reflexivity |].
      now exists text, lu.
Qed.

Lemma C10_witness : getCachedRates orphan_world = (Ok JS.Null, orphan_world).
Proof.
  refine (proj1 (C10_expiry_from_last_update_key orphan_world _ sample_cache
                   _ _ _ _) _).
  - vm_compute; reflexivity.
  - vm_compute; reflexivity.
  - discriminate.
  - vm_compute; reflexivity.
  - vm_compute; reflexivity.
Defined.

(** The record's own [timestamp] plays no part: two days after it was
    written the record is still returned, the last-update key being
    recent. *)
Example embedded_timestamp_ignored :
  JS.get sample_cache "timestamp" = JS.Number (JS.number_of_Z sample_time)
  /\ clock restamped_world - sample_time = 2 * maxAge
  /\ (getCachedRates restamped_world).1 = Ok sample_cache.
Proof. repeat split; vm_compute; reflexivity. Qed.

(** C3 (as amended). [getCacheInfo] reads the cache through
    [getCachedRates]: on a stale snapshot (one that parses and is expired)
    it removes the three persisted keys and reports no cache, expired; in
    every other storage state it leaves storage as it is.  Its [isExpired]
    is the comparison [getCachedRates] makes, applied when a cache came
    back, and [true] otherwise. *)
Theorem C3_getCacheInfo_effect (w : world) :
  (forall info : cacheInfo,
     (getCacheInfo w).1 = Ok info ->
     isExpired info
     = if hasCache info
       then exceeds (age (clock w) (items (localStorage w) !! LAST_UPDATE_KEY)) maxAge
       else true)
  /\ (if stale w
      then items (localStorage (getCacheInfo w).2) = purge (items (localStorage w))
           /\ exists info : cacheInfo,
                (getCacheInfo w).1 = Ok info
                /\ hasCache info = false /\ isExpired info = true
      else localStorage (getCacheInfo w).2 = localStorage w).
Proof.
  destruct (getCachedRates_effect w) as (cache & Hr & Hk & Hs & _).
  destruct (getCachedRates w) as [r w'] eqn:Hg. simpl in Hr, Hk, Hs. subst r.
  unfold getCacheInfo. run.
  destruct (denied (localStorage w)) eqn:Hd.
  - simpl. split; [discriminate |].
    unfold stale. rewrite Hd. reflexivity.
  - rewrite Hg. simpl. split.
    + intros info [= <-]. simpl. now rewrite Hk.
    + destruct (stale w).
      * destruct Hs as (-> & _ & Hs). split; [exact Hs |].
        eexists. repeat split.
      * exact Hs.
Qed.

(** C3, the claim as stated fails: on the sample storage a day and a
    millisecond later the snapshot record is there before the call to
    [getCacheInfo] and none of the three keys is there after it. *)
Lemma C3_counterexample :
  is_Some (items (localStorage day_later_world) !! CACHE_KEY)
  /\ items (localStorage day_later_world) !! LAST_UPDATE_KEY = Some "1700000000000"
  /\ items (localStorage (getCacheInfo day_later_world).2) !! CACHE_KEY = None
  /\ items (localStorage (getCacheInfo day_later_world).2) !! LAST_UPDATE_KEY = None
  /\ localStorage (getCacheInfo day_later_world).2 <> localStorage day_later_world.
Proof.
  repeat split; try (vm_compute; reflexivity).
  - vm_compute. eexists; reflexivity.
  - intros H.
    assert (items (localStorage (getCacheInfo day_later_world).2) !! LAST_UPDATE_KEY
            = items (localStorage day_later_world) !! LAST_UPDATE_KEY) as H'
      by (now rewrite H).
    vm_compute in H'. discriminate.
Qed.

(** ** Rate resolution *)

Lemma get_table_value (rs : table) (k : string) :
  JS.get (table_value rs) k
  = match rate_of rs k with Some x => JS.Number x | None => JS.Undefined end.
Proof.
  unfold table_value, JS.get.
  induction rs as [| [k' x] rs IH]; simpl; [reflexivity |].
  destruct (String.eqb k' k); [reflexivity | exact IH].
Qed.

Lemma truthy_get_table_value (rs : table) (k : string) :
  JS.truthy (JS.get (table_value rs) k) = usable rs k.
Proof.
  rewrite get_table_value. unfold usable.
  destruct (rate_of rs k); reflexivity.
Qed.

Lemma usable_rate (rs : table) (k : string) :
  usable rs k = true ->
  rate_of rs k = Some (rate rs k) /\ JS.falsy_number (rate rs k) = false.
Proof.
  unfold usable, rate. destruct (rate_of rs k) as [x |]; simpl; [| discriminate].
  intros H. split; [reflexivity |]. now apply negb_true_iff.
Qed.

Lemma divide_numbers (x y : float) (w : world) :
  divide (JS.Number x) (JS.Number y) w
  = (Ok (JS.Number (x / y)%float), with_event (Divide x y) w).
Proof. reflexivity. Qed.

(** A record whose [rates] is an object is itself an object, hence
    truthy. *)
Lemma truthy_of_rates (cache : JS.value) (fields : list (string * JS.value)) :
  JS.get cache "rates" = JS.Object fields -> JS.truthy cache = true.
Proof. destruct cache; simpl; intros H; try discriminate H; reflexivity. Qed.

(** What [getCachedRate] does on a fresh snapshot with numeric rates. *)
Lemma getCachedRate_numeric
    (w : world) (cache : JS.value) (B : string) (rs : table) (from to : string) :
  fresh w cache ->
  JS.get cache "baseCurrency" = JS.Str B ->
  JS.get cache "rates" = table_value rs ->
  getCachedRate from to w
  = (Ok (rate_value (getRate_reader B rs from to)),
     let w' := with_event (ConsoleLog "Using cached exchange rates") w in
     match division_of B rs from to with
     | Some (n, d) => with_event (Divide n d) w'
     | None => w'
     end).
Proof.
  intros Hf Hb Hr.
  unfold getCachedRate. run. rewrite (getCachedRates_fresh w cache Hf).
  rewrite (truthy_of_rates cache _ Hr), Hb, Hr. cbn [negb orb JS.truthy table_value].
  fold (table_value rs). rewrite !truthy_get_table_value.
  unfold getRate_reader, division_of. cbn [JS.strict_eq_string].
  destruct (String.eqb B from && usable rs to) eqn:H1.
  - apply andb_true_iff in H1 as [_ H1]. apply usable_rate in H1 as [H1 _].
    rewrite get_table_value, H1. reflexivity.
  - destruct (String.eqb B to && usable rs from) eqn:H2.
    + apply andb_true_iff in H2 as [_ H2]. apply usable_rate in H2 as [H2 _].
      rewrite get_table_value, H2. apply divide_numbers.
    + destruct (usable rs from && usable rs to) eqn:H3; [| reflexivity].
      apply andb_true_iff in H3 as [H3 H4].
      apply usable_rate in H3 as [H3 _]. apply usable_rate in H4 as [H4 _].
      rewrite !get_table_value, H3, H4. apply divide_numbers.
Qed.

(** A strictly positive double is neither zero nor [NaN]. *)
Lemma positive_not_falsy (x : float) :
  PrimFloat.ltb 0 x = true -> JS.falsy_number x = false.
Proof.
  unfold JS.falsy_number, is_zero, is_nan.
  rewrite FloatAxioms.ltb_spec, !FloatAxioms.eqb_spec.
  change (Prim2SF 0) with (S754_zero false).
  change (Prim2SF zero) with (S754_zero false).
  destruct (Prim2SF x) as [s | s | | s m e]; simpl; try discriminate.
  - destruct s; [discriminate | reflexivity].
  - destruct s; [discriminate |]. intros _.
    unfold SFeqb, SFcompare.
    now rewrite Z.compare_refl, Pos.compare_cont_refl.
Qed.

Lemma usable_cached (rs : table) (k : string) :
  positive_rates rs = true -> usable rs k = cached rs k.
Proof.
  unfold usable, cached, positive_rates.
  induction rs as [| [k' x] rs IH]; simpl; [reflexivity |].
  intros H. apply andb_true_iff in H as [Hx Hrs].
  destruct (String.eqb k' k); [| exact (IH Hrs)].
  now rewrite (positive_not_falsy x Hx).
Qed.

Lemma getRate_reader_spec (B : string) (rs : table) (from to : string) :
  positive_rates rs = true ->
  getRate_reader B rs from to = getRate_spec B rs from to.
Proof.
  intros H. unfold getRate_reader, getRate_spec.
  now rewrite !(usable_cached rs _ H).
Qed.

(** C1. On a stored, unexpired snapshot with base currency [B] and
    positive rates, [getCachedRate from to] resolves in this order, first
    match wins: [rates[to]] if [from] is [B] and [to] is a cached key; else
    [1 / rates[from]] if [to] is [B] and [from] is a cached key; else
    [rates[to] / rates[from]] if both are cached keys; else [null]. *)
Theorem C1_resolution_order
    (w : world) (cache : JS.value) (B : string) (rs : table) (from to : string) :
  fresh w cache ->
  JS.get cache "baseCurrency" = JS.Str B ->
  JS.get cache "rates" = table_value rs ->
  positive_rates rs = true ->
  JS.currency_code from = true ->
  JS.currency_code to = true ->
  (getCachedRate from to w).1 = Ok (rate_value (getRate_spec B rs from to)).
Proof.
  intros Hf Hb Hr Hpos _ _.
  rewrite (getCachedRate_numeric w cache B rs from to Hf Hb Hr).
  cbn [fst]. now rewrite (getRate_reader_spec B rs from to Hpos).
Qed.

Lemma sample_world_fresh : fresh sample_world sample_cache.
Proof.
  eexists _, _. split; [| split].
  - split; [vm_compute; reflexivity |].
    split; [vm_compute; reflexivity |].
    split; [discriminate |].
    split; [vm_compute; reflexivity | discriminate].
  - vm_compute; reflexivity.
  - vm_compute; reflexivity.
Defined.

Lemma C1_witness :
  (getCachedRate "EUR" "INR" sample_world).1
  = Ok (rate_value (getRate_spec "USD" sample_rates "EUR" "INR")).
Proof.
  apply (C1_resolution_order sample_world sample_cache "USD" sample_rates
           "EUR" "INR" sample_world_fresh); reflexivity.
Defined.

(** The scenario of the specification: 83 for USD to INR, its inverse for
    INR to USD, and the cross rate for EUR to INR. *)
Example sample_rates_resolved :
  (getCachedRate "USD" "INR" sample_world).1 = Ok (JS.Number 83)
  /\ (getCachedRate "INR" "USD" sample_world).1 = Ok (JS.Number (1 / 83))
  /\ (getCachedRate "EUR" "INR" sample_world).1 = Ok (JS.Number (83 / 0.92)).
Proof. repeat split; vm_compute; reflexivity. Qed.

(** C9. On a stored, unexpired snapshot whose rates object has no entry
    for its own base currency [B], [getCachedRate B B] returns [null]. *)
Theorem C9_base_to_base_is_absent
    (w : world) (cache : JS.value) (B : string) (fields : list (string * JS.value)) :
  fresh w cache ->
  JS.get cache "baseCurrency" = JS.Str B ->
  JS.get cache "rates" = JS.Object fields ->
  JS.assoc B fields = None ->
  JS.currency_code B = true ->
  (getCachedRate B B w).1 = Ok JS.Null.
Proof.
  intros Hf Hb Hr Hn _.
  unfold getCachedRate. run. rewrite (getCachedRates_fresh w cache Hf).
  rewrite (truthy_of_rates cache _ Hr), Hb, Hr.
  cbn [negb orb JS.truthy JS.get]. rewrite Hn. simpl.
  rewrite andb_false_r. reflexivity.
Qed.

Lemma C9_witness : (getCachedRate "USD" "USD" sample_world).1 = Ok JS.Null.
Proof.
  eapply (C9_base_to_base_is_absent sample_world sample_cache "USD" _
            sample_world_fresh); reflexivity.
Defined.

(** What [saveRatesToCache] writes on healthy storage with a valid clock:
    the record, whatever the rates are, and the last-update stamp. *)
Lemma saveRatesToCache_stores
    (ratesData : JS.value) (base : string) (w : world) (iso : string) :
  healthy (localStorage w) ->
  JS.toISOString (clock w) = Some iso ->
  items (localStorage (saveRatesToCache ratesData base w).2) !! CACHE_KEY
  = Some (JS.stringify
            (JS.Object [("rates", ratesData);
                        ("baseCurrency", JS.Str base);
                        ("timestamp", JS.Number (JS.number_of_Z (clock w)));
                        ("lastUpdate", JS.Str iso)])).
Proof.
  intros [Hd Hq] Hi.
  destruct w as [[m d q] c o t]; simpl in *; subst d q.
  unfold saveRatesToCache, Date_toISOString. run. simpl. rewrite Hi. simpl.
  rewrite lookup_insert_ne by discriminate. apply lookup_insert_eq.
Qed.

(** C7 (as amended). On a stored, unexpired snapshot with numeric rates,
    [getCachedRate] treats a zero-valued entry as no rate: every division
    it performs has the cached rate of [from] as divisor and that rate is
    neither zero nor [NaN], and a zero-valued entry asked for directly (from
    the base currency) yields [null].  Nothing is checked beyond that: any
    other entry, a negative one included, is returned as it is, and
    [saveRatesToCache] writes whatever rates it is given. *)
Theorem C7_zero_rate_is_no_rate
    (w : world) (cache : JS.value) (B : string) (rs : table) (from to : string) :
  fresh w cache ->
  JS.get cache "baseCurrency" = JS.Str B ->
  JS.get cache "rates" = table_value rs ->
  JS.currency_code from = true ->
  JS.currency_code to = true ->
  (forall n d : float,
     In (Divide n d) (trace (getCachedRate from to w).2) ->
     In (Divide n d) (trace w)
     \/ (rate_of rs from = Some d /\ is_zero d = false /\ is_nan d = false))
  /\ (forall x : float,
        String.eqb B from = true -> rate_of rs to = Some x ->
        (getCachedRate from to w).1
        = Ok (if JS.falsy_number x then JS.Null else JS.Number x))
  /\ (forall (ratesData : JS.value) (base iso : string) (w0 : world),
        healthy (localStorage w0) ->
        JS.toISOString (clock w0) = Some iso ->
        items (localStorage (saveRatesToCache ratesData base w0).2) !! CACHE_KEY
        = Some (JS.stringify
                  (JS.Object [("rates", ratesData);
                              ("baseCurrency", JS.Str base);
                              ("timestamp", JS.Number (JS.number_of_Z (clock w0)));
                              ("lastUpdate", JS.Str iso)]))).
Proof.
  intros Hf Hb Hr _ _.
  rewrite (getCachedRate_numeric w cache B rs from to Hf Hb Hr).
  split; [| split].
  - intros n d. unfold division_of. cbn [snd].
    assert (forall n' d', usable rs from = true -> d' = rate rs from ->
            In (Divide n d)
               (trace (with_event (Divide n' d')
                         (with_event (ConsoleLog "Using cached exchange rates") w))) ->
            In (Divide n d) (trace w)
            \/ (rate_of rs from = Some d /\ is_zero d = false /\ is_nan d = false))
      as Hdiv.
    { intros n' d' Hu -> Hin. simpl in Hin.
      rewrite !in_app_iff in Hin. simpl in Hin.
      destruct Hin as [[Hin | [Hin | []]] | [Hin | []]];
        [now left | discriminate Hin |].
      injection Hin as _ <-. right.
      apply usable_rate in Hu as [Hu Hz]. split; [exact Hu |].
      now apply orb_false_iff in Hz. }
    assert (In (Divide n d)
               (trace (with_event (ConsoleLog "Using cached exchange rates") w)) ->
            In (Divide n d) (trace w)) as Hlog.
    { simpl. rewrite in_app_iff. simpl.
      intros [Hin | [Hin | []]]; [exact Hin | discriminate Hin]. }
    destruct (String.eqb B from && usable rs to); [now left; apply Hlog |].
    destruct (String.eqb B to && usable rs from) eqn:H2.
    + apply andb_true_iff in H2 as [_ H2]. now apply Hdiv.
    + destruct (usable rs from && usable rs to) eqn:H3; [| now left; apply Hlog].
      apply andb_true_iff in H3 as [H3 _]. now apply Hdiv.
  - intros x HB Hx. cbn [fst]. unfold getRate_reader, usable, rate.
    rewrite HB, Hx. cbn [andb default].
    destruct (JS.falsy_number x) eqn:Hz; cbn [negb]; [| reflexivity].
    destruct (String.eqb B to) eqn:HBt; cbn [andb].
    + apply String.eqb_eq in HB, HBt. subst from to.
      rewrite Hx, Hz. reflexivity.
    + rewrite andb_false_r. reflexivity.
  - intros ratesData base iso w0. apply saveRatesToCache_stores.
Qed.

Lemma zero_world_fresh :
  fresh zero_world
    (JS.Object [("rates", table_value [("EUR", 0%float)]);
                ("baseCurrency", JS.Str "USD");
                ("timestamp", JS.Number 1700000000000);
                ("lastUpdate", JS.Str "2023-11-14T22:13:20.000Z")]).
Proof.
  eexists _, _. split; [| split].
  - split; [vm_compute; reflexivity |].
    split; [vm_compute; reflexivity |].
    split; [discriminate |].
    split; [vm_compute; reflexivity | discriminate].
  - vm_compute; reflexivity.
  - vm_compute; reflexivity.
Defined.

(** With the entry EUR = 0 cached for base USD, USD to EUR has no rate. *)
Lemma C7_witness : (getCachedRate "USD" "EUR" zero_world).1 = Ok JS.Null.
Proof.
  exact (proj1 (proj2 (C7_zero_rate_is_no_rate zero_world _ "USD" [("EUR", 0%float)]
                         "USD" "EUR" zero_world_fresh
                         eq_refl eq_refl eq_refl eq_refl))
           0%float eq_refl eq_refl).
Defined.

(** C7, the claim as stated fails: the table with EUR = -0.5 is written
    by [saveRatesToCache] as it is, and [getCachedRate] then returns the
    negative rate and divides by it. *)
Lemma C7_counterexample :
  PrimFloat.ltb (-0.5) 0 = true
  /\ JS.parse <$> items (localStorage negative_world) !! CACHE_KEY
     = Some (Some (JS.Object [("rates", table_value [("EUR", (-0.5)%float)]);
                              ("baseCurrency", JS.Str "USD");
                              ("timestamp", JS.Number 1700000000000);
                              ("lastUpdate", JS.Str "2023-11-14T22:13:20.000Z")]))
  /\ (getCachedRate "USD" "EUR" negative_world).1 = Ok (JS.Number (-0.5))
  /\ (getCachedRate "EUR" "USD" negative_world).1 = Ok (JS.Number (-2)).
Proof. repeat split; vm_compute; reflexivity. Qed.

(** ** The offline flag and the controller *)

Lemma setOfflineStatus_healthy (b : bool) (w : world) :
  healthy (localStorage w) ->
  setOfflineStatus b w
  = (Ok tt,
     with_items (<[OFFLINE_STATUS_KEY := if b then "true" else "false"]>
                   (items (localStorage w))) w).
Proof.
  intros [Hd Hq]. destruct w as [[m d q] c o t]; simpl in *; subst d q.
  reflexivity.
Qed.

Lemma getOfflineStatus_granted (w : world) :
  denied (localStorage w) = false ->
  getOfflineStatus w
  = (Ok (match items (localStorage w) !! OFFLINE_STATUS_KEY with
         | Some text => String.eqb text "true"
         | None => false
         end), w).
Proof.
  destruct w as [[m d q] c o t]; simpl; intros ->. reflexivity.
Qed.

(** C8 (as amended). On healthy storage, [exitOfflineMode] with the
    tracked connectivity at connected turns offline mode off and persists
    the flag as false; at disconnected it changes neither the state nor
    storage and writes one console line.  The caller gets [undefined] on
    both paths. *)
Theorem C8_exitOfflineMode (h : hook) (w : world) :
  healthy (localStorage w) ->
  (isOnline h = true ->
   (exitOfflineMode h w).1 = Ok (JS.Undefined, setIsOfflineMode false h)
   /\ mode_of (setIsOfflineMode false h) = Online
   /\ items (localStorage (exitOfflineMode h w).2) !! OFFLINE_STATUS_KEY
      = Some "false"
   /\ (getOfflineStatus (exitOfflineMode h w).2).1 = Ok false)
  /\ (isOnline h = false ->
      exitOfflineMode h w
      = (Ok (JS.Undefined, h),
         with_event
           (ConsoleLog "Cannot exit offline mode - no network connection") w)).
Proof.
  intros Hh. split; intros Ho; unfold exitOfflineMode; rewrite Ho.
  - run. rewrite (setOfflineStatus_healthy false w Hh). cbn [fst snd].
    destruct Hh as [Hd Hq].
    repeat split.
    + simpl. apply lookup_insert_eq.
    + rewrite getOfflineStatus_granted by (simpl; exact Hd).
      simpl. now rewrite lookup_insert_eq.
  - reflexivity.
Qed.

Lemma C8_witness :
  exitOfflineMode {| isOnline := false; isOfflineMode := true |} (empty_world sample_time)
  = (Ok (JS.Undefined, {| isOnline := false; isOfflineMode := true |}),
     with_event (ConsoleLog "Cannot exit offline mode - no network connection")
       (empty_world sample_time)).
Proof.
  exact (proj2 (C8_exitOfflineMode {| isOnline := false; isOfflineMode := true |}
                  (empty_world sample_time) (conj eq_refl eq_refl)) eq_refl).
Defined.

(** C8, the claim as stated fails: the caller receives the same value,
    [undefined], when the action is refused (disconnected) as when it is
    applied (connected); the refusal only shows in the console. *)
Lemma C8_counterexample :
  (exitOfflineMode {| isOnline := false; isOfflineMode := true |}
     (empty_world sample_time)).1
  = Ok (JS.Undefined, {| isOnline := false; isOfflineMode := true |})
  /\ (exitOfflineMode {| isOnline := true; isOfflineMode := true |}
        (empty_world sample_time)).1
     = Ok (JS.Undefined, {| isOnline := true; isOfflineMode := false |}).
Proof. split; vm_compute; reflexivity. Qed.

(** C2 (what the code does). On healthy storage the [offline] event
    puts the hook in offline mode with connectivity lost ([OfflineAuto]) and
    persists the flag as true.  When the [online] event follows with nothing
    in between, the hook is still in offline mode and the persisted flag is
    still true: the [online] listener reads the persisted flag to decide,
    and the [offline] listener has just set it. *)
Theorem C2_no_auto_recovery (h : hook) (w : world) :
  healthy (localStorage w) ->
  ((handleOffline h w).1 = Ok {| isOnline := false; isOfflineMode := true |}
   /\ mode_of {| isOnline := false; isOfflineMode := true |} = OfflineAuto
   /\ items (localStorage (handleOffline h w).2) !! OFFLINE_STATUS_KEY = Some "true")
  /\ (loss_then_restore h w).1 = Ok {| isOnline := true; isOfflineMode := true |}
  /\ mode_of {| isOnline := true; isOfflineMode := true |} = OfflineManual
  /\ items (localStorage (loss_then_restore h w).2) !! OFFLINE_STATUS_KEY
     = Some "true".
Proof.
  intros Hh. unfold loss_then_restore, handleOffline, handleOnline. run.
  rewrite (setOfflineStatus_healthy true w Hh). destruct Hh as [Hd Hq].
  rewrite getOfflineStatus_granted by (simpl; exact Hd).
  simpl. rewrite lookup_insert_eq. simpl. repeat split.
  apply lookup_insert_eq.
Qed.

Lemma C2_witness :
  mode_of {| isOnline := true; isOfflineMode := false |} = Online
  /\ (getOfflineStatus (empty_world sample_time)).1 = Ok false
  /\ (loss_then_restore {| isOnline := true; isOfflineMode := false |}
        (empty_world sample_time)).1
     = Ok {| isOnline := true; isOfflineMode := true |}
  /\ items (localStorage
              (loss_then_restore {| isOnline := true; isOfflineMode := false |}
                 (empty_world sample_time)).2) !! OFFLINE_STATUS_KEY
     = Some "true".
Proof.
  refine (let H := C2_no_auto_recovery {| isOnline := true; isOfflineMode := false |}
                     (empty_world sample_time) (conj eq_refl eq_refl) in
          conj eq_refl
            (conj eq_refl
               (conj (proj1 (proj2 H)) (proj2 (proj2 (proj2 H)))))).
Defined.

(** ** Storage that refuses access *)

(** C6 (what the code does). When storage refuses access,
    [getCacheInfo] throws: its first read of the last-update key is outside
    any [try]. *)
Theorem C6_getCacheInfo_throws (w : world) :
  denied (localStorage w) = true ->
  getCacheInfo w = (Throw JS.SecurityError, w).
Proof.
  intros Hd. unfold getCacheInfo. run. now rewrite Hd.
Qed.

Lemma C6_witness : getCacheInfo blocked_world = (Throw JS.SecurityError, blocked_world).
Proof. exact (C6_getCacheInfo_throws blocked_world eq_refl). Defined.

(** The other operations catch what storage throws. *)
Lemma try_catch_total {A : Type} (body : M A) (handler : JS.exn -> M A) :
  (forall e w, exists a, (handler e w).1 = Ok a) ->
  forall w, exists a, (try_catch body handler w).1 = Ok a.
Proof.
  intros Hh w. unfold try_catch.
  destruct (body w) as [[a | e] w']; [now exists a | apply Hh].
Qed.

Lemma storage_operations_total (w : world) :
  (forall ratesData base, (saveRatesToCache ratesData base w).1 = Ok tt)
  /\ (clearCache w).1 = Ok tt
  /\ (exists cache, (getCachedRates w).1 = Ok cache)
  /\ (forall b, (setOfflineStatus b w).1 = Ok tt)
  /\ (exists b, (getOfflineStatus w).1 = Ok b).
Proof.
  assert (forall (body : M unit) text, (try_catch body (console_error text) w).1 = Ok tt)
    as Hunit.
  { intros body text. unfold try_catch.
    destruct (body w) as [[[] | e] w']; reflexivity. }
  repeat split.
  - intros ratesData base. apply Hunit.
  - apply Hunit.
  - destruct (getCachedRates_effect w) as (cache & H & _). now exists cache.
  - intros b. apply Hunit.
  - apply try_catch_total. intros e w'. now exists false.
Qed.

(* ===================================================================== *)
(** * Further properties of the cache *)
(* ===================================================================== *)

Import Controller.

Lemma purge_other (m : gmap string string) (k : string) :
  k <> CACHE_KEY -> k <> LAST_UPDATE_KEY -> k <> OFFLINE_STATUS_KEY ->
  purge m !! k = m !! k.
Proof.
  intros H1 H2 H3. unfold purge.
  now rewrite !lookup_delete_ne by congruence.
Qed.

Lemma purge_idempotent (m : gmap string string) : purge (purge m) = purge m.
Proof.
  apply map_eq. intros k.
  destruct (purge_lookup m) as (H1 & H2 & H3).
  destruct (purge_lookup (purge m)) as (H1' & H2' & H3').
  destruct (decide (k = CACHE_KEY)) as [-> | N1]; [congruence |].
  destruct (decide (k = LAST_UPDATE_KEY)) as [-> | N2]; [congruence |].
  destruct (decide (k = OFFLINE_STATUS_KEY)) as [-> | N3]; [congruence |].
  now apply purge_other.
Qed.

(** With no record under the cache key, no pair has a rate. *)
Lemma hasRate_no_snapshot (w : world) (from to : string) :
  denied (localStorage w) = false ->
  items (localStorage w) !! CACHE_KEY = None ->
  hasRate from to w = (Ok false, w).
Proof.
  intros Hd Hc.
  assert (getCachedRates w = (Ok JS.Null, w)) as Hr.
  { apply getCachedRates_missing; [exact Hd |]. left. now rewrite Hc. }
  unfold hasRate, getCachedRate. run. now rewrite Hr.
Qed.

(** X1. On storage that grants access, [clearCache] removes the three keys
    of the cache and leaves every other key as it was; afterwards, at any
    later time, a read of the cache returns [null], no pair has a rate and
    the offline flag reads false; clearing again changes nothing. *)
Theorem clearCache_resets (w : world) :
  denied (localStorage w) = false ->
  (clearCache w).1 = Ok tt
  /\ (forall k : string,
        k <> CACHE_KEY -> k <> LAST_UPDATE_KEY -> k <> OFFLINE_STATUS_KEY ->
        items (localStorage (clearCache w).2) !! k = items (localStorage w) !! k)
  /\ (forall (t : Z) (c : bool),
        (getCachedRates (later t c (clearCache w).2)).1 = Ok JS.Null)
  /\ (forall from to : string, (hasRate from to (clearCache w).2).1 = Ok false)
  /\ (getOfflineStatus (clearCache w).2).1 = Ok false
  /\ localStorage (clearCache (clearCache w).2).2 = localStorage (clearCache w).2.
Proof.
  intros Hd. rewrite (clearCache_granted w Hd).
  destruct (purge_lookup (items (localStorage w))) as (H1 & H2 & H3).
  split; [reflexivity |]. split; [| split; [| split; [| split]]].
  - intros k N1 N2 N3. simpl. now apply purge_other.
  - intros t c. rewrite getCachedRates_missing; [reflexivity | exact Hd |].
    left. simpl. now rewrite H1.
  - intros from to. rewrite hasRate_no_snapshot; [reflexivity | exact Hd | exact H1].
  - rewrite getOfflineStatus_granted by exact Hd. simpl. now rewrite H3.
  - rewrite clearCache_granted by exact Hd. simpl.
    now rewrite purge_idempotent.
Qed.

Lemma clearCache_resets_witness :
  (hasRate "USD" "INR" sample_world).1 = Ok true
  /\ (hasRate "USD" "INR" (clearCache sample_world).2).1 = Ok false.
Proof.
  split; [vm_compute; reflexivity |].
  exact (proj1 (proj2 (proj2 (proj2
           (clearCache_resets sample_world eq_refl)))) "USD" "INR").
Defined.

(** X2. On storage that grants access, the offline flag read after
    [setOfflineStatus b] is [b] when the write fits the quota, and the
    previous flag otherwise (the failure is swallowed); no other key is
    touched either way. *)
Theorem offline_flag_round_trip (w : world) (b : bool) :
  denied (localStorage w) = false ->
  (getOfflineStatus (setOfflineStatus b w).2).1
  = Ok (if within (quota (localStorage w))
             (<[OFFLINE_STATUS_KEY := if b then "true" else "false"]>
                (items (localStorage w)))
        then b else persisted w)
  /\ (forall k : string,
        k <> OFFLINE_STATUS_KEY ->
        items (localStorage (setOfflineStatus b w).2) !! k
        = items (localStorage w) !! k).
Proof.
  intros Hd. destruct w as [[m d q] c o t]; simpl in Hd; subst d.
  unfold setOfflineStatus, persisted. run. cbn [localStorage items denied quota].
  destruct (within q _) eqn:Hq; cbn.
  - split.
    + rewrite getOfflineStatus_granted by reflexivity. cbn.
      rewrite lookup_insert_eq. now destruct b.
    + intros k Hk. now rewrite lookup_insert_ne by congruence.
  - split; [| reflexivity].
    now rewrite getOfflineStatus_granted by reflexivity.
Qed.

Lemma offline_flag_round_trip_witness :
  (getOfflineStatus (setOfflineStatus true (empty_world sample_time)).2).1 = Ok true.
Proof.
  exact (proj1 (offline_flag_round_trip (empty_world sample_time) true eq_refl)).
Defined.

(** X3. [saveRatesToCache] is two writes.  When the record fits the quota
    and the stamp after it does not, the call still returns normally, the
    new record is in storage and the last-update key is what it was; if
    there was none, the record just written cannot be read back. *)
Theorem save_half_written
    (w : world) (ratesData : JS.value) (base iso : string) :
  denied (localStorage w) = false ->
  JS.toISOString (clock w) = Some iso ->
  within (quota (localStorage w))
    (<[CACHE_KEY := JS.stringify (record ratesData base (clock w) iso)]>
       (items (localStorage w))) = true ->
  within (quota (localStorage w))
    (<[LAST_UPDATE_KEY := stamp (clock w)]>
       (<[CACHE_KEY := JS.stringify (record ratesData base (clock w) iso)]>
          (items (localStorage w)))) = false ->
  (saveRatesToCache ratesData base w).1 = Ok tt
  /\ items (localStorage (saveRatesToCache ratesData base w).2)
     = <[CACHE_KEY := JS.stringify (record ratesData base (clock w) iso)]>
         (items (localStorage w))
  /\ (items (localStorage w) !! LAST_UPDATE_KEY = None ->
      (getCachedRates (saveRatesToCache ratesData base w).2).1 = Ok JS.Null).
Proof.
  intros Hd Hi H1 H2.
  destruct w as [[m d q] c o t]; simpl in *; subst d.
  unfold saveRatesToCache, Date_toISOString, record, stamp in *. run. simpl.
  rewrite Hi. simpl. rewrite H1. simpl. rewrite H2. simpl.
  repeat split.
  intros Hl. rewrite getCachedRates_missing; [reflexivity | | ].
  - reflexivity.
  - right. simpl. rewrite lookup_insert_ne by discriminate. now rewrite Hl.
Qed.

Lemma save_half_written_witness :
  (saveRatesToCache (table_value sample_rates) "USD" crowded_world).1 = Ok tt
  /\ items (localStorage
              (saveRatesToCache (table_value sample_rates) "USD" crowded_world).2)
       !! LAST_UPDATE_KEY = None
  /\ (getCachedRates (saveRatesToCache (table_value sample_rates) "USD"
                        crowded_world).2).1 = Ok JS.Null.
Proof.
  assert (JS.toISOString (clock crowded_world) = Some "2023-11-14T22:13:20.000Z")
    as Hi by (vm_compute; reflexivity).
  pose proof (save_half_written crowded_world (table_value sample_rates) "USD"
                "2023-11-14T22:13:20.000Z" eq_refl Hi) as H.
  specialize (H ltac:(vm_compute; reflexivity) ltac:(vm_compute; reflexivity)).
  split; [exact (proj1 H) |].
  split; [vm_compute; reflexivity |].
  apply (proj2 (proj2 H)). vm_compute; reflexivity.
Defined.

(** The text of a record is never empty. *)
Lemma stringify_record_nonempty (ratesData : JS.value) (base : string) (now : Z)
    (iso : string) :
  JS.stringify (record ratesData base now iso) <> "".
Proof.
  unfold JS.stringify, record. cbn [JS.serialize default].
  discriminate.
Qed.

(** X4. Whatever storage held before, on healthy storage a read of the
    cache within the expiry window after [saveRatesToCache] returns what
    the written record parses to, provided the stamp reads back as the
    clock. *)
Theorem save_then_read
    (w : world) (ratesData : JS.value) (base iso : string) (cache : JS.value) :
  healthy (localStorage w) ->
  JS.toISOString (clock w) = Some iso ->
  JS.parse (JS.stringify (record ratesData base (clock w) iso)) = Some cache ->
  JS.parseInt (stamp (clock w)) = Some (clock w) ->
  forall (t : Z) (c : bool),
    t - clock w <= maxAge ->
    (getCachedRates (later t c (saveRatesToCache ratesData base w).2)).1 = Ok cache.
Proof.
  intros [Hd Hq] Hi Hp Hs t c Ht.
  assert (fresh (later t c (saveRatesToCache ratesData base w).2) cache) as Hf.
  { exists (JS.stringify (record ratesData base (clock w) iso)), (stamp (clock w)).
    destruct w as [[m d q] k o tr]; simpl in *; subst d q.
    unfold saveRatesToCache, Date_toISOString, record, stamp in *. run. simpl.
    rewrite Hi. simpl.
    split; [| split; [exact Hp |]].
    - unfold holds. cbn [later localStorage items denied].
      split; [reflexivity |].
      split; [rewrite lookup_insert_ne by discriminate; apply lookup_insert_eq |].
      split; [apply (stringify_record_nonempty ratesData base k iso) |].
      split; [apply lookup_insert_eq |].
      intros E. rewrite E in Hs. discriminate Hs.
    - cbn [later clock].
      destruct (expired t (JS.number_to_string (JS.number_of_Z k))) eqn:He;
        [| reflexivity].
      apply (expired_iff t k _ Hs) in He. lia. }
  now rewrite (getCachedRates_fresh _ cache Hf).
Qed.

Lemma save_then_read_witness :
  (getCachedRates
     (later (sample_time + maxAge) false
        (saveRatesToCache (table_value sample_rates) "USD" corrupt_world).2)).1
  = Ok sample_cache.
Proof.
  apply (save_then_read corrupt_world (table_value sample_rates) "USD"
           "2023-11-14T22:13:20.000Z" sample_cache).
  - split; reflexivity.
  - vm_compute; reflexivity.
  - vm_compute; reflexivity.
  - vm_compute; reflexivity.
  - vm_compute. discriminate.
Defined.

(** [hasRate] on a fresh snapshot with numeric rates: whether the reader's
    resolution finds a rate. *)
Lemma hasRate_numeric
    (w : world) (cache : JS.value) (B : string) (rs : table) (from to : string) :
  fresh w cache ->
  JS.get cache "baseCurrency" = JS.Str B ->
  JS.get cache "rates" = table_value rs ->
  (hasRate from to w).1
  = Ok (String.eqb B from && usable rs to
        || String.eqb B to && usable rs from
        || usable rs from && usable rs to).
Proof.
  intros Hf Hb Hr. unfold hasRate. run.
  rewrite (getCachedRate_numeric w cache B rs from to Hf Hb Hr).
  unfold getRate_reader.
  destruct (String.eqb B from && usable rs to); [reflexivity |].
  destruct (String.eqb B to && usable rs from); [reflexivity |].
  destruct (usable rs from && usable rs to); reflexivity.
Qed.

(** X5. On a stored, unexpired snapshot with numeric rates, a pair has a
    cached rate exactly when the swapped pair has one. *)
Theorem hasRate_symmetric
    (w : world) (cache : JS.value) (B : string) (rs : table) (from to : string) :
  fresh w cache ->
  JS.get cache "baseCurrency" = JS.Str B ->
  JS.get cache "rates" = table_value rs ->
  JS.currency_code from = true ->
  JS.currency_code to = true ->
  (hasRate from to w).1 = (hasRate to from w).1.
Proof.
  intros Hf Hb Hr _ _.
  rewrite (hasRate_numeric w cache B rs from to Hf Hb Hr),
          (hasRate_numeric w cache B rs to from Hf Hb Hr).
  f_equal.
  destruct (String.eqb B from), (String.eqb B to),
           (usable rs from), (usable rs to); reflexivity.
Qed.

Lemma hasRate_symmetric_witness :
  (hasRate "INR" "USD" sample_world).1 = (hasRate "USD" "INR" sample_world).1.
Proof.
  apply (hasRate_symmetric sample_world sample_cache "USD" sample_rates
           "INR" "USD" sample_world_fresh); reflexivity.
Defined.



(* ===================================================================== *)
(** * Further properties of the controller *)
(* ===================================================================== *)

Lemma persisted_status (w : world) :
  denied (localStorage w) = false -> getOfflineStatus w = (Ok (persisted w), w).
Proof. intros Hd. now rewrite getOfflineStatus_granted. Qed.

Lemma in_step_set (h : hook) (w : world) (b : bool) :
  healthy (localStorage w) ->
  in_step (setIsOfflineMode b h)
    (with_items (<[OFFLINE_STATUS_KEY := if b then "true" else "false"]>
                   (items (localStorage w))) w)
  /\ forall e h',
       isOfflineMode h' = b ->
       in_step h'
         (with_event e
            (with_items (<[OFFLINE_STATUS_KEY := if b then "true" else "false"]>
                           (items (localStorage w))) w)).
Proof.
  intros [Hd Hq].
  assert (forall tr,
            persisted
              {| localStorage :=
                   {| items := <[OFFLINE_STATUS_KEY := if b then "true" else "false"]>
                                 (items (localStorage w));
                      denied := denied (localStorage w);
                      quota := quota (localStorage w) |};
                 clock := clock w; onLine := onLine w; trace := tr |} = b) as Hp.
  { intros tr. unfold persisted. cbn. rewrite lookup_insert_eq. now destruct b. }
  split.
  - split; [split; assumption |]. apply Hp.
  - intros e h' Hh'. split; [split; assumption |]. rewrite Hh'. apply Hp.
Qed.

(** One event or action keeps the hook and the flag in step. *)
Lemma step_in_step (s : signal) (h : hook) (w : world) :
  in_step h w ->
  exists h' w', step s h w = (Ok h', w') /\ in_step h' w'.
Proof.
  intros [Hh Hp]. pose proof Hh as [Hd Hq].
  destruct s; unfold step.
  - (* networkLost *)
    unfold handleOffline. run. rewrite (setOfflineStatus_healthy true w Hh).
    eexists _, _. split; [reflexivity |].
    now apply (in_step_set h w true Hh).
  - (* networkRestored *)
    unfold handleOnline. run. cbn [fst snd].
    rewrite persisted_status by exact Hd.
    change (persisted (_ : world)) with (persisted w). rewrite Hp.
    destruct h as [o m]. cbn in Hp |- *.
    destruct m; cbn [negb];
      (eexists _, _; split; [reflexivity |]);
      (split; [split; assumption |]);
      change (persisted (_ : world)) with (persisted w); rewrite Hp; reflexivity.
  - (* userToggle *)
    unfold toggleOfflineMode. run.
    rewrite (setOfflineStatus_healthy (negb (isOfflineMode h)) w Hh).
    eexists _, _. split; [reflexivity |].
    now apply (in_step_set h w (negb (isOfflineMode h)) Hh).
  - (* userExitOffline *)
    unfold exitOfflineMode. destruct (isOnline h); run.
    + rewrite (setOfflineStatus_healthy false w Hh).
      eexists _, _. split; [reflexivity |].
      now apply (in_step_set h w false Hh).
    + eexists _, _. split; [reflexivity |]. split; [split; assumption | exact Hp].
Qed.

Lemma run_in_step (ss : list signal) (h : hook) (w : world) :
  in_step h w ->
  exists h' w', run ss h w = (Ok h', w') /\ in_step h' w'.
Proof.
  revert h w. induction ss as [| s ss IH]; intros h w Hin.
  - exists h, w. split; [reflexivity | exact Hin].
  - destruct (step_in_step s h w Hin) as (h1 & w1 & Hs & Hin1).
    destruct (IH h1 w1 Hin1) as (h' & w' & Hr & Hin').
    exists h', w'. split; [| exact Hin'].
    cbn [run]. unfold mbind, M_bind. now rewrite Hs.
Qed.

(** X7. On healthy storage the hook starts with [isOnline] at
    [navigator.onLine] and [isOfflineMode] at the persisted flag, and after
    any sequence of [offline] and [online] events, toggles and exits that
    follows, none of them throws and [isOfflineMode] still equals the
    persisted flag. *)
Theorem hook_and_flag_in_step (w : world) :
  healthy (localStorage w) ->
  exists h0 : hook,
    useNetworkStatus w = (Ok h0, w)
    /\ isOnline h0 = onLine w
    /\ isOfflineMode h0 = persisted w
    /\ forall ss : list signal,
         exists (h' : hook) (w' : world),
           run ss h0 w = (Ok h', w')
           /\ (getOfflineStatus w').1 = Ok (isOfflineMode h').
Proof.
  intros Hh. pose proof Hh as [Hd Hq].
  exists {| isOnline := onLine w; isOfflineMode := persisted w |}.
  split; [| split; [reflexivity | split; [reflexivity |]]].
  - unfold useNetworkStatus. run. now rewrite persisted_status.
  - intros ss.
    destruct (run_in_step ss {| isOnline := onLine w; isOfflineMode := persisted w |} w)
      as (h' & w' & Hr & [[Hd' _] Hp']).
    { split; [exact Hh | reflexivity]. }
    exists h', w'. split; [exact Hr |].
    rewrite persisted_status by exact Hd'. now rewrite Hp'.
Qed.

Lemma hook_and_flag_in_step_witness :
  exists h0 : hook,
    useNetworkStatus (empty_world sample_time) = (Ok h0, empty_world sample_time)
    /\ isOnline h0 = onLine (empty_world sample_time)
    /\ isOfflineMode h0 = persisted (empty_world sample_time)
    /\ forall ss : list signal,
         exists (h' : hook) (w' : world),
           run ss h0 (empty_world sample_time) = (Ok h', w')
           /\ (getOfflineStatus w').1 = Ok (isOfflineMode h').
Proof.
  exact (hook_and_flag_in_step (empty_world sample_time) (conj eq_refl eq_refl)).
Defined.

(** X8. When the hook and the persisted flag are in step, the [online]
    event only records that the network is back: offline mode stays as it
    is, in either direction, and storage is not touched. *)
Theorem online_event_keeps_mode (h : hook) (w : world) :
  in_step h w ->
  handleOnline h w
  = (Ok (setIsOnline true h),
     with_event (ConsoleLog "Network connection restored") w).
Proof.
  intros [[Hd Hq] Hp]. unfold handleOnline. run. cbn [fst snd].
  rewrite persisted_status by exact Hd.
  change (persisted (_ : world)) with (persisted w). rewrite Hp.
  destruct h as [o m]. cbn. destruct m; reflexivity.
Qed.

Lemma online_event_keeps_mode_witness :
  (handleOnline {| isOnline := false; isOfflineMode := false |}
     (empty_world sample_time)).1
  = Ok {| isOnline := true; isOfflineMode := false |}.
Proof.
  rewrite (online_event_keeps_mode {| isOnline := false; isOfflineMode := false |}
             (empty_world sample_time)); [reflexivity |].
  split; [split; reflexivity | reflexivity].
Defined.

(** X9. The purge takes the persisted flag with it.  After [clearCache], or
    after a read that found the snapshot expired, the next [online] event
    turns offline mode off, whatever the hook's state was. *)
Theorem online_event_after_purge (h : hook) (w : world) :
  denied (localStorage w) = false ->
  (handleOnline h (clearCache w).2).1
  = Ok {| isOnline := true; isOfflineMode := false |}
  /\ (stale w = true ->
      (handleOnline h (getCachedRates w).2).1
      = Ok {| isOnline := true; isOfflineMode := false |}).
Proof.
  intros Hd.
  assert (forall w' : world,
            denied (localStorage w') = false ->
            items (localStorage w') !! OFFLINE_STATUS_KEY = None ->
            (handleOnline h w').1 = Ok {| isOnline := true; isOfflineMode := false |})
    as Hgone.
  { intros w' Hd' Hn. unfold handleOnline. run. cbn [fst snd].
    rewrite persisted_status by exact Hd'. unfold persisted. cbn.
    now rewrite Hn. }
  destruct (purge_lookup (items (localStorage w))) as (_ & _ & H3).
  split.
  - apply Hgone; rewrite (clearCache_granted w Hd); [exact Hd | exact H3].
  - intros Hs. destruct (getCachedRates_effect w) as (cache & _ & _ & He & _).
    rewrite Hs in He. destruct He as (_ & Hd' & Hi).
    apply Hgone; [exact Hd' | now rewrite Hi].
Qed.

Lemma online_event_after_purge_witness :
  (handleOnline {| isOnline := false; isOfflineMode := true |}
     (clearCache (loss_then_restore {| isOnline := true; isOfflineMode := false |}
                    (empty_world sample_time)).2).2).1
  = Ok {| isOnline := true; isOfflineMode := false |}.
Proof.
  exact (proj1 (online_event_after_purge {| isOnline := false; isOfflineMode := true |}
                  (loss_then_restore {| isOnline := true; isOfflineMode := false |}
                     (empty_world sample_time)).2 eq_refl)).
Defined.

(* ===================================================================== *)
(** * Properties of [fetchAndCacheAllRates] *)
(* ===================================================================== *)

Import Page RatesFetch Scene.

Ltac run_page :=
  cbv beta delta [mbind mret P_bind P_ret attempt raise lift emit member] iota.

Lemma saveRatesToCache_returns (ratesData : JS.value) (base : string) (w : world) :
  exists w', saveRatesToCache ratesData base w = (Ok tt, w').
Proof.
  destruct (storage_operations_total w) as (H & _).
  specialize (H ratesData base).
  destruct (saveRatesToCache ratesData base w) as [[[] | e] w']; simpl in H.
  - now exists w'.
  - discriminate.
Qed.

(** X10. When its request has settled, [fetchAndCacheAllRates] never
    throws.  It returns true exactly for a reply whose body has [result] at
    ["success"] and a truthy [conversion_rates]; storage then changes as
    [saveRatesToCache] changes it for those rates (so not at all when that
    write fails, the result being true all the same).  For any other reply
    it returns false, leaves the window as it is and sends one error to the
    console. *)
Theorem fetch_settle_outcome (base : string) (reply : settled) (p : page) :
  (fetchAndCacheAllRates_settle base reply p).1 = Done (accepted reply)
  /\ (if accepted reply
      then localStorage (window (fetchAndCacheAllRates_settle base reply p).2)
           = localStorage (saveRatesToCache (rates_of reply) base (window p)).2
           /\ outputs (fetchAndCacheAllRates_settle base reply p).2 = outputs p
      else window (fetchAndCacheAllRates_settle base reply p).2 = window p
           /\ exists error,
                outputs (fetchAndCacheAllRates_settle base reply p).2
                = (outputs p
                   ++ [ConsoleErrorWith "Error fetching rates for cache:" error])%list).
Proof.
  unfold fetchAndCacheAllRates_settle.
  destruct reply as [error | | error | data]; run_page; cbn [accepted];
    try (split; [reflexivity | split; [reflexivity | eexists; reflexivity]]).
  destruct data; cbn [accepted rates_of];
    try (split; [reflexivity | split; [reflexivity | eexists; reflexivity]]);
    match goal with
    | |- context [JS.strict_eq_string ?r "success" && ?t] =>
        destruct (JS.strict_eq_string r "success" && t) eqn:Hacc
    end;
    try (split; [reflexivity | split; [reflexivity | eexists; reflexivity]]);
    match goal with
    | |- context [saveRatesToCache ?r base (window p)] =>
        destruct (saveRatesToCache_returns r base (window p)) as (w' & Hs);
        rewrite Hs
    end;
    (split; [reflexivity | split; reflexivity]).
Qed.

(** A reply is accepted while storage refuses every write: the result is
    true and nothing is cached. *)
Example fetch_accepted_but_not_cached :
  (fetchAndCacheAllRates_settle "USD" sample_reply (page_of blocked_world)).1
  = Done true
  /\ items (localStorage
              (window (fetchAndCacheAllRates_settle "USD" sample_reply
                         (page_of blocked_world)).2)) = ∅.
Proof. split; vm_compute; reflexivity. Qed.

(* ===================================================================== *)
(** * Properties of the conversion history *)
(* ===================================================================== *)

Import App.

(** X11. [clearHistory] empties all of [localStorage], not only the
    history: with both storages granting access it returns normally, the
    history is the empty array, and the cached rates and the offline flag
    are gone with everything else, so that at any later time a read of the
    cache returns [null], no pair has a rate and the flag reads false. *)
Theorem clearHistory_wipes_cache (a : app) (w : world) :
  denied (localStorage w) = false ->
  denied (sessionStorage a) = false ->
  (clearHistory a w).1.1 = Ok tt
  /\ conversionHistory (clearHistory a w).1.2 = JS.Array []
  /\ items (localStorage (clearHistory a w).2) = ∅
  /\ items (sessionStorage (clearHistory a w).1.2) = ∅
  /\ (forall (t : Z) (c : bool),
        (getCachedRates (later t c (clearHistory a w).2)).1 = Ok JS.Null)
  /\ (forall from to : string, (hasRate from to (clearHistory a w).2).1 = Ok false)
  /\ (getOfflineStatus (clearHistory a w).2).1 = Ok false.
Proof.
  intros Hd Hs. unfold clearHistory, clear. cbn [setConversionHistory sessionStorage].
  rewrite Hd, Hs. cbn.
  split; [reflexivity |]. split; [reflexivity |]. split; [reflexivity |].
  split; [reflexivity |]. split; [| split].
  - intros t c. rewrite getCachedRates_missing; [reflexivity | reflexivity |].
    left. reflexivity.
  - intros from to. rewrite hasRate_no_snapshot; reflexivity.
  - rewrite getOfflineStatus_granted by reflexivity. reflexivity.
Qed.

Lemma clearHistory_wipes_cache_witness :
  (hasRate "USD" "INR" sample_world).1 = Ok true
  /\ (hasRate "USD" "INR" (clearHistory fresh_app sample_world).2).1 = Ok false.
Proof.
  split; [vm_compute; reflexivity |].
  exact (proj1 (proj2 (proj2 (proj2 (proj2 (proj2
           (clearHistory_wipes_cache fresh_app sample_world eq_refl eq_refl))))))
           "USD" "INR").
Defined.

(** X12. A saved history that is not JSON is removed when the component
    mounts: [loadHistory] keeps the state it was given, logs the error and
    deletes the history key, and no other key (the cached rates among
    them) is touched. *)
Theorem corrupt_history_removed (a : app) (w : world) (text : string) :
  denied (localStorage w) = false ->
  items (localStorage w) !! HISTORY_KEY = Some text ->
  text <> "" ->
  JS.parse text = None ->
  (loadHistory a w).1 = Ok a
  /\ items (localStorage (loadHistory a w).2)
     = delete HISTORY_KEY (items (localStorage w))
  /\ trace (loadHistory a w).2
     = (trace w ++ [ConsoleError "Error parsing saved history:" JS.SyntaxError])%list.
Proof.
  intros Hd Hk Hne Hp.
  destruct w as [[m d q] c o t]; simpl in *; subst d.
  unfold loadHistory. run. simpl. rewrite Hk. simpl.
  rewrite (eqb_empty_false text Hne). simpl. rewrite Hp. simpl.
  repeat split.
Qed.

Lemma corrupt_history_removed_witness :
  (loadHistory fresh_app broken_history_world).1 = Ok fresh_app
  /\ items (localStorage (loadHistory fresh_app broken_history_world).2)
     = delete HISTORY_KEY (items (localStorage broken_history_world)).
Proof.
  refine (let H := corrupt_history_removed fresh_app broken_history_world "[oops"
                     eq_refl _ _ _ in conj (proj1 H) (proj1 (proj2 H))).
  - vm_compute; reflexivity.
  - discriminate.
  - vm_compute; reflexivity.
Defined.

(** X13. The history survives a reload: on healthy storage, what
    [saveHistory] wrote is what [loadHistory] sets as the history, namely
    the value the written text parses to; the write touches no other
    key. *)
Theorem history_round_trip (a a0 : app) (w : world) (v : JS.value) :
  healthy (localStorage w) ->
  JS.parse (JS.stringify (conversionHistory a)) = Some v ->
  (saveHistory a w).1 = Ok tt
  /\ (loadHistory a0 (saveHistory a w).2).1 = Ok (setConversionHistory v a0)
  /\ (forall k : string,
        k <> HISTORY_KEY ->
        items (localStorage (saveHistory a w).2) !! k = items (localStorage w) !! k).
Proof.
  intros [Hd Hq] Hp.
  assert (JS.stringify (conversionHistory a) <> "") as Hne.
  { intros E. rewrite E in Hp. discriminate Hp. }
  destruct w as [[m d q] c o t]; simpl in *; subst d q.
  unfold saveHistory, loadHistory. run. simpl.
  rewrite lookup_insert_eq. simpl.
  rewrite (eqb_empty_false _ Hne). simpl. rewrite Hp. simpl.
  repeat split. intros k Hk. now rewrite lookup_insert_ne by congruence.
Qed.

Lemma history_round_trip_witness :
  (loadHistory fresh_app
     (saveHistory (setConversionHistory (JS.Array [JS.Str "5 USD = 415.00 INR"])
                     fresh_app) sample_world).2).1
  = Ok (setConversionHistory (JS.Array [JS.Str "5 USD = 415.00 INR"]) fresh_app).
Proof.
  refine (proj1 (proj2 (history_round_trip _ fresh_app sample_world _ _ _))).
  - split; reflexivity.
  - vm_compute; reflexivity.
Defined.



(* ===================================================================== *)
(** * Properties of the conversion form *)
(* ===================================================================== *)

(** Split on whatever a [match] or an [if] of the goal looks at. *)
Ltac split_cases :=
  repeat match goal with
         | |- context [match ?x with _ => _ end] =>
             lazymatch x with
             | context [match _ with _ => _ end] => fail
             | _ => destruct x eqn:?
             end
         end.

Ltac close_outputs :=
  first [ reflexivity
        | symmetry; apply app_nil_r
        | rewrite <- !app_assoc; reflexivity ].

(** X15. In offline mode a call of [getExchangeRate] is complete when it
    returns and has sent no request: nothing is left pending, the loading
    flag is as it was before the call, the amount and the codes are
    untouched, and no [fetch] is among what the call sent out.  This holds
    whatever storage holds. *)
Theorem offline_call_stays_local
    (flag : bool) (env : ConverterForm.surroundings) (f : ConverterForm.form)
    (p : page) :
  ConverterForm.isOfflineMode env = true ->
  exists (f' : ConverterForm.form) (added : list output),
    (ConverterForm.getExchangeRate_call flag env f p).1 = Done (f', None)
    /\ outputs (ConverterForm.getExchangeRate_call flag env f p).2
       = (outputs p ++ added)%list
    /\ no_request added = true
    /\ ConverterForm.isLoading f' = ConverterForm.isLoading f
    /\ ConverterForm.amount f' = ConverterForm.amount f
    /\ ConverterForm.fromCurrency f' = ConverterForm.fromCurrency f
    /\ ConverterForm.toCurrency f' = ConverterForm.toCurrency f.
Proof.
  intros Hoff.
  unfold ConverterForm.getExchangeRate_call, ConverterForm.from_cache,
    ConverterForm.conclude, ConverterForm.explain, ConverterForm.speakResult,
    product_toFixed, Date_now, console_log.
  rewrite Hoff. run_page.
  destruct (ConverterForm.isLoading f) eqn:Hload.
  - exists f, []. cbn. rewrite app_nil_r, Hload. repeat split.
  - destruct (getCachedRate (ConverterForm.fromCurrency f)
                (ConverterForm.toCurrency f) (window p)) as [[rate | e] w'];
      cbn [window outputs fst snd]; split_cases; cbn [fst snd outputs];
      eexists _, _; (split; [reflexivity |]); (split; [close_outputs |]);
      repeat split.
Qed.

Lemma offline_call_stays_local_witness :
  exists (f' : ConverterForm.form) (added : list output),
    (ConverterForm.getExchangeRate_call true offline_mode sample_form
       (page_of sample_world)).1 = Done (f', None)
    /\ outputs (ConverterForm.getExchangeRate_call true offline_mode sample_form
                  (page_of sample_world)).2
       = (outputs (page_of sample_world) ++ added)%list
    /\ no_request added = true
    /\ ConverterForm.isLoading f' = ConverterForm.isLoading sample_form
    /\ ConverterForm.amount f' = ConverterForm.amount sample_form
    /\ ConverterForm.fromCurrency f' = ConverterForm.fromCurrency sample_form
    /\ ConverterForm.toCurrency f' = ConverterForm.toCurrency sample_form.
Proof.
  exact (offline_call_stays_local true offline_mode sample_form
           (page_of sample_world) eq_refl).
Defined.

(** X16. In offline mode, on a stored, unexpired snapshot with numeric
    rates where the pair resolves to a truthy rate [r], a conversion the
    user asked for shows the amount, the codes and [(r * amount).toFixed(2)]
    with the mark [(Cached)], clears the loading flag, hands one entry
    flagged as from the cache to the history and speaks the text; storage is
    not changed. *)
Theorem offline_call_uses_cache
    (env : ConverterForm.surroundings) (f : ConverterForm.form) (p : page)
    (cache : JS.value) (B : string) (rs : table) (r : float) :
  ConverterForm.isOfflineMode env = true ->
  ConverterForm.isLoading f = false ->
  fresh (window p) cache ->
  JS.get cache "baseCurrency" = JS.Str B ->
  JS.get cache "rates" = table_value rs ->
  JS.currency_code (ConverterForm.fromCurrency f) = true ->
  JS.currency_code (ConverterForm.toCurrency f) = true ->
  getRate_reader B rs (ConverterForm.fromCurrency f) (ConverterForm.toCurrency f)
  = Some r ->
  JS.falsy_number r = false ->
  (ConverterForm.getExchangeRate_call true env f p).1
  = Done (shown (ConverterForm.result_text f (converted r f) true) f, None)
  /\ outputs (ConverterForm.getExchangeRate_call true env f p).2
     = (outputs p
        ++ AddToHistory
             (entry f (clock (window p)) (converted r f)
                (ConverterForm.result_text f (converted r f) true) true)
           :: spoken env (ConverterForm.result_text f (converted r f) true))%list
  /\ localStorage (window (ConverterForm.getExchangeRate_call true env f p).2)
     = localStorage (window p).
Proof.
  intros Hoff Hload Hf Hb Hr _ _ Hrate Htruthy.
  unfold ConverterForm.getExchangeRate_call, ConverterForm.from_cache.
  rewrite Hoff, Hload. run_page.
  rewrite (getCachedRate_numeric (window p) cache B rs _ _ Hf Hb Hr), Hrate.
  cbn [rate_value JS.truthy]. rewrite Htruthy. cbn [negb window outputs].
  unfold ConverterForm.conclude, ConverterForm.speakResult, product_toFixed,
    Date_now, console_log, shown, converted, entry, spoken.
  run_page. cbn [JS.to_number window outputs].
  destruct (division_of B rs (ConverterForm.fromCurrency f)
              (ConverterForm.toCurrency f)) as [[n d] |];
    destruct (ConverterForm.speechSynthesis env); cbn;
    (split; [reflexivity |]); (split; [| reflexivity]);
    rewrite <- ?app_assoc; reflexivity.
Qed.

Lemma offline_call_uses_cache_witness :
  (ConverterForm.getExchangeRate_call true offline_mode sample_form
     (page_of sample_world)).1
  = Done ({| ConverterForm.amount := "5";
             ConverterForm.fromCurrency := "USD";
             ConverterForm.toCurrency := "INR";
             ConverterForm.result := "5 USD = 415.00 INR (Cached)";
             ConverterForm.isLoading := false |}, None).
Proof.
  refine (eq_trans
            (proj1 (offline_call_uses_cache offline_mode sample_form
                      (page_of sample_world) sample_cache "USD" sample_rates 83
                      eq_refl eq_refl sample_world_fresh eq_refl eq_refl
                      eq_refl eq_refl _ _)) _);
    vm_compute; reflexivity.
Defined.

(** X17. In offline mode, when the cache has no truthy rate for the pair
    (no snapshot, an expired or unreadable one, a pair it cannot resolve),
    the form shows that no cached rate is available and clears the loading
    flag; nothing is handed to the history, and the message is spoken only
    for a conversion the user asked for. *)
Theorem offline_call_without_rate
    (flag : bool) (env : ConverterForm.surroundings) (f : ConverterForm.form)
    (p : page) (rate : JS.value) :
  ConverterForm.isOfflineMode env = true ->
  ConverterForm.isLoading f = false ->
  (getCachedRate (ConverterForm.fromCurrency f) (ConverterForm.toCurrency f)
     (window p)).1 = Ok rate ->
  JS.truthy rate = false ->
  (ConverterForm.getExchangeRate_call flag env f p).1
  = Done (shown no_rate_message f, None)
  /\ outputs (ConverterForm.getExchangeRate_call flag env f p).2
     = (outputs p
        ++ if flag
           then spoken env no_rate_message
           else [])%list.
Proof.
  intros Hoff Hload Hrate Hfalsy.
  unfold ConverterForm.getExchangeRate_call, ConverterForm.from_cache,
    ConverterForm.explain, ConverterForm.speakResult, console_log, shown, spoken,
    no_rate_message.
  rewrite Hoff, Hload. run_page.
  destruct (getCachedRate _ _ (window p)) as [r w']. cbn [fst] in Hrate. subst r.
  rewrite Hfalsy. cbn [window outputs fst snd].
  destruct flag, (ConverterForm.speechSynthesis env); cbn;
    (split; [reflexivity |]);
    first [ reflexivity | symmetry; apply app_nil_r
          | rewrite <- !app_assoc; reflexivity ].
Qed.

Lemma offline_call_without_rate_witness :
  (ConverterForm.getExchangeRate_call true offline_mode sample_form
     (page_of (empty_world sample_time))).1
  = Done (shown no_rate_message sample_form, None)
  /\ outputs (ConverterForm.getExchangeRate_call true offline_mode sample_form
                (page_of (empty_world sample_time))).2
     = [CancelSpeech; Speak no_rate_message].
Proof.
  exact (offline_call_without_rate true offline_mode sample_form
           (page_of (empty_world sample_time)) JS.Null
           eq_refl eq_refl eq_refl eq_refl).
Defined.

(** X18. Whatever the reply and whatever storage holds, the rest of
    [getExchangeRate] never throws, clears the loading flag, and changes
    nothing of the form but the result text. *)
Theorem settle_clears_loading
    (flag : bool) (env : ConverterForm.surroundings) (c : ConverterForm.form)
    (reply : settled) (f : ConverterForm.form) (p : page) :
  exists (text : string),
    (ConverterForm.getExchangeRate_settle flag env c reply f p).1
    = Done (shown text f).
Proof.
  unfold ConverterForm.getExchangeRate_settle, ConverterForm.from_reply,
    ConverterForm.from_cache, ConverterForm.conclude, ConverterForm.explain,
    ConverterForm.speakResult, fetchAndCacheAllRates_call, product_toFixed,
    Date_now, console_log, shown.
  run_page. cbn [window outputs].
  destruct reply as [error | | error | data]; cbn [window outputs];
    try destruct data; cbn [window outputs];
    repeat match goal with
           | |- context [getCachedRate ?a ?b ?w] =>
               destruct (getCachedRate a b w) as [[? | ?] ?]; cbn [window outputs]
           end;
    split_cases; cbn [fst snd window outputs]; eexists; reflexivity.
Qed.

Lemma from_reply_failed (c : ConverterForm.form) (reply : settled) (p : page) :
  failed reply = true ->
  exists error, ConverterForm.from_reply c reply p = (Raised error, p).
Proof.
  intros Hfail. unfold ConverterForm.from_reply.
  destruct reply as [error | | error | data]; try destruct data;
    try discriminate Hfail; eexists; reflexivity.
Qed.

Lemma from_cache_found
    (c : ConverterForm.form) (message : string) (p : page)
    (found : option float) (w' : world) :
  getCachedRate (ConverterForm.fromCurrency c) (ConverterForm.toCurrency c) (window p)
  = (Ok (rate_value found), w') ->
  ConverterForm.from_cache c message p
  = (match found with
     | Some r =>
         if JS.falsy_number r then Raised (Error message)
         else Done (JS.Number r, ConverterForm.result_text c (converted r c) true, true)
     | None => Raised (Error message)
     end, {| window := w'; outputs := outputs p |}).
Proof.
  intros Hcache. unfold ConverterForm.from_cache, product_toFixed, converted.
  run_page. rewrite Hcache.
  destruct found as [r |]; cbn [rate_value JS.truthy JS.to_number];
    [destruct (JS.falsy_number r) |]; reflexivity.
Qed.

(** X19. When the request fails (it is rejected, or the response is not
    [ok], or its body is not JSON or is [null]), the form falls back on the
    cache: with a truthy cached rate [r] it shows the conversion marked
    [(Cached)]; otherwise it shows the connection message.  No request to
    refresh the cache is sent. *)
Theorem failed_request_falls_back
    (flag : bool) (env : ConverterForm.surroundings) (c f : ConverterForm.form)
    (p : page) (reply : settled) (found : option float) (w' : world) :
  failed reply = true ->
  ConverterForm.isOfflineMode env = false ->
  getCachedRate (ConverterForm.fromCurrency c) (ConverterForm.toCurrency c)
    (with_event (ConsoleLog "Online request failed, trying cache...") (window p))
  = (Ok (rate_value found), w') ->
  (ConverterForm.getExchangeRate_settle flag env c reply f p).1
  = Done (shown (match found with
                 | Some r =>
                     if JS.falsy_number r then no_connection_message
                     else ConverterForm.result_text c (converted r c) true
                 | None => no_connection_message
                 end) f)
  /\ exists added : list output,
       outputs (ConverterForm.getExchangeRate_settle flag env c reply f p).2
       = (outputs p ++ added)%list
       /\ no_request added = true.
Proof.
  intros Hfail Honline Hcache.
  destruct (from_reply_failed c reply p Hfail) as (error & Hreply).
  unfold ConverterForm.getExchangeRate_settle, mbind, P_bind, attempt.
  rewrite Hreply. unfold lift, console_log. cbn [window outputs].
  rewrite (from_cache_found c _
             {| window := with_event (ConsoleLog "Online request failed, trying cache...")
                            (window p);
                outputs := outputs p |} found w' Hcache).
  unfold ConverterForm.conclude, ConverterForm.explain, ConverterForm.speakResult,
    product_toFixed, Date_now, console_log, shown, no_connection_message.
  rewrite Honline. run_page.
  destruct found as [r |]; [destruct (JS.falsy_number r) |];
    destruct flag, (ConverterForm.speechSynthesis env);
    cbn [fst snd window outputs JS.to_number];
    (split; [reflexivity |]); eexists; (split; [close_outputs | reflexivity]).
Qed.

Lemma failed_request_falls_back_witness :
  (ConverterForm.getExchangeRate_settle true online_mode sample_form NotOk
     sample_form (page_of sample_world)).1
  = Done (shown "5 USD = 415.00 INR (Cached)" sample_form).
Proof.
  refine (eq_trans
            (proj1 (failed_request_falls_back true online_mode sample_form
                      sample_form (page_of sample_world) NotOk (Some 83%float) _
                      eq_refl eq_refl _)) _);
    vm_compute; reflexivity.
Defined.

Lemma from_reply_body
    (c : ConverterForm.form) (data : JS.value) (p : page) (x : float) :
  failed (Json data) = false ->
  JS.to_number (JS.get data "conversion_rate") = Some x ->
  ConverterForm.from_reply c (Json data) p
  = (Done (JS.get data "conversion_rate",
           ConverterForm.result_text c (converted x c) false, false),
     {| window := window p;
        outputs := (outputs p
                    ++ [Request (latest_url ConverterForm.API_KEY
                                   (ConverterForm.fromCurrency c))])%list |}).
Proof.
  intros Hbody Hnumber.
  unfold ConverterForm.from_reply, member, fetchAndCacheAllRates_call,
    product_toFixed, converted.
  destruct data; try discriminate Hbody; run_page; rewrite Hnumber; reflexivity.
Qed.

Lemma nan_product (y : float) : is_nan (nan * y)%float = true.
Proof.
  unfold is_nan. rewrite FloatAxioms.eqb_spec, FloatAxioms.mul_spec.
  reflexivity.
Qed.

(** X20. When the request gave a body, its [conversion_rate] is used as it
    is: whatever number [x] it converts to, the form shows
    [(x * amount).toFixed(2)] without the mark [(Cached)], one request for
    the full table of the source currency is sent, and a conversion the
    user asked for is handed to the history, not flagged as from the cache,
    and spoken.  Storage is not touched in this step, and the [result] field
    of the body is not looked at. *)
Theorem online_reply_converts
    (flag : bool) (env : ConverterForm.surroundings) (c f : ConverterForm.form)
    (p : page) (data : JS.value) (x : float) :
  failed (Json data) = false ->
  JS.to_number (JS.get data "conversion_rate") = Some x ->
  (ConverterForm.getExchangeRate_settle flag env c (Json data) f p).1
  = Done (shown (ConverterForm.result_text c (converted x c) false) f)
  /\ outputs (ConverterForm.getExchangeRate_settle flag env c (Json data) f p).2
     = (outputs p
        ++ Request (latest_url ConverterForm.API_KEY (ConverterForm.fromCurrency c))
           :: (if flag
               then AddToHistory
                      (entry c (clock (window p)) (converted x c)
                         (ConverterForm.result_text c (converted x c) false) false)
                    :: spoken env (ConverterForm.result_text c (converted x c) false)
               else []))%list
  /\ localStorage (window (ConverterForm.getExchangeRate_settle flag env c
                             (Json data) f p).2)
     = localStorage (window p).
Proof.
  intros Hbody Hnumber.
  unfold ConverterForm.getExchangeRate_settle, mbind, P_bind, attempt.
  rewrite (from_reply_body c data p x Hbody Hnumber).
  unfold ConverterForm.conclude, ConverterForm.speakResult, product_toFixed,
    Date_now, console_log, shown, converted, entry, spoken.
  rewrite Hnumber. run_page.
  destruct flag, (ConverterForm.speechSynthesis env);
    cbn [fst snd window outputs JS.to_number localStorage with_event];
    (split; [reflexivity |]); (split; [| reflexivity]);
    rewrite <- ?app_assoc; reflexivity.
Qed.

Lemma online_reply_converts_witness :
  (ConverterForm.getExchangeRate_settle true online_mode sample_form
     sample_pair_reply sample_form (page_of (empty_world sample_time))).1
  = Done (shown "5 USD = 415.00 INR" sample_form).
Proof.
  refine (eq_trans
            (proj1 (online_reply_converts true online_mode sample_form sample_form
                      (page_of (empty_world sample_time))
                      (JS.Object [("result", JS.Str "success");
                                  ("conversion_rate", JS.Number 83)])
                      83 eq_refl eq_refl)) _);
    vm_compute; reflexivity.
Defined.

(** X21. A body without [conversion_rate] (an error reply of the service,
    say) is not told apart from a rate: the form shows [NaN] as the
    converted amount, without falling back on the cache, and a conversion
    the user asked for goes into the history with [NaN] as its result. *)
Theorem reply_without_rate_shows_NaN
    (env : ConverterForm.surroundings) (c f : ConverterForm.form)
    (p : page) (data : JS.value) :
  failed (Json data) = false ->
  JS.get data "conversion_rate" = JS.Undefined ->
  (ConverterForm.getExchangeRate_settle true env c (Json data) f p).1
  = Done (shown (ConverterForm.result_text c "NaN" false) f)
  /\ In (AddToHistory
           (entry c (clock (window p)) "NaN"
              (ConverterForm.result_text c "NaN" false) false))
        (outputs (ConverterForm.getExchangeRate_settle true env c (Json data) f p).2).
Proof.
  intros Hbody Hrate.
  assert (Hnumber : JS.to_number (JS.get data "conversion_rate") = Some nan)
    by (rewrite Hrate; reflexivity).
  assert (HNaN : toFixed (nan * JS.string_to_number (ConverterForm.amount c)) 2
                 = "NaN")
    by (unfold toFixed; rewrite nan_product; reflexivity).
  unfold ConverterForm.getExchangeRate_settle, mbind, P_bind, attempt.
  rewrite (from_reply_body c data p nan Hbody Hnumber).
  unfold ConverterForm.conclude, ConverterForm.speakResult, product_toFixed,
    Date_now, console_log, shown, entry, converted.
  rewrite Hnumber. cbn [JS.to_number]. rewrite !HNaN. run_page.
  destruct (ConverterForm.speechSynthesis env);
    cbn [fst snd window outputs];
    (split; [reflexivity |]); rewrite !in_app_iff; cbn; tauto.
Qed.

Lemma reply_without_rate_shows_NaN_witness :
  (ConverterForm.getExchangeRate_settle true online_mode sample_form
     (Json (JS.Object [("result", JS.Str "error");
                       ("error-type", JS.Str "invalid-key")]))
     sample_form (page_of sample_world)).1
  = Done (shown "5 USD = NaN INR" sample_form).
Proof.
  exact (proj1 (reply_without_rate_shows_NaN online_mode sample_form sample_form
                  (page_of sample_world)
                  (JS.Object [("result", JS.Str "error");
                              ("error-type", JS.Str "invalid-key")])
                  eq_refl eq_refl)).
Defined.

(* ===================================================================== *)
(** * Properties of the offline indicator *)
(* ===================================================================== *)

Import OfflineIndicator.

(** The handlers of the hook return on every storage. *)
Lemma handleOnline_result (h : hook) (w : world) :
  exists (offline : bool) (w' : world),
    handleOnline h w
    = (Ok {| isOnline := true; isOfflineMode := offline && isOfflineMode h |}, w').
Proof.
  unfold handleOnline. run. cbn [fst snd].
  destruct (storage_operations_total
              (with_event (ConsoleLog "Network connection restored") w))
    as (_ & _ & _ & _ & (offline & Ho)).
  destruct (getOfflineStatus _) as [r w']. cbn [fst] in Ho. subst r.
  exists offline, w'. destruct offline; reflexivity.
Qed.

Lemma handleOffline_result (h : hook) (w : world) :
  exists w' : world,
    handleOffline h w = (Ok {| isOnline := false; isOfflineMode := true |}, w').
Proof.
  unfold handleOffline. run.
  destruct (storage_operations_total w) as (_ & _ & _ & Hs & _).
  specialize (Hs true).
  destruct (setOfflineStatus true w) as [r w']. cbn [fst] in Hs. subst r.
  eexists. reflexivity.
Qed.

Lemma toggleOfflineMode_result (h : hook) (w : world) :
  exists w' : world,
    toggleOfflineMode h w
    = (Ok (JS.Undefined, setIsOfflineMode (negb (isOfflineMode h)) h), w').
Proof.
  unfold toggleOfflineMode. run.
  destruct (storage_operations_total w) as (_ & _ & _ & Hs & _).
  specialize (Hs (negb (isOfflineMode h))).
  destruct (setOfflineStatus _ w) as [r w']. cbn [fst] in Hs. subst r.
  eexists. reflexivity.
Qed.

Lemma exitOfflineMode_result (h : hook) (w : world) :
  exists w' : world,
    exitOfflineMode h w
    = (Ok (JS.Undefined, if isOnline h then setIsOfflineMode false h else h), w').
Proof.
  unfold exitOfflineMode. destruct (isOnline h); run.
  - destruct (storage_operations_total w) as (_ & _ & _ & Hs & _).
    specialize (Hs false).
    destruct (setOfflineStatus false w) as [r w']. cbn [fst] in Hs. subst r.
    eexists. reflexivity.
  - eexists. reflexivity.
Qed.

Lemma clearCache_result (w : world) : exists w' : world, clearCache w = (Ok tt, w').
Proof.
  destruct (storage_operations_total w) as (_ & Hc & _).
  destruct (clearCache w) as [r w']. cbn [fst] in Hc. subst r.
  eexists. reflexivity.
Qed.

Lemma offered_exit (h : hook) (info : cacheInfo) :
  In SwitchToOnline (controls h info) -> isOnline h = true /\ isOfflineMode h = true.
Proof.
  unfold controls.
  destruct (isOnline h), (isOfflineMode h), (hasCache info); cbn;
    intuition discriminate.
Qed.

Lemma offered_toggle (h : hook) (info : cacheInfo) :
  In TestOfflineMode (controls h info) -> isOnline h = true /\ isOfflineMode h = false.
Proof.
  unfold controls.
  destruct (isOnline h), (isOfflineMode h), (hasCache info); cbn;
    intuition discriminate.
Qed.

Lemma click_exit_offered
    (c : component) (info : cacheInfo) (confirmed : bool) (w : world) :
  healthy (localStorage w) ->
  In SwitchToOnline (controls (network c) info) ->
  exists c' w',
    click SwitchToOnline confirmed c w = (Ok c', w')
    /\ mode_of (network c') = Online /\ persisted w' = false.
Proof.
  intros Hh Hoff. apply offered_exit in Hoff as [Ho Hm].
  unfold click, exitOfflineMode. rewrite Ho. run.
  rewrite (setOfflineStatus_healthy false w Hh).
  eexists _, _. split; [reflexivity |].
  split; [reflexivity |].
  unfold persisted. cbn. now rewrite lookup_insert_eq.
Qed.

Lemma click_toggle_offered
    (c : component) (info : cacheInfo) (confirmed : bool) (w : world) :
  healthy (localStorage w) ->
  In TestOfflineMode (controls (network c) info) ->
  exists c' w',
    click TestOfflineMode confirmed c w = (Ok c', w')
    /\ mode_of (network c') = OfflineManual /\ persisted w' = true.
Proof.
  intros Hh Hoff. apply offered_toggle in Hoff as [Ho Hm].
  unfold click, toggleOfflineMode. rewrite Hm. cbn [negb]. run.
  rewrite (setOfflineStatus_healthy true w Hh).
  eexists _, _. split; [reflexivity |].
  split; [unfold mode_of; cbn; now rewrite Ho |].
  unfold persisted. cbn. now rewrite lookup_insert_eq.
Qed.

(** X22. The buttons of the indicator do what they say whenever they are
    on offer, on healthy storage: [Switch to Online] is rendered only where
    [exitOfflineMode] goes through (its refusal is out of reach of the
    panel) and leaves the indicator online with the flag at false;
    [Test Offline Mode] is rendered only where [toggleOfflineMode] turns
    offline mode on, with the flag at true; and after a confirmed
    [Clear Cache] the next rendering reports no cache and offers no
    [Clear Cache]. *)
Theorem offered_buttons_do_what_they_say
    (c : component) (info : cacheInfo) (confirmed : bool) (w : world) :
  healthy (localStorage w) ->
  (In SwitchToOnline (controls (network c) info) ->
   exists c' w',
     click SwitchToOnline confirmed c w = (Ok c', w')
     /\ mode_of (network c') = Online /\ persisted w' = false)
  /\ (In TestOfflineMode (controls (network c) info) ->
      exists c' w',
        click TestOfflineMode confirmed c w = (Ok c', w')
        /\ mode_of (network c') = OfflineManual /\ persisted w' = true)
  /\ exists c' w' v w'',
       click ClearCache true c w = (Ok c', w')
       /\ render (setShowCacheDetails true c') w' = (Ok v, w'')
       /\ ~ In ClearCache (offered v)
       /\ text (status v) <> "Offline Mode (Cached Rates)".
Proof.
  intros Hh. pose proof Hh as [Hd Hq].
  split; [| split].
  - apply (click_exit_offered c info confirmed w Hh).
  - apply (click_toggle_offered c info confirmed w Hh).
  - unfold click, handleClearCache. cbv beta delta [mbind mret M_bind M_ret] iota.
    rewrite (clearCache_granted w Hd).
    destruct (purge_lookup (items (localStorage w))) as (H1 & _ & _).
    destruct (getCacheInfo_no_snapshot
                (with_event (ConsoleLog "Currency cache cleared")
                   (with_items (purge (items (localStorage w))) w)))
      as (info' & Hi & Hn); [exact Hd | exact H1 |].
    unfold render. cbv beta delta [mbind mret M_bind M_ret] iota.
    destruct (getCacheInfo _) as [r w''] eqn:Hg. cbn [fst] in Hi. subst r.
    eexists _, _, _, _. split; [reflexivity |].
    rewrite Hg. split; [reflexivity |].
    cbn [offered status showCacheDetails setShowCacheDetails network].
    unfold controls, getStatusInfo. rewrite Hn.
    split.
    + rewrite !in_app_iff.
      destruct (isOnline (network c)), (isOfflineMode (network c)); cbn;
        intuition discriminate.
    + destruct (isOnline (network c)), (isOfflineMode (network c)); cbn;
        discriminate.
Qed.

Lemma offered_buttons_do_what_they_say_witness :
  exists c' w',
    click SwitchToOnline false (open_panel manual_hook) restored_world = (Ok c', w')
    /\ mode_of (network c') = Online /\ persisted w' = false.
Proof.
  exact (proj1 (offered_buttons_do_what_they_say (open_panel manual_hook) sample_info
                  false restored_world (conj eq_refl eq_refl))
           (or_introl eq_refl)).
Defined.

Lemma react_result (e : happening) (c : component) (w : world) :
  exists c' w', react e c w = (Ok c', w').
Proof.
  destruct e as [| | | [] confirmed]; unfold react, click, handleClearCache.
  - destruct (handleOnline_result (network c) w) as (o & w' & H).
    cbv beta delta [mbind mret M_bind M_ret] iota. rewrite H. eexists _, _; reflexivity.
  - destruct (handleOffline_result (network c) w) as (w' & H).
    cbv beta delta [mbind mret M_bind M_ret] iota. rewrite H. eexists _, _; reflexivity.
  - eexists _, _; reflexivity.
  - destruct (exitOfflineMode_result (network c) w) as (w' & H).
    cbv beta delta [mbind mret M_bind M_ret] iota. rewrite H. eexists _, _; reflexivity.
  - destruct (toggleOfflineMode_result (network c) w) as (w' & H).
    cbv beta delta [mbind mret M_bind M_ret] iota. rewrite H. eexists _, _; reflexivity.
  - destruct confirmed; [| eexists _, _; reflexivity].
    destruct (clearCache_result w) as (w' & H).
    cbv beta delta [mbind mret M_bind M_ret] iota. rewrite H. eexists _, _; reflexivity.
Qed.

(** X23. The status [No Connection] is never entered.  Whatever happens
    to the mounted indicator (a window event, a click on the status line or
    on a button it has on offer), if it shows [No Connection] afterwards
    then what happened was no window event and the hook is as it was: the
    status can only be there from the start (a page loaded without network
    and without the persisted flag), and the first window event ends it. *)
Theorem no_connection_never_entered
    (e : happening) (c c' : component) (w w' : world) (info info' : cacheInfo) :
  (forall b confirmed, e = clicked b confirmed -> In b (controls (network c) info)) ->
  react e c w = (Ok c', w') ->
  text (getStatusInfo (network c') info') = "No Connection" ->
  is_window_event e = false /\ network c' = network c.
Proof.
  intros Hoffered Hreact Htext.
  assert (forall h : hook,
            text (getStatusInfo h info') = "No Connection" ->
            isOnline h = false /\ isOfflineMode h = false) as Hshown.
  { intros h. unfold getStatusInfo.
    destruct (isOfflineMode h), (isOnline h), (hasCache info'); cbn;
      intros H; try discriminate H; split; reflexivity. }
  apply Hshown in Htext as [Ho Hm].
  destruct e as [| | | b confirmed]; unfold react in Hreact.
  - destruct (handleOnline_result (network c) w) as (o & w1 & H).
    revert Hreact. cbv beta delta [mbind mret M_bind M_ret] iota. rewrite H.
    intros [= <- <-]. discriminate Ho.
  - destruct (handleOffline_result (network c) w) as (w1 & H).
    revert Hreact. cbv beta delta [mbind mret M_bind M_ret] iota. rewrite H.
    intros [= <- <-]. discriminate Hm.
  - injection Hreact as <- <-. split; reflexivity.
  - specialize (Hoffered b confirmed eq_refl). unfold click in Hreact.
    destruct b.
    + apply offered_exit in Hoffered as [Hon _].
      destruct (exitOfflineMode_result (network c) w) as (w1 & H).
      revert Hreact. cbv beta delta [mbind mret M_bind M_ret] iota. rewrite H, Hon.
      intros [= <- <-]. cbn in Ho. congruence.
    + apply offered_toggle in Hoffered as [Hon _].
      destruct (toggleOfflineMode_result (network c) w) as (w1 & H).
      revert Hreact. cbv beta delta [mbind mret M_bind M_ret] iota. rewrite H.
      intros [= <- <-]. cbn in Ho. congruence.
    + unfold handleClearCache in Hreact. destruct confirmed.
      * destruct (clearCache_result w) as (w1 & H).
        revert Hreact. cbv beta delta [mbind mret M_bind M_ret] iota. rewrite H.
        intros [= <- <-]. split; reflexivity.
      * injection Hreact as <- <-. split; reflexivity.
Qed.

Lemma no_connection_never_entered_witness :
  is_window_event statusClicked = false
  /\ network (setShowCacheDetails false (open_panel disconnected_hook))
     = network (open_panel disconnected_hook).
Proof.
  apply (no_connection_never_entered statusClicked (open_panel disconnected_hook)
           (setShowCacheDetails false (open_panel disconnected_hook))
           sample_world sample_world sample_info sample_info).
  - intros b confirmed H. discriminate H.
  - reflexivity.
  - reflexivity.
Defined.

(* ===================================================================== *)
(** * Properties of the two uses of the hook *)
(* ===================================================================== *)

Import Mounted.

Lemma dispatch_result (e : happening) (a : hooks) (w : world) :
  exists a' w',
    dispatch e a w = (Ok a', w')
    /\ (e <> windowOffline -> isOfflineMode (converter a) = false ->
        isOfflineMode (converter a') = false)
    /\ (e <> windowOnline -> isOfflineMode (converter a) = true ->
        isOfflineMode (converter a') = true).
Proof.
  unfold dispatch.
  destruct (react_result e (indicator a) w) as (i & w1 & Hi).
  cbv beta delta [mbind mret M_bind M_ret] iota. rewrite Hi.
  destruct e as [| | | b confirmed].
  - destruct (handleOnline_result (converter a) w1) as (o & w2 & H). rewrite H.
    eexists _, _. split; [reflexivity |]. cbn [converter isOfflineMode].
    split; [intros _ ->; apply andb_false_r | intros N; now destruct N].
  - destruct (handleOffline_result (converter a) w1) as (w2 & H). rewrite H.
    eexists _, _. split; [reflexivity |]. cbn [converter isOfflineMode].
    split; [intros N; now destruct N | reflexivity].
  - eexists _, _. split; [reflexivity |]. cbn [converter]. tauto.
  - eexists _, _. split; [reflexivity |]. cbn [converter]. tauto.
Qed.

(** The form's use of the hook changes its offline mode at window events
    only: nothing but an [offline] event turns it on, nothing but an
    [online] event turns it off. *)
Lemma converter_follows_events (es : list happening) (a : hooks) (w : world) :
  exists a' w',
    run_all es a w = (Ok a', w')
    /\ (~ In windowOffline es -> isOfflineMode (converter a) = false ->
        isOfflineMode (converter a') = false)
    /\ (~ In windowOnline es -> isOfflineMode (converter a) = true ->
        isOfflineMode (converter a') = true).
Proof.
  revert a w. induction es as [| e es IH]; intros a w.
  - exists a, w. cbn. tauto.
  - destruct (dispatch_result e a w) as (a1 & w1 & Hd & Hoff & Hon).
    destruct (IH a1 w1) as (a' & w' & Hr & Hoff' & Hon').
    exists a', w'. split.
    + cbn [run_all]. cbv beta delta [mbind M_bind] iota. now rewrite Hd.
    + split; intros Hn Hc.
      * apply Hoff'; [intros Hin; apply Hn; now right |].
        apply Hoff; [intros ->; apply Hn; now left | exact Hc].
      * apply Hon'; [intros Hin; apply Hn; now right |].
        apply Hon; [intros ->; apply Hn; now left | exact Hc].
Qed.

(** X24. [Test Offline Mode] does not reach the form.  The indicator and
    the form each keep their own offline mode; a click on the button, where
    it is on offer, puts the indicator in offline mode and the flag at true,
    but the form stays out of offline mode through everything that happens
    afterwards short of an [offline] event, and a conversion still goes to
    the network. *)
Theorem test_offline_mode_not_seen_by_form
    (a : hooks) (w : world) (info : cacheInfo) (confirmed : bool)
    (es : list happening) (flag speech : bool) (f : ConverterForm.form) (p : page) :
  healthy (localStorage w) ->
  In TestOfflineMode (controls (network (indicator a)) info) ->
  isOfflineMode (converter a) = false ->
  ~ In windowOffline es ->
  ConverterForm.isLoading f = false ->
  exists a1 w1 a2 w2,
    dispatch (clicked TestOfflineMode confirmed) a w = (Ok a1, w1)
    /\ mode_of (network (indicator a1)) = OfflineManual
    /\ persisted w1 = true
    /\ run_all es a1 w1 = (Ok a2, w2)
    /\ isOfflineMode (converter a2) = false
    /\ In (Request (ConverterForm.pair_url ConverterForm.API_KEY
                      (ConverterForm.fromCurrency f) (ConverterForm.toCurrency f)))
          (outputs (ConverterForm.getExchangeRate_call flag (surroundings_of a2 speech)
                      f p).2).
Proof.
  intros Hh Hoffered Hc Hes Hload.
  destruct (click_toggle_offered (indicator a) info confirmed w Hh Hoffered)
    as (i & w1 & Hclick & Hmode & Hflag).
  assert (dispatch (clicked TestOfflineMode confirmed) a w
          = (Ok {| indicator := i; converter := converter a |}, w1)) as Hd.
  { unfold dispatch, react. cbv beta delta [mbind mret M_bind M_ret] iota.
    now rewrite Hclick. }
  destruct (converter_follows_events es {| indicator := i; converter := converter a |} w1)
    as (a2 & w2 & Hr & Hoff & _).
  specialize (Hoff Hes Hc).
  exists {| indicator := i; converter := converter a |}, w1, a2, w2.
  split; [exact Hd |]. split; [exact Hmode |]. split; [exact Hflag |].
  split; [exact Hr |]. split; [exact Hoff |].
  unfold ConverterForm.getExchangeRate_call, surroundings_of.
  cbn [ConverterForm.isOfflineMode]. rewrite Hload, Hoff. run_page.
  cbn [snd outputs]. apply in_app_iff. right. now left.
Qed.

Lemma test_offline_mode_not_seen_by_form_witness :
  exists a1 w1 a2 w2,
    dispatch (clicked TestOfflineMode false) (both online_hook) sample_world
    = (Ok a1, w1)
    /\ mode_of (network (indicator a1)) = OfflineManual
    /\ persisted w1 = true
    /\ run_all [windowOnline; statusClicked] a1 w1 = (Ok a2, w2)
    /\ isOfflineMode (converter a2) = false
    /\ In (Request (ConverterForm.pair_url ConverterForm.API_KEY
                      (ConverterForm.fromCurrency sample_form)
                      (ConverterForm.toCurrency sample_form)))
          (outputs (ConverterForm.getExchangeRate_call true (surroundings_of a2 true)
                      sample_form (page_of sample_world)).2).
Proof.
  apply (test_offline_mode_not_seen_by_form (both online_hook) sample_world
           sample_info false [windowOnline; statusClicked] true true sample_form
           (page_of sample_world)).
  - split; reflexivity.
  - left. reflexivity.
  - reflexivity.
  - intros [H | [H | []]]; discriminate H.
  - reflexivity.
Defined.

(** X25. [Switch to Online] does not reach the form either.  With both
    uses of the hook in offline mode (as after the network was lost), a
    click on the button, where it is on offer, brings the indicator back
    online and the flag to false, but the form stays in offline mode, and so
    converts from the cache alone, through everything that happens
    afterwards short of an [online] event. *)
Theorem switch_to_online_not_seen_by_form
    (a : hooks) (w : world) (info : cacheInfo) (confirmed : bool)
    (es : list happening) (speech : bool) :
  healthy (localStorage w) ->
  In SwitchToOnline (controls (network (indicator a)) info) ->
  isOfflineMode (converter a) = true ->
  ~ In windowOnline es ->
  exists a1 w1 a2 w2,
    dispatch (clicked SwitchToOnline confirmed) a w = (Ok a1, w1)
    /\ mode_of (network (indicator a1)) = Online
    /\ persisted w1 = false
    /\ run_all es a1 w1 = (Ok a2, w2)
    /\ ConverterForm.isOfflineMode (surroundings_of a2 speech) = true.
Proof.
  intros Hh Hoffered Hc Hes.
  destruct (click_exit_offered (indicator a) info confirmed w Hh Hoffered)
    as (i & w1 & Hclick & Hmode & Hflag).
  assert (dispatch (clicked SwitchToOnline confirmed) a w
          = (Ok {| indicator := i; converter := converter a |}, w1)) as Hd.
  { unfold dispatch, react. cbv beta delta [mbind mret M_bind M_ret] iota.
    now rewrite Hclick. }
  destruct (converter_follows_events es {| indicator := i; converter := converter a |} w1)
    as (a2 & w2 & Hr & _ & Hon).
  specialize (Hon Hes Hc).
  exists {| indicator := i; converter := converter a |}, w1, a2, w2.
  split; [exact Hd |]. split; [exact Hmode |]. split; [exact Hflag |].
  split; [exact Hr |]. exact Hon.
Qed.

Lemma switch_to_online_not_seen_by_form_witness :
  exists a1 w1 a2 w2,
    dispatch (clicked SwitchToOnline false) (both manual_hook) restored_world
    = (Ok a1, w1)
    /\ mode_of (network (indicator a1)) = Online
    /\ persisted w1 = false
    /\ run_all [statusClicked; windowOffline] a1 w1 = (Ok a2, w2)
    /\ ConverterForm.isOfflineMode (surroundings_of a2 true) = true.
Proof.
  apply (switch_to_online_not_seen_by_form (both manual_hook) restored_world
           sample_info false [statusClicked; windowOffline] true).
  - split; reflexivity.
  - left. reflexivity.
  - reflexivity.
  - intros [H | [H | []]]; discriminate H.
Defined.

(* ===================================================================== *)
(** * Properties of [NetworkUtils] *)
(* ===================================================================== *)

(** X26. The two readings of the connection agree: [isConnectionSuitable]
    is false exactly when [getConnectionSpeed] reports [slow-2g] or [2g];
    in particular a connection of unknown speed counts as suitable. *)
Theorem unsuitable_iff_slow (nav : NetworkUtils.navigator) :
  NetworkUtils.isConnectionSuitable nav = false
  <-> NetworkUtils.getConnectionSpeed nav = JS.Str "slow-2g"
      \/ NetworkUtils.getConnectionSpeed nav = JS.Str "2g".
Proof.
  unfold NetworkUtils.isConnectionSuitable, NetworkUtils.getConnectionSpeed.
  destruct nav as [v |]; [| cbn; intuition discriminate].
  destruct v as [| | b | x | s | xs | fields]; cbn;
    try (split; [discriminate | intros [H | H]; discriminate H]).
  - destruct b; split; try discriminate; intros [H | H]; discriminate H.
  - destruct (JS.falsy_number x); cbn; split; try discriminate;
      intros [H | H]; discriminate H.
  - destruct (String.eqb_spec s "slow-2g") as [-> | N1]; cbn.
    + split; [intros _; now left | reflexivity].
    + destruct (String.eqb_spec s "2g") as [-> | N2]; cbn.
      * split; [intros _; now right | reflexivity].
      * split; [discriminate |].
        destruct (String.eqb s ""); cbn; intros [H | H];
          try discriminate H; injection H as ->; congruence.
Qed.

(* ===================================================================== *)
(** * Properties of [handleFormSubmit] *)
(* ===================================================================== *)

(** X27. Submitting the form empties the amount field, yet the conversion
    shown, recorded and spoken is of the amount that was typed: in offline
    mode with a truthy cached rate [r] for the pair, the form afterwards has
    an empty amount and the text of the typed amount at [r], and the entry
    handed to the history carries the typed amount. *)
Theorem submit_converts_typed_amount
    (env : ConverterForm.surroundings) (f : ConverterForm.form) (p : page)
    (r : float) (w' : world) :
  ConverterForm.isOfflineMode env = true ->
  ConverterForm.isLoading f = false ->
  getCachedRate (ConverterForm.fromCurrency f) (ConverterForm.toCurrency f) (window p)
  = (Ok (JS.Number r), w') ->
  JS.falsy_number r = false ->
  (ConverterForm.handleFormSubmit env f p).1
  = Done (ConverterForm.setAmount ""
            (shown (ConverterForm.result_text f (converted r f) true) f), None)
  /\ outputs (ConverterForm.handleFormSubmit env f p).2
     = (outputs p
        ++ AddToHistory
             (entry f (clock w') (converted r f)
                (ConverterForm.result_text f (converted r f) true) true)
           :: spoken env (ConverterForm.result_text f (converted r f) true))%list.
Proof.
  intros Hoff Hload Hcache Htruthy.
  unfold ConverterForm.handleFormSubmit, ConverterForm.getExchangeRate_call,
    mbind, P_bind, attempt.
  rewrite Hoff, Hload.
  rewrite (from_cache_found f _ p (Some r) w' Hcache), Htruthy.
  unfold ConverterForm.conclude, ConverterForm.speakResult, product_toFixed,
    Date_now, console_log, shown, converted, entry, spoken.
  run_page. cbn [JS.to_number window outputs].
  destruct (ConverterForm.speechSynthesis env); cbn;
    (split; [reflexivity |]); rewrite <- ?app_assoc; reflexivity.
Qed.

Lemma submit_converts_typed_amount_witness :
  (ConverterForm.handleFormSubmit offline_mode sample_form (page_of sample_world)).1
  = Done ({| ConverterForm.amount := "";
             ConverterForm.fromCurrency := "USD";
             ConverterForm.toCurrency := "INR";
             ConverterForm.result := "5 USD = 415.00 INR (Cached)";
             ConverterForm.isLoading := false |}, None).
Proof.
  refine (eq_trans
            (proj1 (submit_converts_typed_amount offline_mode sample_form
                      (page_of sample_world) 83 _ eq_refl eq_refl _ eq_refl)) _);
    vm_compute; reflexivity.
Defined.

(* ===================================================================== *)
(** * Properties of the form's fields *)
(* ===================================================================== *)

Lemma options_are_codes (code : string) :
  In code CurrencySelect.currencyCodes ->
  JS.currency_code code = true /\ String.length code = 3%nat.
Proof.
  assert (forallb (fun c => JS.currency_code c && Nat.eqb (String.length c) 3)
            CurrencySelect.currencyCodes = true) as Hall
    by (vm_compute; reflexivity).
  rewrite forallb_forall in Hall. intros Hin.
  apply Hall in Hin. apply andb_true_iff in Hin as [Hc Hl].
  split; [exact Hc | now apply Nat.eqb_eq].
Qed.

Lemma on_the_list (code : string) :
  existsb (String.eqb code) CurrencySelect.currencyCodes = true ->
  In code CurrencySelect.currencyCodes.
Proof.
  intros H. apply existsb_exists in H as (x & Hin & E).
  apply String.eqb_eq in E. now subst x.
Qed.

(** X28. The codes of the form are always codes of the dropdown.  From the
    state the form is mounted with, through any typing, picking from the
    dropdowns and swapping, both codes are options of the dropdown, and so
    non-empty strings of upper-case letters, which is what a read of a rate
    by its code relies on. *)
Theorem codes_stay_on_the_list (es : list ConverterForm.edit) :
  Forall ConverterForm.from_dropdown es ->
  let f := fold_left (fun f e => ConverterForm.change e f) es ConverterForm.initial in
  (In (ConverterForm.fromCurrency f) CurrencySelect.currencyCodes
   /\ In (ConverterForm.toCurrency f) CurrencySelect.currencyCodes)
  /\ JS.currency_code (ConverterForm.fromCurrency f) = true
  /\ JS.currency_code (ConverterForm.toCurrency f) = true.
Proof.
  intros Hes.
  assert (forall f0,
            In (ConverterForm.fromCurrency f0) CurrencySelect.currencyCodes
            /\ In (ConverterForm.toCurrency f0) CurrencySelect.currencyCodes ->
            let f := fold_left (fun f e => ConverterForm.change e f) es f0 in
            In (ConverterForm.fromCurrency f) CurrencySelect.currencyCodes
            /\ In (ConverterForm.toCurrency f) CurrencySelect.currencyCodes) as Hinv.
  { induction Hes as [| e es He Hes IH]; intros f0 H0; [exact H0 |].
    cbn [fold_left]. apply IH.
    destruct H0 as [Hfrom Hto].
    destruct e; cbn in He |- *; split; assumption. }
  assert (In "USD" CurrencySelect.currencyCodes
          /\ In "INR" CurrencySelect.currencyCodes) as Hinit.
  { split; apply on_the_list; vm_compute; reflexivity. }
  specialize (Hinv ConverterForm.initial Hinit). cbn zeta in Hinv |- *.
  split; [exact Hinv |].
  split; apply options_are_codes; apply Hinv.
Qed.

Lemma codes_stay_on_the_list_witness :
  JS.currency_code
    (ConverterForm.fromCurrency
       (fold_left (fun f e => ConverterForm.change e f)
          [ConverterForm.fromPicked "EUR"; ConverterForm.amountTyped "12";
           ConverterForm.swapClicked]
          ConverterForm.initial)) = true.
Proof.
  refine (proj1 (proj2 (codes_stay_on_the_list
                          [ConverterForm.fromPicked "EUR"; ConverterForm.amountTyped "12";
                           ConverterForm.swapClicked] _))).
  constructor; [apply on_the_list; vm_compute; reflexivity |].
  constructor; [exact I |].
  constructor; [exact I | constructor].
Defined.

(** X29. One request at a time.  Out of offline mode, a call of
    [getExchangeRate] on a form that is not loading sends the one request
    for the pair and leaves the form loading, with storage and console
    untouched; until that request has settled, any further call does
    nothing at all, and the settling puts an end to the loading. *)
Theorem one_request_at_a_time
    (flag flag' : bool) (env env' : ConverterForm.surroundings)
    (f : ConverterForm.form) (p : page) :
  ConverterForm.isOfflineMode env = false ->
  ConverterForm.isLoading f = false ->
  exists (f1 : ConverterForm.form) (p1 : page),
    ConverterForm.getExchangeRate_call flag env f p = (Done (f1, Some f), p1)
    /\ outputs p1
       = (outputs p
          ++ [Request (ConverterForm.pair_url ConverterForm.API_KEY
                         (ConverterForm.fromCurrency f)
                         (ConverterForm.toCurrency f))])%list
    /\ window p1 = window p
    /\ ConverterForm.isLoading f1 = true
    /\ (forall p2 : page,
          ConverterForm.getExchangeRate_call flag' env' f1 p2 = (Done (f1, None), p2))
    /\ (forall (reply : settled) (p2 : page),
          exists f2,
            (ConverterForm.getExchangeRate_settle flag env f reply f1 p2).1 = Done f2
            /\ ConverterForm.isLoading f2 = false).
Proof.
  intros Honline Hload.
  unfold ConverterForm.getExchangeRate_call. rewrite Honline, Hload. run_page.
  eexists _, _. split; [reflexivity |].
  cbn [outputs window ConverterForm.isLoading ConverterForm.setIsLoading].
  do 3 (split; [reflexivity |]).
  split; [intros p2; reflexivity |].
  intros reply p2.
  unfold ConverterForm.getExchangeRate_settle, ConverterForm.from_reply,
    ConverterForm.from_cache, ConverterForm.conclude, ConverterForm.explain,
    ConverterForm.speakResult, fetchAndCacheAllRates_call, product_toFixed,
    Date_now, console_log.
  run_page. cbn [window outputs].
  destruct reply as [error | | error | data]; cbn [window outputs];
    try destruct data; cbn [window outputs];
    repeat match goal with
           | |- context [getCachedRate ?a ?b ?w] =>
               destruct (getCachedRate a b w) as [[? | ?] ?]; cbn [window outputs]
           end;
    split_cases; cbn [fst snd window outputs]; eexists; split; reflexivity.
Qed.

Lemma one_request_at_a_time_witness :
  exists (f1 : ConverterForm.form) (p1 : page),
    ConverterForm.getExchangeRate_call true online_mode sample_form
      (page_of sample_world) = (Done (f1, Some sample_form), p1)
    /\ outputs p1
       = [Request "https://v6.exchangerate-api.com/v6/03c2100d937c820d564590fe/pair/USD/INR"]
    /\ ConverterForm.isLoading f1 = true.
Proof.
  destruct (one_request_at_a_time true true online_mode online_mode sample_form
              (page_of sample_world) eq_refl eq_refl)
    as (f1 & p1 & Hcall & Hout & _ & Hload & _).
  exists f1, p1. split; [exact Hcall |]. split; [| exact Hload].
  rewrite Hout. vm_compute. reflexivity.
Defined.
